(** * AncestralClust performance monitor: a shallow embedding of
      [performance.c] / [performance.h] and the properties of its
      recording engine.

    Conventions of the embedding.
    - C [int] values are [Z]; the atomic read-modify-write operations on
      [active_threads] wrap as two's complement 32-bit integers.
    - [size_t] values are [N]; [double] values are IEEE binary64 numbers
      ([PrimFloat.float]), with one NaN: the sign bit and the payload of
      a NaN are not represented.
    - The process-wide [g_perf_context] is passed explicitly, together with
      the thread-local ids, the static locals of [perf_get_cpu_usage] and
      the text written to every [FILE] stream ([perf_world]).
    - Whatever a call obtains from the operating system (clock readings,
      [/proc] contents, [getrusage], the results of [malloc] and [fopen])
      is an explicit argument of the embedded function.
    - A call is one atomic step: the interleaving of threads is at the
      granularity of API calls.  The section on producers that overlap
      is the exception: there a call of [perf_log_event_with_context] is
      split at its accesses to [log_count].
    - A memory access outside an object (a null [log_entries], an index
      outside an array) has no meaning in C; the embedded function then
      returns [Fault].
    - The pthread build is modelled ([_OPENMP] undefined), on a platform
      where [perf_milestone_t] is an unsigned type and [__linux__] is
      defined. *)

From Stdlib Require Import ZArith NArith String Ascii List Floats Lia.
From stdpp Require Import base option list gmap.

Local Open Scope Z_scope.

(* ====================================================================== *)
(** ** Outcomes of a call *)

Inductive fault : Type :=
| NullDeref
| OutOfBounds (index : Z).

Inductive result (A : Type) : Type :=
| Ok (a : A)
| Fault (why : fault).
Arguments Ok {A} a.
Arguments Fault {A} why.

#[export] Instance result_ret : MRet result := fun _ a => Ok a.
#[export] Instance result_bind : MBind result := fun _ _ f m =>
  match m with
  | Ok a => f a
  | Fault why => Fault why
  end.

(* ====================================================================== *)
(** ** Machine integers and doubles *)

(** Two's complement wrap-around of a 32-bit [int]. *)
Definition wrap_int (z : Z) : Z := (z + 2 ^ 31) mod 2 ^ 32 - 2 ^ 31.

(** Wrap-around of a 64-bit [size_t]. *)
Definition wrap_size (n : N) : N := (n mod 2 ^ 64)%N.

(** A C [int] used as a truth value. *)
Definition truthy (z : Z) : bool := negb (z =? 0).

Definition double : Type := float.

(** Conversion of an integer to [double], rounding to nearest even. *)
Definition double_of_Z (z : Z) : double :=
  SF2Prim (binary_normalize 53 1024 z 0 false).

Definition double_of_N (n : N) : double := double_of_Z (Z.of_N n).

(* ====================================================================== *)
(** ** Bounded strings: [strncpy], [snprintf] *)

Fixpoint str_take (n : nat) (s : string) : string :=
  match n, s with
  | S n', String c s' => String c (str_take n' s')
  | _, _ => EmptyString
  end.

Definition PERF_MAX_LABEL_LEN : nat := 64.
Definition PERF_MAX_FILENAME_LEN : nat := 256.

(** [strncpy(dst, src, PERF_MAX_LABEL_LEN - 1); dst[PERF_MAX_LABEL_LEN - 1] = 0],
    and likewise what [snprintf(dst, PERF_MAX_LABEL_LEN, ...)] leaves in
    [dst]: the first 63 characters of the text. *)
Definition bounded_label (src : string) : string :=
  str_take (PERF_MAX_LABEL_LEN - 1) src.

Fixpoint str_prefix (p s : string) : bool :=
  match p, s with
  | EmptyString, _ => true
  | String a p', String b s' => if Ascii.eqb a b then str_prefix p' s' else false
  | String _ _, EmptyString => false
  end.

Definition newline : ascii := ascii_of_N 10.

Fixpoint count_lines (s : string) : nat :=
  match s with
  | EmptyString => O
  | String c s' => (if Ascii.eqb c newline then 1 else 0)%nat + count_lines s'
  end.

Fixpoint has_newline (s : string) : bool :=
  match s with
  | EmptyString => false
  | String c s' => if Ascii.eqb c newline then true else has_newline s'
  end.

(* ====================================================================== *)
(** ** The conversions of [printf] used by the emitters *)

Definition digit_char (d : N) : ascii := ascii_of_N (48 + d).

(** The decimal digits of [n], most significant first, in front of [acc];
    [fuel] bounds the number of digits produced. *)
Fixpoint fmt_digits (fuel : nat) (n : N) (acc : string) : string :=
  match fuel with
  | O => acc
  | S fuel' =>
      let acc' := String (digit_char (n mod 10)) acc in
      if (n / 10 =? 0)%N then acc' else fmt_digits fuel' (n / 10)%N acc'
  end.

(** [%zu] (and [%lu]). *)
Definition fmt_zu (n : N) : string :=
  fmt_digits (S (N.to_nat (N.log2 n))) n EmptyString.

(** [%d] and [%ld]. *)
Definition fmt_d (z : Z) : string :=
  if z <? 0 then String "-" (fmt_zu (Z.abs_N z)) else fmt_zu (Z.abs_N z).

Fixpoint zeros (n : nat) (s : string) : string :=
  match n with
  | O => s
  | S n' => String "0" (zeros n' s)
  end.

(** Zeros in front of [s] up to [width] characters. *)
Definition zero_pad (width : nat) (s : string) : string :=
  zeros (width - String.length s) s.

(** [%09ld]: at least nine characters, zeros between the sign and the
    digits. *)
Definition fmt_09ld (z : Z) : string :=
  if z <? 0 then String "-" (zero_pad 8 (fmt_zu (Z.abs_N z)))
  else zero_pad 9 (fmt_zu (Z.abs_N z)).

(** Division rounding to nearest, ties to even (the default rounding
    mode of the C library): [num / den] for [den > 0]. *)
Definition div_nearest_even (num den : N) : N :=
  let q := (num / den)%N in
  let r := (num mod den)%N in
  match (2 * r ?= den)%N with
  | Lt => q
  | Gt => (q + 1)%N
  | Eq => if N.even q then q else (q + 1)%N
  end.

(** The magnitude [m * 2^e] scaled by [10^prec] and rounded to an integer. *)
Definition scaled_magnitude (prec : nat) (m : positive) (e : Z) : N :=
  let p10 := (10 ^ N.of_nat prec)%N in
  if 0 <=? e then (Npos m * 2 ^ Z.to_N e * p10)%N
  else div_nearest_even (Npos m * p10) (2 ^ Z.to_N (- e)).

(** [%.<prec>f]: sign, integer part, and [prec] fractional digits when
    [prec > 0].  [PrimFloat] has one NaN, which prints as [nan] here; the
    C library prints [-nan] for a NaN whose sign bit is set, so what is
    stated below about the text of a NaN allows both ([prints_as]). *)
Definition fmt_f (prec : nat) (x : double) : string :=
  let fixed (neg : bool) (n : N) : string :=
    let p10 := (10 ^ N.of_nat prec)%N in
    let body :=
      match prec with
      | O => fmt_zu n
      | S _ => String.append (fmt_zu (n / p10))
                 (String "." (zero_pad prec (fmt_zu (n mod p10))))
      end in
    if neg then String "-" body else body in
  match Prim2SF x with
  | S754_nan => "nan"%string
  | S754_infinity neg => if neg then "-inf"%string else "inf"%string
  | S754_zero neg => fixed neg 0%N
  | S754_finite neg m e => fixed neg (scaled_magnitude prec m e)
  end.

(* ====================================================================== *)
(** ** Configuration constants and enumerations ([performance.h]) *)

Definition PERF_MAX_LOG_ENTRIES : N := 10000.
Definition PERF_MAX_THREADS : Z := 256.
Definition PERF_SAMPLING_INTERVAL : N := 100000.

Inductive perf_output_format_t : Type :=
| PERF_FORMAT_HUMAN
| PERF_FORMAT_CSV
| PERF_FORMAT_JSON
| PERF_FORMAT_TSV.

Inductive perf_log_level_t : Type :=
| PERF_LOG_ERROR
| PERF_LOG_WARN
| PERF_LOG_INFO
| PERF_LOG_DEBUG
| PERF_LOG_TRACE.

Inductive perf_granularity_t : Type :=
| PERF_GRANULARITY_COARSE
| PERF_GRANULARITY_MEDIUM
| PERF_GRANULARITY_FINE
| PERF_GRANULARITY_DEBUG.

(** The value of a [perf_milestone_t]: the enumerators are [0 .. 46], and a
    caller can pass any value of the underlying unsigned type. *)
Definition perf_milestone_t : Type := N.

Definition PERF_MILESTONE_PROGRAM_START : perf_milestone_t := 0%N.
Definition PERF_MILESTONE_DISTANCE_CALCULATION : perf_milestone_t := 12%N.
Definition PERF_MILESTONE_CLUSTERING_START : perf_milestone_t := 19%N.
Definition PERF_MILESTONE_CLUSTERING_ITERATION : perf_milestone_t := 21%N.
Definition PERF_MILESTONE_USER_1 : perf_milestone_t := 42%N.
Definition PERF_MILESTONE_USER_5 : perf_milestone_t := 46%N.
Definition PERF_MILESTONE_COUNT : perf_milestone_t := 47%N.

Definition milestone_names : list string :=
  [ "PROGRAM_START"; "PROGRAM_END"; "OPTION_PARSING"; "INITIALIZATION"; "CLEANUP";
    "FASTA_LOAD_START"; "FASTA_LOAD_END"; "FASTA_PARSE"; "TAXONOMY_LOAD"; "OUTPUT_WRITE";
    "DISTANCE_MATRIX_START"; "DISTANCE_MATRIX_END"; "DISTANCE_CALCULATION";
    "DISTANCE_PTHREAD_SECTION"; "DISTANCE_AVERAGE_CALC";
    "TREE_CONSTRUCTION_START"; "TREE_CONSTRUCTION_END"; "TREE_NODE_CREATION";
    "TREE_BRANCH_LENGTH_CALC";
    "CLUSTERING_START"; "CLUSTERING_END"; "CLUSTERING_ITERATION"; "CLUSTER_ASSIGNMENT";
    "CLUSTER_CENTROID_UPDATE"; "CLUSTER_CONVERGENCE_CHECK"; "CLUSTER_INITIALIZATION";
    "ALIGNMENT_START"; "ALIGNMENT_END"; "KALIGN_EXECUTION"; "WFA2_EXECUTION";
    "NEEDLEMAN_WUNSCH"; "SEQUENCE_ALIGNMENT"; "MSA_CONSTRUCTION";
    "OMP_PARALLEL_START"; "OMP_PARALLEL_END"; "OMP_THREAD_SPAWN"; "OMP_THREAD_JOIN";
    "OMP_BARRIER";
    "MEMORY_ALLOC"; "MEMORY_FREE"; "MEMORY_REALLOC"; "LARGE_ALLOCATION";
    "USER_1"; "USER_2"; "USER_3"; "USER_4"; "USER_5" ]%string.

(* ====================================================================== *)
(** ** Core data structures ([performance.h]) *)

Record timespec : Type := mk_timespec {
  tv_sec : Z;
  tv_nsec : Z
}.

Record perf_timestamp_t : Type := mk_timestamp {
  ts : timespec;
  cycles : N
}.

Record perf_memory_t : Type := mk_memory {
  rss_kb : N;
  virt_kb : N;
  peak_rss_kb : N;
  heap_allocated : N;
  heap_freed : N;
  allocation_count : N;
  free_count : N
}.

Record perf_cpu_t : Type := mk_cpu {
  cpu_percent : double;
  user_time : double;
  system_time : double;
  context_switches : N;
  cache_misses : N
}.

Record perf_thread_data_t : Type := mk_thread_data {
  thread_id : Z;
  omp_thread_num : Z;
  start_time : perf_timestamp_t;
  end_time : perf_timestamp_t;
  thread_memory : perf_memory_t;
  thread_cpu : perf_cpu_t;
  operations_count : N;
  thread_label : string
}.

Record perf_metrics_t : Type := mk_metrics {
  milestone : perf_milestone_t;
  timestamp : perf_timestamp_t;
  duration_ms : double;
  memory : perf_memory_t;
  cpu : perf_cpu_t;
  thread_count : Z;
  iteration_number : Z;
  convergence_metric : double;
  label : string;
  context : string
}.

(** A [FILE*]: an open stream is named by a number. *)
Definition FILE : Type := N.
Definition stdout : FILE := 1%N.
Definition stderr : FILE := 2%N.

Record perf_config_t : Type := mk_config {
  enabled : Z;
  granularity : perf_granularity_t;
  log_level : perf_log_level_t;
  output_format : perf_output_format_t;
  output_file : option FILE;          (* [None] is the null pointer *)
  output_filename : string;
  flush_immediately : Z;
  track_memory : Z;
  track_cpu : Z;
  track_threads : Z;
  sampling_interval_us : N
}.

Record perf_context_t : Type := mk_context {
  config : perf_config_t;
  log_entries : option (list perf_metrics_t);   (* [None] is the null pointer *)
  log_count : N;
  log_capacity : N;
  thread_data : list perf_thread_data_t;        (* PERF_MAX_THREADS slots *)
  program_start_time : perf_timestamp_t;
  allocation_counter : N;
  bytes_allocated : N;
  bytes_freed : N;
  active_threads : Z;
  milestone_starts : list perf_timestamp_t;     (* PERF_MILESTONE_COUNT slots *)
  milestone_active : list Z;                    (* PERF_MILESTONE_COUNT slots *)
  total_runtime_ms : double;
  peak_memory_kb : N;
  max_threads_used : Z
}.

Record perf_statistics_t : Type := mk_statistics {
  stat_min : double;
  stat_max : double;
  stat_mean : double;
  std_dev : double;
  median : double;
  percentile_95 : double;
  percentile_99 : double;
  sample_count : N
}.

(** The static locals of [perf_get_cpu_usage]. *)
Record cpu_static_t : Type := mk_cpu_static {
  last_user_time : double;
  last_system_time : double;
  last_wall_time : timespec
}.

(** An operating-system thread, the key of the thread-local storage. *)
Definition os_thread : Type := N.

(** The state of the process that the library reads and writes. *)
Record perf_world : Type := mk_world {
  g_perf_context : perf_context_t;
  tls_thread_key : gmap os_thread Z;
  cpu_static : cpu_static_t;
  streams : gmap FILE string
}.

(** *** All-zero objects ([memset(p, 0, sizeof *p)], static storage) *)

Definition zero_timespec : timespec := mk_timespec 0 0.
Definition zero_timestamp : perf_timestamp_t := mk_timestamp zero_timespec 0.
Definition zero_memory : perf_memory_t := mk_memory 0 0 0 0 0 0 0.
Definition zero_cpu : perf_cpu_t := mk_cpu 0%float 0%float 0%float 0 0.
Definition zero_thread_data : perf_thread_data_t :=
  mk_thread_data 0 0 zero_timestamp zero_timestamp zero_memory zero_cpu 0 EmptyString.
Definition zero_metrics : perf_metrics_t :=
  mk_metrics 0%N zero_timestamp 0%float zero_memory zero_cpu 0 0 0%float
             EmptyString EmptyString.
Definition zero_config : perf_config_t :=
  mk_config 0 PERF_GRANULARITY_COARSE PERF_LOG_ERROR PERF_FORMAT_HUMAN None
            EmptyString 0 0 0 0 0.
Definition zero_statistics : perf_statistics_t :=
  mk_statistics 0%float 0%float 0%float 0%float 0%float 0%float 0%float 0.
Definition zero_cpu_static : cpu_static_t :=
  mk_cpu_static 0%float 0%float zero_timespec.

Definition zero_context : perf_context_t :=
  mk_context zero_config None 0 0
             (replicate (Z.to_nat PERF_MAX_THREADS) zero_thread_data)
             zero_timestamp 0 0 0 0
             (replicate (N.to_nat PERF_MILESTONE_COUNT) zero_timestamp)
             (replicate (N.to_nat PERF_MILESTONE_COUNT) 0)
             0%float 0 0.

(** The process at start-up: [g_perf_context = {0}], no thread-local id
    set, nothing written. *)
Definition initial_world : perf_world :=
  mk_world zero_context ∅ zero_cpu_static ∅.

(** *** Field updates *)

Definition set_config (c : perf_config_t) (s : perf_context_t) : perf_context_t :=
  mk_context c (log_entries s) (log_count s) (log_capacity s) (thread_data s)
             (program_start_time s) (allocation_counter s) (bytes_allocated s)
             (bytes_freed s) (active_threads s) (milestone_starts s)
             (milestone_active s) (total_runtime_ms s) (peak_memory_kb s)
             (max_threads_used s).

Definition set_log_entries (l : option (list perf_metrics_t)) (s : perf_context_t)
  : perf_context_t :=
  mk_context (config s) l (log_count s) (log_capacity s) (thread_data s)
             (program_start_time s) (allocation_counter s) (bytes_allocated s)
             (bytes_freed s) (active_threads s) (milestone_starts s)
             (milestone_active s) (total_runtime_ms s) (peak_memory_kb s)
             (max_threads_used s).

Definition set_log_count (n : N) (s : perf_context_t) : perf_context_t :=
  mk_context (config s) (log_entries s) n (log_capacity s) (thread_data s)
             (program_start_time s) (allocation_counter s) (bytes_allocated s)
             (bytes_freed s) (active_threads s) (milestone_starts s)
             (milestone_active s) (total_runtime_ms s) (peak_memory_kb s)
             (max_threads_used s).

Definition set_thread_data (l : list perf_thread_data_t) (s : perf_context_t)
  : perf_context_t :=
  mk_context (config s) (log_entries s) (log_count s) (log_capacity s) l
             (program_start_time s) (allocation_counter s) (bytes_allocated s)
             (bytes_freed s) (active_threads s) (milestone_starts s)
             (milestone_active s) (total_runtime_ms s) (peak_memory_kb s)
             (max_threads_used s).

Definition set_active_threads (n : Z) (s : perf_context_t) : perf_context_t :=
  mk_context (config s) (log_entries s) (log_count s) (log_capacity s) (thread_data s)
             (program_start_time s) (allocation_counter s) (bytes_allocated s)
             (bytes_freed s) n (milestone_starts s)
             (milestone_active s) (total_runtime_ms s) (peak_memory_kb s)
             (max_threads_used s).

Definition set_max_threads_used (n : Z) (s : perf_context_t) : perf_context_t :=
  mk_context (config s) (log_entries s) (log_count s) (log_capacity s) (thread_data s)
             (program_start_time s) (allocation_counter s) (bytes_allocated s)
             (bytes_freed s) (active_threads s) (milestone_starts s)
             (milestone_active s) (total_runtime_ms s) (peak_memory_kb s) n.

Definition set_milestone_starts (l : list perf_timestamp_t) (s : perf_context_t)
  : perf_context_t :=
  mk_context (config s) (log_entries s) (log_count s) (log_capacity s) (thread_data s)
             (program_start_time s) (allocation_counter s) (bytes_allocated s)
             (bytes_freed s) (active_threads s) l
             (milestone_active s) (total_runtime_ms s) (peak_memory_kb s)
             (max_threads_used s).

Definition set_milestone_active (l : list Z) (s : perf_context_t) : perf_context_t :=
  mk_context (config s) (log_entries s) (log_count s) (log_capacity s) (thread_data s)
             (program_start_time s) (allocation_counter s) (bytes_allocated s)
             (bytes_freed s) (active_threads s) (milestone_starts s)
             l (total_runtime_ms s) (peak_memory_kb s)
             (max_threads_used s).

Definition set_context (s : perf_context_t) (w : perf_world) : perf_world :=
  mk_world s (tls_thread_key w) (cpu_static w) (streams w).

Definition set_streams (f : gmap FILE string) (w : perf_world) : perf_world :=
  mk_world (g_perf_context w) (tls_thread_key w) (cpu_static w) f.

(* ====================================================================== *)
(** ** What the operating system answers *)

Record proc_status_t : Type := mk_proc_status {
  VmRSS : option N;      (* the value of the line, when present and parsed *)
  VmSize : option N;
  VmPeak : option N
}.

Record timeval : Type := mk_timeval {
  tv_sec_tv : Z;
  tv_usec : Z
}.

Record rusage_t : Type := mk_rusage {
  ru_utime : timeval;
  ru_stime : timeval
}.

(** What one call of [perf_end_milestone_labeled] reads from the system:
    the clock of [perf_get_timestamp], [/proc/self/status] ([None]: it
    cannot be opened), [getrusage] ([None]: it fails) and the clock of
    [perf_get_cpu_usage]. *)
Record os_probe : Type := mk_os_probe {
  clock_now : timespec;
  proc_status : option proc_status_t;
  rusage : option rusage_t;
  wall_now : timespec
}.

(* ====================================================================== *)
(** ** Initialization, reset, configuration *)

(** The default configuration of [perf_init]. *)
Definition default_config : perf_config_t :=
  mk_config 1 PERF_GRANULARITY_MEDIUM PERF_LOG_INFO PERF_FORMAT_HUMAN (Some stderr)
            "performance.log" 0 1 1 1 PERF_SAMPLING_INTERVAL.

Definition perf_get_timestamp (now : timespec) : perf_timestamp_t :=
  mk_timestamp now 0.

(** What a [const perf_config_t *] argument points to when it is not
    null: an object of the caller, or the configuration inside
    [g_perf_context], which is the pointer that [perf_get_config]
    returns. *)
Inductive config_pointer : Type :=
| caller_config (c : perf_config_t)
| context_config.

Definition perf_get_config : config_pointer := context_config.

(** [*p], read while the context is [s]. *)
Definition read_config (p : config_pointer) (s : perf_context_t) : perf_config_t :=
  match p with
  | caller_config c => c
  | context_config => config s
  end.

(** [malloc_result] is [None] when the allocation fails, and otherwise
    gives the contents of the fresh, uninitialised block, slot by slot.
    The context is zeroed before [*config] is read. *)
Definition perf_init_with_config (cfg : option config_pointer) (now : timespec)
    (malloc_result : option (nat -> perf_metrics_t)) (w : perf_world)
  : Z * perf_world :=
  match cfg with
  | None => (-1, w)
  | Some p =>
      let s0 := set_config (read_config p zero_context) zero_context in
      let s1 := mk_context (config s0) (log_entries s0) (log_count s0)
                  PERF_MAX_LOG_ENTRIES (thread_data s0) (program_start_time s0)
                  (allocation_counter s0) (bytes_allocated s0) (bytes_freed s0)
                  (active_threads s0) (milestone_starts s0) (milestone_active s0)
                  (total_runtime_ms s0) (peak_memory_kb s0) (max_threads_used s0) in
      match malloc_result with
      | None => (-1, set_context s1 w)
      | Some block =>
          let s2 := set_log_entries
                      (Some (block <$> seq 0 (N.to_nat (log_capacity s1)))) s1 in
          let s3 := mk_context (config s2) (log_entries s2) (log_count s2)
                      (log_capacity s2) (thread_data s2) (perf_get_timestamp now)
                      0 0 0 0 (milestone_starts s2)
                      (replicate (N.to_nat PERF_MILESTONE_COUNT) 0)
                      (total_runtime_ms s2) (peak_memory_kb s2) (max_threads_used s2) in
          (0, set_context s3 w)
      end
  end.

Definition perf_init (now : timespec)
    (malloc_result : option (nat -> perf_metrics_t)) (w : perf_world)
  : Z * perf_world :=
  perf_init_with_config (Some (caller_config default_config)) now malloc_result w.

Definition perf_reset (now : timespec) (s : perf_context_t) : perf_context_t :=
  if negb (truthy (enabled (config s))) then s
  else
    mk_context (config s) (log_entries s) 0 (log_capacity s) (thread_data s)
               (perf_get_timestamp now) (allocation_counter s) (bytes_allocated s)
               (bytes_freed s) (active_threads s) (milestone_starts s)
               (replicate (N.to_nat PERF_MILESTONE_COUNT) 0)
               0%float 0 0.

Definition perf_set_config (cfg : option config_pointer) (s : perf_context_t)
  : perf_context_t :=
  match cfg with
  | Some p => set_config (read_config p s) s
  | None => s
  end.

Definition with_enabled (e : Z) (c : perf_config_t) : perf_config_t :=
  mk_config e (granularity c) (log_level c) (output_format c) (output_file c)
            (output_filename c) (flush_immediately c) (track_memory c) (track_cpu c)
            (track_threads c) (sampling_interval_us c).

Definition with_output (f : option FILE) (fmt : perf_output_format_t)
    (c : perf_config_t) : perf_config_t :=
  mk_config (enabled c) (granularity c) (log_level c) fmt f
            (output_filename c) (flush_immediately c) (track_memory c) (track_cpu c)
            (track_threads c) (sampling_interval_us c).

Definition perf_set_enabled (e : Z) (s : perf_context_t) : perf_context_t :=
  set_config (with_enabled e (config s)) s.

Definition perf_set_output_format (fmt : perf_output_format_t) (s : perf_context_t)
  : perf_context_t :=
  set_config (with_output (output_file (config s)) fmt (config s)) s.

(* ====================================================================== *)
(** ** Timing *)

Definition timespec_ms (t : timespec) : double :=
  (double_of_Z (tv_sec t) * 1000 + double_of_Z (tv_nsec t) / 1000000)%float.

(** The pointers are [None] when null. *)
Definition perf_timestamp_diff_ms (start end_ : option perf_timestamp_t) : double :=
  match start, end_ with
  | Some a, Some b =>
      let start_ms := timespec_ms (ts a) in
      let end_ms := timespec_ms (ts b) in
      (end_ms - start_ms)%float
  | _, _ => 0%float
  end.

(* ====================================================================== *)
(** ** Memory and CPU probes *)

(** [perf_get_memory_usage] behind its null test: the structure it
    leaves in [*memory], and its return value. *)
Definition memory_usage_probe (status : option proc_status_t) (s : perf_context_t)
  : Z * perf_memory_t :=
  match status with
  | None => (-1, zero_memory)
  | Some st =>
      (0, mk_memory (default 0%N (VmRSS st)) (default 0%N (VmSize st))
                    (default 0%N (VmPeak st))
                    (bytes_allocated s) (bytes_freed s) (allocation_counter s) 0)
  end.

(** [memory] is [None] for a null pointer, and otherwise the structure
    pointed to; the result is the return value and the structure
    afterwards. *)
Definition perf_get_memory_usage (memory : option perf_memory_t)
    (status : option proc_status_t) (s : perf_context_t)
  : Z * option perf_memory_t :=
  match memory with
  | None => (-1, None)
  | Some _ => let '(r, m) := memory_usage_probe status s in (r, Some m)
  end.

Definition perf_track_allocation (ptr_null : bool) (size : N) (s : perf_context_t)
  : perf_context_t :=
  if ptr_null || negb (truthy (enabled (config s)))
     || negb (truthy (track_memory (config s))) then s
  else
    mk_context (config s) (log_entries s) (log_count s) (log_capacity s) (thread_data s)
               (program_start_time s) (wrap_size (allocation_counter s + 1))
               (wrap_size (bytes_allocated s + size))
               (bytes_freed s) (active_threads s) (milestone_starts s)
               (milestone_active s) (total_runtime_ms s) (peak_memory_kb s)
               (max_threads_used s).

Definition timeval_seconds (t : timeval) : double :=
  (double_of_Z (tv_sec_tv t) + double_of_Z (tv_usec t) / 1000000)%float.

(** [perf_get_cpu_usage] behind its null test: the structure it leaves
    in [*cpu], its return value and its static locals afterwards. *)
Definition cpu_usage_probe (usage : option rusage_t) (wall : timespec)
    (st : cpu_static_t) : Z * perf_cpu_t * cpu_static_t :=
  match usage with
  | None => (0, zero_cpu, st)
  | Some u =>
      let user := timeval_seconds (ru_utime u) in
      let system := timeval_seconds (ru_stime u) in
      let percent :=
        if 0 <? tv_sec (last_wall_time st) then
          let wall_diff :=
            (double_of_Z (tv_sec wall - tv_sec (last_wall_time st))
             + double_of_Z (tv_nsec wall - tv_nsec (last_wall_time st)) / 1000000000)%float in
          let cpu_diff :=
            ((user + system) - (last_user_time st + last_system_time st))%float in
          if (0 <? wall_diff)%float then (cpu_diff / wall_diff * 100)%float
          else 0%float
        else 0%float in
      (0, mk_cpu percent user system 0 0, mk_cpu_static user system wall)
  end.

(** [cpu] is [None] for a null pointer, and otherwise the structure
    pointed to; the result is the return value, the structure afterwards
    and the static locals afterwards. *)
Definition perf_get_cpu_usage (cpu : option perf_cpu_t) (usage : option rusage_t)
    (wall : timespec) (st : cpu_static_t)
  : Z * option perf_cpu_t * cpu_static_t :=
  match cpu with
  | None => (-1, None, st)
  | Some _ => let '(r, c, st') := cpu_usage_probe usage wall st in (r, Some c, st')
  end.

(* ====================================================================== *)
(** ** Thread management *)

Definition get_thread_id (t : os_thread) (tls : gmap os_thread Z)
  : Z * gmap os_thread Z :=
  match tls !! t with
  | Some id => (id, tls)
  | None => (-1, <[t := -1]> tls)
  end.

Definition set_thread_id (t : os_thread) (id : Z) (tls : gmap os_thread Z)
  : gmap os_thread Z :=
  <[t := id]> tls.

Definition perf_get_thread_count (s : perf_context_t) : Z := active_threads s.

(** Called by thread [t]; returns the thread id. *)
Definition perf_register_thread (t : os_thread) (now : timespec) (w : perf_world)
  : result (Z * perf_world) :=
  let s := g_perf_context w in
  if negb (truthy (enabled (config s))) || negb (truthy (track_threads (config s)))
  then Ok (-1, w)
  else
    let thread_count := active_threads s in
    let s1 := set_active_threads (wrap_int (thread_count + 1)) s in
    let id := thread_count in
    let tls := set_thread_id t id (tls_thread_key w) in
    if (0 <=? id) && (id <? PERF_MAX_THREADS) then
      match thread_data s1 !! Z.to_nat id with
      | None => Fault (OutOfBounds id)
      | Some slot =>
          let slot' := mk_thread_data id (-1) (perf_get_timestamp now) (end_time slot)
                         (thread_memory slot) (thread_cpu slot)
                         (operations_count slot) (thread_label slot) in
          let s2 := set_thread_data (<[Z.to_nat id := slot']> (thread_data s1)) s1 in
          let s3 := if max_threads_used s2 <? thread_count + 1
                    then set_max_threads_used (thread_count + 1) s2 else s2 in
          Ok (id, mk_world s3 tls (cpu_static w) (streams w))
      end
    else Fault (OutOfBounds id).

(** Called by thread [t]. *)
Definition perf_unregister_thread (t : os_thread) (now : timespec) (w : perf_world)
  : perf_world :=
  let s := g_perf_context w in
  if negb (truthy (enabled (config s))) || negb (truthy (track_threads (config s)))
  then w
  else
    let '(id, tls) := get_thread_id t (tls_thread_key w) in
    let s1 :=
      if (0 <=? id) && (id <? PERF_MAX_THREADS) then
        match thread_data s !! Z.to_nat id with
        | Some slot =>
            let slot' := mk_thread_data (thread_id slot) (omp_thread_num slot)
                           (start_time slot) (perf_get_timestamp now)
                           (thread_memory slot) (thread_cpu slot)
                           (operations_count slot) (thread_label slot) in
            set_thread_data (<[Z.to_nat id := slot']> (thread_data s)) s
        | None => s
        end
      else s in
    let s2 := set_active_threads (wrap_int (active_threads s1 - 1)) s1 in
    mk_world s2 tls (cpu_static w) (streams w).

Definition perf_get_thread_data (id : Z) (s : perf_context_t)
  : option perf_thread_data_t :=
  if (id <? 0) || (PERF_MAX_THREADS <=? id) then None
  else thread_data s !! Z.to_nat id.

(* ====================================================================== *)
(** ** The record buffer *)

(** [&g_perf_context.log_entries[g_perf_context.log_count]], then the
    writes [f] through that pointer. *)
Definition write_entry (f : perf_metrics_t -> perf_metrics_t) (s : perf_context_t)
  : result perf_context_t :=
  match log_entries s with
  | None => Fault NullDeref
  | Some l =>
      let i := N.to_nat (log_count s) in
      match l !! i with
      | None => Fault (OutOfBounds (Z.of_N (log_count s)))
      | Some e => Ok (set_log_entries (Some (<[i := f e]> l)) s)
      end
  end.

(** The entries [log_entries[0 .. log_count - 1]] that the readers visit. *)
Definition published (s : perf_context_t) : result (list perf_metrics_t) :=
  let n := N.to_nat (log_count s) in
  match log_entries s with
  | None => if (n =? 0)%nat then Ok [] else Fault NullDeref
  | Some l =>
      if (n <=? length l)%nat then Ok (take n l)
      else Fault (OutOfBounds (Z.of_nat (length l)))
  end.

(* ====================================================================== *)
(** ** Output *)

Definition perf_milestone_name (m : perf_milestone_t) : string :=
  if (m <? PERF_MILESTONE_COUNT)%N
  then nth (N.to_nat m) milestone_names "UNKNOWN"%string
  else "UNKNOWN"%string.

Definition csv_header : string :=
  String.append
    "timestamp,milestone,duration_ms,memory_rss_kb,memory_virt_kb,thread_count,"
    (String.append "iteration,convergence_metric,cpu_percent,label,context"
                   (String newline EmptyString)).

Definition str_concat (parts : list string) : string :=
  fold_right String.append EmptyString parts.

Definition end_of_line : string := String newline EmptyString.

(** ["%ld.%09ld,%s,%.3f,%zu,%zu,%d,%d,%.6f,%.2f,%s,%s\n"] *)
Definition csv_row (e : perf_metrics_t) : string :=
  String.append
    (str_concat
       [ fmt_d (tv_sec (ts (timestamp e))); "."; fmt_09ld (tv_nsec (ts (timestamp e)));
         ","; perf_milestone_name (milestone e);
         ","; fmt_f 3 (duration_ms e);
         ","; fmt_zu (rss_kb (memory e));
         ","; fmt_zu (virt_kb (memory e));
         ","; fmt_d (thread_count e);
         ","; fmt_d (iteration_number e);
         ","; fmt_f 6 (convergence_metric e);
         ","; fmt_f 2 (cpu_percent (cpu e));
         ","; label e;
         ","; context e ]%string)
    end_of_line.

(** ["[%ld.%09ld] %s: %.3f ms, RSS: %zu KB, Threads: %d, %s\n"] *)
Definition human_row (e : perf_metrics_t) : string :=
  String.append
    (str_concat
       [ "["; fmt_d (tv_sec (ts (timestamp e))); "."; fmt_09ld (tv_nsec (ts (timestamp e)));
         "] "; perf_milestone_name (milestone e);
         ": "; fmt_f 3 (duration_ms e);
         " ms, RSS: "; fmt_zu (rss_kb (memory e));
         " KB, Threads: "; fmt_d (thread_count e);
         ", "; label e ]%string)
    end_of_line.

(** The text one iteration of the loop of [perf_flush_logs] prints. *)
Definition format_entry (fmt : perf_output_format_t) (e : perf_metrics_t) : string :=
  match fmt with
  | PERF_FORMAT_CSV => csv_row e
  | PERF_FORMAT_JSON => EmptyString
  | PERF_FORMAT_HUMAN | PERF_FORMAT_TSV => human_row e
  end.

(** The text written to stream [f] so far. *)
Definition stream_text (f : FILE) (fs : gmap FILE string) : string :=
  default EmptyString (fs !! f).

Definition fprintf (f : FILE) (text : string) (fs : gmap FILE string)
  : gmap FILE string :=
  <[f := String.append (stream_text f fs) text]> fs.

(** [fopen(name, "w")] has succeeded with stream [f]: the file is empty. *)
Definition fopen_w (f : FILE) (fs : gmap FILE string) : gmap FILE string :=
  <[f := EmptyString]> fs.

Definition perf_flush_logs (w : perf_world) : result perf_world :=
  let s := g_perf_context w in
  if negb (truthy (enabled (config s))) then Ok w
  else
    match output_file (config s) with
    | None => Ok w
    | Some f =>
        entries ← published s;
        Ok (set_streams
              (fold_left (fun fs e => fprintf f (format_entry (output_format (config s)) e) fs)
                         entries (streams w)) w)
    end.

(** [fopen_result] is what [fopen(filename, "w")] returns. *)
Definition perf_export_csv (filename : option string) (fopen_result : option FILE)
    (w : perf_world) : result perf_world :=
  match filename with
  | None => Ok w
  | Some _ =>
      let s := g_perf_context w in
      let old_output := output_file (config s) in
      let old_format := output_format (config s) in
      match fopen_result with
      | None =>
          Ok (set_context (set_config (with_output old_output old_format (config s)) s) w)
      | Some f =>
          let s1 := set_config (with_output (Some f) PERF_FORMAT_CSV (config s)) s in
          let w1 := mk_world s1 (tls_thread_key w) (cpu_static w)
                      (fprintf f csv_header (fopen_w f (streams w))) in
          w2 ← perf_flush_logs w1;
          let s2 := g_perf_context w2 in
          Ok (set_context
                (set_config (with_output old_output old_format (config s2)) s2) w2)
      end
  end.

(* ====================================================================== *)
(** ** Milestone tracking *)

Definition perf_start_milestone_labeled (m : perf_milestone_t) (label : option string)
    (now : timespec) (s : perf_context_t) : perf_context_t :=
  if negb (truthy (enabled (config s))) || (PERF_MILESTONE_COUNT <=? m)%N then s
  else
    set_milestone_active (<[N.to_nat m := 1]> (milestone_active s))
      (set_milestone_starts
         (<[N.to_nat m := perf_get_timestamp now]> (milestone_starts s)) s).

Definition perf_start_milestone (m : perf_milestone_t) (now : timespec)
    (s : perf_context_t) : perf_context_t :=
  perf_start_milestone_labeled m (Some EmptyString) now s.

(** The pointers [&entry->memory] and [&entry->cpu] handed to the two
    probes are not null: the probes are taken behind their null tests. *)
Definition perf_end_milestone_labeled (m : perf_milestone_t) (lbl : option string)
    (os : os_probe) (w : perf_world) : result perf_world :=
  let s := g_perf_context w in
  if negb (truthy (enabled (config s))) || (PERF_MILESTONE_COUNT <=? m)%N then Ok w
  else
    match milestone_active s !! N.to_nat m, milestone_starts s !! N.to_nat m with
    | Some active, Some start =>
        if negb (truthy active) then Ok w
        else
          let end_time := perf_get_timestamp (clock_now os) in
          let duration := perf_timestamp_diff_ms (Some start) (Some end_time) in
          w1 ←
            (if (log_count s <? log_capacity s)%N then
               let '(_, cpu_now, cpu_st) :=
                 cpu_usage_probe (rusage os) (wall_now os) (cpu_static w) in
               s1 ← write_entry (fun e =>
                       mk_metrics m end_time duration
                         (if truthy (track_memory (config s))
                          then snd (memory_usage_probe (proc_status os) s)
                          else memory e)
                         (if truthy (track_cpu (config s)) then cpu_now else cpu e)
                         (perf_get_thread_count s) 0 0%float
                         (match lbl with
                          | Some l => bounded_label l
                          | None => EmptyString
                          end)
                         (context e)) s;
               let s2 := set_log_count (log_count s1 + 1)%N s1 in
               let w' := mk_world s2 (tls_thread_key w)
                           (if truthy (track_cpu (config s)) then cpu_st
                            else cpu_static w)
                           (streams w) in
               if truthy (flush_immediately (config s)) then perf_flush_logs w'
               else Ok w'
             else Ok w);
          let s' := g_perf_context w1 in
          Ok (set_context
                (set_milestone_active (<[N.to_nat m := 0]> (milestone_active s')) s') w1)
    | _, _ => Fault (OutOfBounds (Z.of_N m))
    end.

Definition perf_end_milestone (m : perf_milestone_t) (os : os_probe) (w : perf_world)
  : result perf_world :=
  perf_end_milestone_labeled m (Some EmptyString) os w.

(* ====================================================================== *)
(** ** Custom event logging *)

Definition perf_log_event_with_context (lbl : option string) (value : double)
    (ctx : option string) (now : timespec) (s : perf_context_t)
  : result perf_context_t :=
  match lbl with
  | None => Ok s
  | Some l =>
      if negb (truthy (enabled (config s))) then Ok s
      else if (log_count s <? log_capacity s)%N then
        s1 ← write_entry (fun e =>
                mk_metrics PERF_MILESTONE_USER_1 (perf_get_timestamp now) value
                  (memory e) (cpu e) (perf_get_thread_count s)
                  (iteration_number e) (convergence_metric e)
                  (bounded_label l)
                  (match ctx with
                   | Some c => bounded_label c
                   | None => EmptyString
                   end)) s;
        Ok (set_log_count (log_count s1 + 1)%N s1)
      else Ok s
  end.

Definition perf_log_event (lbl : option string) (value : double) (now : timespec)
    (s : perf_context_t) : result perf_context_t :=
  perf_log_event_with_context lbl value (Some EmptyString) now s.

Definition perf_log_iteration (iteration : Z) (metric : double) (now : timespec)
    (s : perf_context_t) : result perf_context_t :=
  if negb (truthy (enabled (config s))) then Ok s
  else if (log_count s <? log_capacity s)%N then
    s1 ← write_entry (fun e =>
            mk_metrics PERF_MILESTONE_CLUSTERING_ITERATION (perf_get_timestamp now)
              0%float (memory e) (cpu e) (perf_get_thread_count s)
              iteration metric
              (bounded_label (String.append "iteration_" (fmt_d iteration)))
              (bounded_label (String.append "convergence=" (fmt_f 6 metric)))) s;
    Ok (set_log_count (log_count s1 + 1)%N s1)
  else Ok s.

Definition perf_log_algorithm_step (algorithm step : option string) (metric : double)
    (now : timespec) (s : perf_context_t) : result perf_context_t :=
  match algorithm, step with
  | Some a, Some st =>
      if negb (truthy (enabled (config s))) then Ok s
      else
        let lbl := bounded_label (String.append a (String.append "_" st)) in
        let ctx := bounded_label (String.append "metric=" (fmt_f 6 metric)) in
        perf_log_event_with_context (Some lbl) metric (Some ctx) now s
  | _, _ => Ok s
  end.

(* ====================================================================== *)
(** ** Statistics *)

(** The first loop over the samples: minimum, maximum and sum. *)
Definition stats_scan (first : double) (samples : list double)
  : double * double * double :=
  fold_left (fun '(mn, mx, sum) x =>
               ((if (x <? mn)%float then x else mn),
                (if (mx <? x)%float then x else mx),
                (sum + x)%float))
            samples (first, first, 0%float).

(** The second loop: the sum of the squared deviations. *)
Definition stats_variance (mean : double) (samples : list double) : double :=
  fold_left (fun variance x => let diff := (x - mean)%float in
                               (variance + diff * diff)%float)
            samples 0%float.

(** [stats] is [None] for a null pointer and otherwise holds the contents
    of [*stats] before the call; the result gives the return value and the
    contents of [*stats] after it.  [malloc_ok] tells whether the
    allocation of the sample array succeeds. *)
Definition perf_get_milestone_statistics (m : perf_milestone_t)
    (stats : option perf_statistics_t) (malloc_ok : bool) (s : perf_context_t)
  : result (Z * option perf_statistics_t) :=
  match stats with
  | None => Ok (-1, None)
  | Some old =>
      if (PERF_MILESTONE_COUNT <=? m)%N then Ok (-1, Some old)
      else if negb malloc_ok then Ok (-1, Some zero_statistics)
      else
        entries ← published s;
        let samples := duration_ms <$> filter (fun e => milestone e = m) entries in
        match samples with
        | [] => Ok (-1, Some zero_statistics)
        | first :: _ =>
            let count := N.of_nat (length samples) in
            let '(mn, mx, sum) := stats_scan first samples in
            let mean := (sum / double_of_N count)%float in
            let variance := stats_variance mean samples in
            Ok (0, Some (mk_statistics mn mx mean
                           (PrimFloat.sqrt (variance / double_of_N count))
                           0%float 0%float 0%float count))
        end
  end.

(* ====================================================================== *)
(** ** Runs: sequences of API calls *)

Inductive api_call : Type :=
| CallStartMilestone (m : perf_milestone_t) (now : timespec)
| CallStartMilestoneLabeled (m : perf_milestone_t) (lbl : option string) (now : timespec)
| CallEndMilestone (m : perf_milestone_t) (os : os_probe)
| CallEndMilestoneLabeled (m : perf_milestone_t) (lbl : option string) (os : os_probe)
| CallLogEvent (lbl : option string) (value : double) (now : timespec)
| CallLogEventWithContext (lbl : option string) (value : double) (ctx : option string)
    (now : timespec)
| CallLogIteration (iteration : Z) (metric : double) (now : timespec)
| CallLogAlgorithmStep (algorithm step : option string) (metric : double) (now : timespec)
| CallReset (now : timespec)
| CallSetEnabled (e : Z)
| CallRegisterThread (t : os_thread) (now : timespec)
| CallUnregisterThread (t : os_thread) (now : timespec)
| CallFlushLogs
| CallExportCsv (filename : option string) (fopen_result : option FILE).

Definition on_context (f : perf_context_t -> perf_context_t) (w : perf_world)
  : result perf_world :=
  Ok (set_context (f (g_perf_context w)) w).

Definition on_context_r (f : perf_context_t -> result perf_context_t) (w : perf_world)
  : result perf_world :=
  s ← f (g_perf_context w); Ok (set_context s w).

Definition perf_call (c : api_call) (w : perf_world) : result perf_world :=
  match c with
  | CallStartMilestone m now => on_context (perf_start_milestone m now) w
  | CallStartMilestoneLabeled m lbl now =>
      on_context (perf_start_milestone_labeled m lbl now) w
  | CallEndMilestone m os => perf_end_milestone m os w
  | CallEndMilestoneLabeled m lbl os => perf_end_milestone_labeled m lbl os w
  | CallLogEvent lbl value now => on_context_r (perf_log_event lbl value now) w
  | CallLogEventWithContext lbl value ctx now =>
      on_context_r (perf_log_event_with_context lbl value ctx now) w
  | CallLogIteration i metric now => on_context_r (perf_log_iteration i metric now) w
  | CallLogAlgorithmStep a st metric now =>
      on_context_r (perf_log_algorithm_step a st metric now) w
  | CallReset now => on_context (perf_reset now) w
  | CallSetEnabled e => on_context (perf_set_enabled e) w
  | CallRegisterThread t now => r ← perf_register_thread t now w; Ok (snd r)
  | CallUnregisterThread t now => Ok (perf_unregister_thread t now w)
  | CallFlushLogs => perf_flush_logs w
  | CallExportCsv filename fopen_result => perf_export_csv filename fopen_result w
  end.

Fixpoint perf_run (calls : list api_call) (w : perf_world) : result perf_world :=
  match calls with
  | [] => Ok w
  | c :: rest => w' ← perf_call c w; perf_run rest w'
  end.

(** The calls that publish records: milestone start and end, events,
    iterations and algorithm steps. *)
Definition recording_call (c : api_call) : bool :=
  match c with
  | CallStartMilestone _ _ | CallStartMilestoneLabeled _ _ _
  | CallEndMilestone _ _ | CallEndMilestoneLabeled _ _ _
  | CallLogEvent _ _ _ | CallLogEventWithContext _ _ _ _
  | CallLogIteration _ _ _ | CallLogAlgorithmStep _ _ _ _ => true
  | _ => false
  end.

(** Whether call [c], made in world [w], reaches the reservation of a
    buffer slot (the test [log_count < log_capacity]). *)
Definition publish_attempt (c : api_call) (w : perf_world) : bool :=
  let s := g_perf_context w in
  let is_active m :=
    (m <? PERF_MILESTONE_COUNT)%N
    && match milestone_active s !! N.to_nat m with
       | Some a => truthy a
       | None => false
       end in
  truthy (enabled (config s)) &&
  match c with
  | CallEndMilestone m _ | CallEndMilestoneLabeled m _ _ => is_active m
  | CallLogEvent lbl _ _ | CallLogEventWithContext lbl _ _ _ => bool_decide (is_Some lbl)
  | CallLogIteration _ _ _ => true
  | CallLogAlgorithmStep a st _ _ => bool_decide (is_Some a) && bool_decide (is_Some st)
  | _ => false
  end.

(** The number of publish attempts of a run since the buffer was last
    emptied by [perf_reset], starting from [n] attempts in world [w]. *)
Fixpoint publish_attempts (calls : list api_call) (w : perf_world) (n : N) : N :=
  match calls with
  | [] => n
  | c :: rest =>
      let n' :=
        match c with
        | CallReset _ => if truthy (enabled (config (g_perf_context w))) then 0%N else n
        | _ => if publish_attempt c w then (n + 1)%N else n
        end in
      match perf_call c w with
      | Ok w' => publish_attempts rest w' n'
      | Fault _ => n'
      end
  end.

(** The shape of the context between calls, once initialised: every
    array has its declared number of slots. *)
Record context_ok (s : perf_context_t) : Prop := mk_context_ok {
  ok_entries : exists l, log_entries s = Some l /\ length l = N.to_nat (log_capacity s);
  ok_count : (log_count s <= log_capacity s)%N;
  ok_threads : length (thread_data s) = Z.to_nat PERF_MAX_THREADS;
  ok_starts : length (milestone_starts s) = N.to_nat PERF_MILESTONE_COUNT;
  ok_active : length (milestone_active s) = N.to_nat PERF_MILESTONE_COUNT
}.

(* ====================================================================== *)
(** ** Observing the record buffer *)

(** The records that the buffer holds: slots [0 .. log_count - 1]. *)
Definition records (s : perf_context_t) : list perf_metrics_t :=
  match log_entries s with
  | Some l => take (N.to_nat (log_count s)) l
  | None => []
  end.

(** The entry [perf_log_event_with_context] leaves in a slot holding [e]. *)
Definition event_entry (s : perf_context_t) (lbl : string) (value : double)
    (ctx : option string) (now : timespec) (e : perf_metrics_t) : perf_metrics_t :=
  mk_metrics PERF_MILESTONE_USER_1 (perf_get_timestamp now) value
    (memory e) (cpu e) (perf_get_thread_count s)
    (iteration_number e) (convergence_metric e)
    (bounded_label lbl)
    (match ctx with
     | Some c => bounded_label c
     | None => EmptyString
     end).

(** The entry [perf_log_iteration] leaves in a slot holding [e]. *)
Definition iteration_entry (s : perf_context_t) (iteration : Z) (metric : double)
    (now : timespec) (e : perf_metrics_t) : perf_metrics_t :=
  mk_metrics PERF_MILESTONE_CLUSTERING_ITERATION (perf_get_timestamp now)
    0%float (memory e) (cpu e) (perf_get_thread_count s)
    iteration metric
    (bounded_label (String.append "iteration_" (fmt_d iteration)))
    (bounded_label (String.append "convergence=" (fmt_f 6 metric))).

(** The context once slot [log_count] holds [e'] and is published. *)
Definition publish (e' : perf_metrics_t) (l : list perf_metrics_t) (s : perf_context_t)
  : perf_context_t :=
  set_log_count (log_count s + 1)
    (set_log_entries (Some (<[N.to_nat (log_count s) := e']> l)) s).

(** The [duration_ms] that the record of call [c], made in world [w],
    carries. *)
Definition published_duration (c : api_call) (w : perf_world) : double :=
  let s := g_perf_context w in
  match c with
  | CallEndMilestone m os | CallEndMilestoneLabeled m _ os =>
      perf_timestamp_diff_ms (milestone_starts s !! N.to_nat m)
        (Some (perf_get_timestamp (clock_now os)))
  | CallLogEvent _ value _ | CallLogEventWithContext _ value _ _ => value
  | CallLogAlgorithmStep _ _ metric _ => metric
  | _ => 0%float
  end.

(** Whether call [c], made in world [w], publishes a record. *)
Definition publishes (c : api_call) (w : perf_world) : bool :=
  publish_attempt c w
  && (log_count (g_perf_context w) <? log_capacity (g_perf_context w))%N.

(** How a call changes the buffer: with [Some d] it publishes one record
    of duration [d] in the slot [log_count]; with [None] the buffer and
    the count stay as they are. *)
Definition log_effect (s s' : perf_context_t) (pub : option double) : Prop :=
  context_ok s'
  /\ log_capacity s' = log_capacity s
  /\ config s' = config s
  /\ match pub with
     | Some d =>
         exists l e',
           log_entries s = Some l
           /\ log_entries s' = Some (<[N.to_nat (log_count s) := e']> l)
           /\ log_count s' = (log_count s + 1)%N
           /\ duration_ms e' = d
     | None => log_entries s' = log_entries s /\ log_count s' = log_count s
     end.

(* ====================================================================== *)
(** ** Thread ids of a run *)

(** The thread ids that the [perf_register_thread] calls of a run return,
    in order, up to the first call that faults. *)
Fixpoint registered_ids (calls : list api_call) (w : perf_world) : list Z :=
  match calls with
  | [] => []
  | CallRegisterThread t now :: rest =>
      match perf_register_thread t now w with
      | Ok (id, w') => id :: registered_ids rest w'
      | Fault _ => []
      end
  | c :: rest =>
      match perf_call c w with
      | Ok w' => registered_ids rest w'
      | Fault _ => []
      end
  end.

(* ====================================================================== *)
(** ** Durations and the clock *)

(** A number of the specification of floats that is zero or positive (or
    positive infinity). *)
Definition SFnonneg (x : spec_float) : Prop := SFleb (S754_zero false) x = true.

(** [r.duration_ms >= 0] *)
Definition duration_nonneg (e : perf_metrics_t) : bool :=
  (0 <=? duration_ms e)%float.

(** The clock did not go backwards between the readings [start] and
    [now], measured as [perf_timestamp_diff_ms] measures them. *)
Definition clock_ordered (start now : timespec) : bool :=
  (timespec_ms start <=? timespec_ms now)%float
  && negb (is_infinity (timespec_ms now)).

(** What a caller has to respect for call [c], made in world [w], to
    publish a duration that is not negative: an event value is not
    negative, and the end of an active milestone reads the clock not
    before its start. *)
Definition call_nonneg (c : api_call) (w : perf_world) : bool :=
  match c with
  | CallLogEvent _ value _ | CallLogEventWithContext _ value _ _
  | CallLogAlgorithmStep _ _ value _ => (0 <=? value)%float
  | CallEndMilestone m os | CallEndMilestoneLabeled m _ os =>
      negb (publish_attempt c w)
      || match milestone_starts (g_perf_context w) !! N.to_nat m with
         | Some start => clock_ordered (ts start) (clock_now os)
         | None => false
         end
  | _ => true
  end.

Fixpoint run_nonneg (calls : list api_call) (w : perf_world) : bool :=
  match calls with
  | [] => true
  | c :: rest =>
      call_nonneg c w
      && match perf_call c w with
         | Ok w' => run_nonneg rest w'
         | Fault _ => true
         end
  end.

(* ====================================================================== *)
(** ** Reading decimal digits *)

(** The number that a string of decimal digits denotes, after the digits
    already read as [acc]. *)
Fixpoint digits_value (s : string) (acc : N) : N :=
  match s with
  | EmptyString => acc
  | String c s' => digits_value s' (10 * acc + (N_of_ascii c - 48))%N
  end.

(* ====================================================================== *)
(** ** Sample inputs *)

(** A fresh allocation that happens to be zero-filled. *)
Definition zero_block : nat -> perf_metrics_t := fun _ => zero_metrics.

(** The process after [perf_init()] at time 100 s. *)
Definition fresh_world : perf_world :=
  snd (perf_init (mk_timespec 100 0) (Some zero_block) initial_world).

(** A system whose probes fail, read at clock time [t]. *)
Definition probe_at (t : timespec) : os_probe := mk_os_probe t None None t.

(** The [double] nearest to 0.42. *)
Definition metric_042 : double := 0x1.ae147ae147ae1p-2%float.

(** The context after [perf_log_iteration(3, 0.42)] and [perf_reset()]:
    the buffer is empty again and slot 0 still holds the old record. *)
Definition stale_context : perf_context_t :=
  match perf_log_iteration 3 metric_042 (mk_timespec 101 0) (g_perf_context fresh_world) with
  | Ok s => perf_reset (mk_timespec 102 0) s
  | Fault _ => g_perf_context fresh_world
  end.

(** Threads [first .. first + n - 1] register one after the other. *)
Definition register_threads (first : N) (n : nat) : list api_call :=
  (fun i => CallRegisterThread (first + N.of_nat i)%N (mk_timespec 100 (Z.of_nat i)))
    <$> seq 0 n.

(** The process after [PERF_MAX_THREADS] threads have registered. *)
Definition crowded_world : perf_world :=
  match perf_run (register_threads 0 (Z.to_nat PERF_MAX_THREADS)) fresh_world with
  | Ok w => w
  | Fault _ => fresh_world
  end.

(** A statistics structure with no zero field. *)
Definition used_statistics : perf_statistics_t :=
  mk_statistics 1%float 2%float 1.5%float 0.5%float 1.5%float 2%float 2%float 2.

(** A label of two lines. *)
Definition two_line_label : string :=
  String.append "a" (String newline "b").

(** [perf_log_event] with the two-line label, then [perf_export_csv] to a
    file that opens as stream 3. *)
Definition two_line_export : list api_call :=
  [ CallLogEvent (Some two_line_label) 1%float (mk_timespec 101 0);
    CallExportCsv (Some "out.csv"%string) (Some 3%N) ].

(** A run of [n] calls of [perf_log_iteration]. *)
Definition iterations (n : nat) : list api_call :=
  replicate n (CallLogIteration 1 0.5%float (mk_timespec 101 0)).

(** [perf_log_event("d", 1.25)] and [perf_log_event("d", 2.5)]. *)
Definition two_events : list api_call :=
  [ CallLogEvent (Some "d"%string) 1.25%float (mk_timespec 101 0);
    CallLogEvent (Some "d"%string) 2.5%float (mk_timespec 102 0) ].

Definition two_events_world : perf_world :=
  match perf_run two_events fresh_world with
  | Ok w => w
  | Fault _ => fresh_world
  end.

(** The CSV file of the two events. *)
Definition two_events_csv : string :=
  str_concat
    [ "timestamp,milestone,duration_ms,memory_rss_kb,memory_virt_kb,thread_count,";
      "iteration,convergence_metric,cpu_percent,label,context"; end_of_line;
      "101.000000000,USER_1,1.250,0,0,0,0,0.000000,0.00,d,"; end_of_line;
      "102.000000000,USER_1,2.500,0,0,0,0,0.000000,0.00,d,"; end_of_line ]%string.

(** [perf_log_event("d", -1.0)]. *)
Definition negative_event : list api_call :=
  [ CallLogEvent (Some "d"%string) (-1)%float (mk_timespec 101 0) ].

(** A milestone of 3 ms, an iteration, a non-negative event, in one run. *)
Definition mixed_run : list api_call :=
  [ CallStartMilestone PERF_MILESTONE_CLUSTERING_START (mk_timespec 100 2000000);
    CallLogIteration 3 metric_042 (mk_timespec 100 3000000);
    CallLogEvent (Some "d"%string) 1.25%float (mk_timespec 100 4000000);
    CallEndMilestone PERF_MILESTONE_CLUSTERING_START (probe_at (mk_timespec 100 5000000)) ].

Definition mixed_world : perf_world :=
  match perf_run mixed_run fresh_world with
  | Ok w => w
  | Fault _ => fresh_world
  end.

(** The process after [perf_init()] and [perf_set_enabled(0)]. *)
Definition disabled_world : perf_world :=
  set_context (perf_set_enabled 0 (g_perf_context fresh_world)) fresh_world.

(** A start and an end of a milestone, [PERF_MAX_LOG_ENTRIES] times. *)
Definition start_end_pairs : list api_call :=
  concat (replicate (N.to_nat PERF_MAX_LOG_ENTRIES)
            [ CallStartMilestone PERF_MILESTONE_DISTANCE_CALCULATION (mk_timespec 101 0);
              CallEndMilestone PERF_MILESTONE_DISTANCE_CALCULATION
                (probe_at (mk_timespec 101 1000)) ]).

(* ====================================================================== *)
(** ** Cleanup *)

(** [fclose(f)]: the text written to the stream stays in its file. *)
Definition fclose (f : FILE) (fs : gmap FILE string) : gmap FILE string := fs.

(** [fclose] of the configured stream unless it is null, [stdout] or
    [stderr]. *)
Definition close_output_file (c : perf_config_t) (fs : gmap FILE string)
  : gmap FILE string :=
  match output_file c with
  | Some f => if negb (f =? stdout)%N && negb (f =? stderr)%N then fclose f fs else fs
  | None => fs
  end.

(** [free(g_perf_context.log_entries)] releases the block and the final
    [memset] leaves the all-zero context. *)
Definition perf_cleanup (w : perf_world) : result perf_world :=
  let s := g_perf_context w in
  w1 ← (if truthy (enabled (config s)) then
          w' ← perf_flush_logs w;
          Ok (set_streams (close_output_file (config s) (streams w')) w')
        else Ok w);
  Ok (set_context zero_context w1).

(** The shape of the context while no buffer is allocated, the capacity
    is zero and threads are not tracked (at start-up and after
    [perf_cleanup]). *)
Record context_closed (s : perf_context_t) : Prop := mk_context_closed {
  closed_entries : log_entries s = None;
  closed_count : log_count s = 0%N;
  closed_capacity : log_capacity s = 0%N;
  closed_threads : length (thread_data s) = Z.to_nat PERF_MAX_THREADS;
  closed_starts : length (milestone_starts s) = N.to_nat PERF_MILESTONE_COUNT;
  closed_active : length (milestone_active s) = N.to_nat PERF_MILESTONE_COUNT;
  closed_track_threads : truthy (track_threads (config s)) = false
}.

(** Whether a call is [perf_export_csv]. *)
Definition export_call (c : api_call) : bool :=
  match c with
  | CallExportCsv _ _ => true
  | _ => false
  end.

(** The process after [perf_init()], with a milestone started and not yet
    ended. *)
Definition pending_world : perf_world :=
  set_context
    (perf_start_milestone PERF_MILESTONE_CLUSTERING_START (mk_timespec 100 1000000)
       (g_perf_context fresh_world))
    fresh_world.

(** The two rows that [perf_flush_logs] prints for [two_events] in the
    human-readable format. *)
Definition two_events_rows : string :=
  str_concat
    [ "[101.000000000] USER_1: 1.250 ms, RSS: 0 KB, Threads: 0, d"; end_of_line;
      "[102.000000000] USER_1: 2.500 ms, RSS: 0 KB, Threads: 0, d"; end_of_line ]%string.

(* ====================================================================== *)
(** ** The output file and the summary *)

Definition with_output_filename (name : string) (c : perf_config_t) : perf_config_t :=
  mk_config (enabled c) (granularity c) (log_level c) (output_format c) (output_file c)
            name (flush_immediately c) (track_memory c) (track_cpu c)
            (track_threads c) (sampling_interval_us c).

(** [fopen_result] is what [fopen(filename, "w")] returns. *)
Definition perf_set_output_file (filename : option string) (fopen_result : option FILE)
    (w : perf_world) : perf_world :=
  match filename with
  | None => w
  | Some name =>
      let s := g_perf_context w in
      let c1 := with_output_filename (str_take (PERF_MAX_FILENAME_LEN - 1) name)
                  (config s) in
      let fs1 := close_output_file c1 (streams w) in
      match fopen_result with
      | Some f =>
          mk_world (set_config (with_output (Some f) (output_format c1) c1) s)
                   (tls_thread_key w) (cpu_static w) (fopen_w f fs1)
      | None =>
          mk_world (set_config (with_output (Some stderr) (output_format c1) c1) s)
                   (tls_thread_key w) (cpu_static w) fs1
      end
  end.

(** [perf_get_memory_usage(&memory)] on a local structure: the pointer
    is not null. *)
Definition perf_get_current_rss_kb (status : option proc_status_t) (s : perf_context_t)
  : N :=
  let '(r, memory) := memory_usage_probe status s in
  if r =? 0 then rss_kb memory else 0%N.

Definition perf_get_peak_rss_kb (status : option proc_status_t) (s : perf_context_t)
  : N :=
  let '(r, memory) := memory_usage_probe status s in
  if r =? 0 then peak_rss_kb memory else 0%N.

(** The text of one [fprintf] whose format ends with a newline. *)
Definition text_line (parts : list string) : string :=
  String.append (str_concat parts) end_of_line.

(** The eight [fprintf(stderr, ...)] of [perf_print_summary], in order. *)
Definition summary_text (s : perf_context_t) (total_runtime : double) (peak : N)
  : list string :=
  [ String.append end_of_line (text_line ["=== AncestralClust Performance Summary ==="]);
    text_line ["Total Runtime: "; fmt_f 3 total_runtime; " ms"];
    text_line ["Peak Memory Usage: "; fmt_zu peak; " KB"];
    text_line ["Max Threads Used: "; fmt_d (max_threads_used s)];
    text_line ["Total Log Entries: "; fmt_zu (log_count s)];
    text_line ["Total Allocations: "; fmt_zu (allocation_counter s)];
    text_line ["Total Bytes Allocated: "; fmt_zu (bytes_allocated s)];
    String.append (text_line ["=========================================="]) end_of_line
  ]%string.

Definition perf_print_summary (now : timespec) (status : option proc_status_t)
    (w : perf_world) : perf_world :=
  let s := g_perf_context w in
  if negb (truthy (enabled (config s))) then w
  else
    let current_time := perf_get_timestamp now in
    let total_runtime :=
      perf_timestamp_diff_ms (Some (program_start_time s)) (Some current_time) in
    set_streams
      (fold_left (fun fs text => fprintf stderr text fs)
                 (summary_text s total_runtime (perf_get_peak_rss_kb status s))
                 (streams w)) w.

Definition perf_print_detailed_report (now : timespec) (status : option proc_status_t)
    (w : perf_world) : perf_world :=
  perf_print_summary now status w.

(** The configuration of [perf_init] with [flush_immediately] set. *)
Definition flushing_config : perf_config_t :=
  mk_config 1 PERF_GRANULARITY_MEDIUM PERF_LOG_INFO PERF_FORMAT_HUMAN (Some stderr)
            "performance.log" 1 0 0 1 PERF_SAMPLING_INTERVAL.

(** After initialization with [flushing_config]: one event, and a
    milestone started. *)
Definition flushing_world : perf_world :=
  match perf_run
          [ CallLogEvent (Some "d"%string) 1.25%float (mk_timespec 101 0);
            CallStartMilestone PERF_MILESTONE_CLUSTERING_START (mk_timespec 102 0) ]
          (snd (perf_init_with_config (Some (caller_config flushing_config))
                  (mk_timespec 100 0) (Some zero_block) initial_world))
  with
  | Ok w => w
  | Fault _ => initial_world
  end.

(** The process after the two events and [perf_set_enabled(0)]. *)
Definition two_events_disabled : perf_world :=
  set_context (perf_set_enabled 0 (g_perf_context two_events_world)) two_events_world.

(* ====================================================================== *)
(** ** Nanosecond differences, allocation tracking and the CPU probe *)

(** Conversion of a [long] to [uint64_t]. *)
Definition uint64_of_Z (z : Z) : N := Z.to_N (z mod 2 ^ 64).

(** [ts.tv_sec * 1000000000ULL + ts.tv_nsec], computed in [uint64_t]. *)
Definition timespec_ns (t : timespec) : N :=
  wrap_size (wrap_size (uint64_of_Z (tv_sec t) * 1000000000) + uint64_of_Z (tv_nsec t)).

(** The pointers are [None] when null. *)
Definition perf_timestamp_diff_ns (start end_ : option perf_timestamp_t) : N :=
  match start, end_ with
  | Some a, Some b =>
      let start_ns := timespec_ns (ts a) in
      let end_ns := timespec_ns (ts b) in
      wrap_size (end_ns + 2 ^ 64 - start_ns)
  | _, _ => 0%N
  end.

(** Nothing is recorded on either path (the size being freed is not
    known). *)
Definition perf_track_deallocation (ptr_null : bool) (s : perf_context_t)
  : perf_context_t :=
  if ptr_null || negb (truthy (enabled (config s)))
     || negb (truthy (track_memory (config s))) then s
  else s.

(** A call of [perf_track_allocation(ptr, size)] or of
    [perf_track_deallocation(ptr)]; [ptr_null] tells whether [ptr] is
    null. *)
Inductive heap_call : Type :=
| TrackAllocation (ptr_null : bool) (size : N)
| TrackDeallocation (ptr_null : bool).

Definition heap_track (c : heap_call) (s : perf_context_t) : perf_context_t :=
  match c with
  | TrackAllocation ptr_null size => perf_track_allocation ptr_null size s
  | TrackDeallocation ptr_null => perf_track_deallocation ptr_null s
  end.

Definition heap_run (calls : list heap_call) (s : perf_context_t) : perf_context_t :=
  fold_left (fun s c => heap_track c s) calls s.

(** The sizes of the allocations of a run whose pointer is not null. *)
Fixpoint allocated_sizes (calls : list heap_call) : list N :=
  match calls with
  | [] => []
  | TrackAllocation false size :: rest => size :: allocated_sizes rest
  | _ :: rest => allocated_sizes rest
  end.

Definition sum_sizes (sizes : list N) : N := fold_right N.add 0%N sizes.

(** Two allocations of 100 and 28 bytes, one release, and one allocation
    that failed (null pointer). *)
Definition sample_heap_calls : list heap_call :=
  [ TrackAllocation false 100; TrackDeallocation false;
    TrackAllocation true 7; TrackAllocation false 28 ]%N.

(** [perf_get_cpu_usage(&cpu)] on a local structure: the pointer is not
    null. *)
Definition perf_get_cpu_percent (usage : option rusage_t) (wall : timespec)
    (st : cpu_static_t) : double * cpu_static_t :=
  let '(r, cpu, st') := cpu_usage_probe usage wall st in
  ((if r =? 0 then cpu_percent cpu else 0%float), st').

(** Equality of strings is decidable. *)
#[export] Instance string_eq_dec : EqDecision string := String.string_dec.

(* ====================================================================== *)
(** ** The summary *)

Record perf_summary_t : Type := mk_summary {
  summary_total_runtime_ms : double;
  summary_peak_memory_kb : N;
  avg_cpu_percent : double;
  max_threads : Z;
  total_allocations : N;
  total_bytes_allocated : N;
  timing_stats : list perf_statistics_t         (* PERF_MILESTONE_COUNT slots *)
}.

Definition zero_summary : perf_summary_t :=
  mk_summary 0%float 0 0%float 0 0 0
             (replicate (N.to_nat PERF_MILESTONE_COUNT) zero_statistics).

(** The loop of [perf_get_summary] over the milestones [i .. i + n - 1]:
    each call writes [timing_stats[i]] and its return value is ignored.
    [malloc_ok i] tells whether the allocation made for milestone [i]
    succeeds. *)
Fixpoint summary_statistics (n : nat) (i : perf_milestone_t)
    (malloc_ok : perf_milestone_t -> bool) (s : perf_context_t)
    (stats : list perf_statistics_t) : result (list perf_statistics_t) :=
  match n with
  | O => Ok stats
  | S n' =>
      r ← perf_get_milestone_statistics i (stats !! N.to_nat i) (malloc_ok i) s;
      summary_statistics n' (i + 1)%N malloc_ok s
        (match snd r with
         | Some st => <[N.to_nat i := st]> stats
         | None => stats
         end)
  end.

(** [summary] is [None] for a null pointer; the result gives the return
    value and the contents of [*summary] after the call. *)
Definition perf_get_summary (summary : option perf_summary_t) (now : timespec)
    (status : option proc_status_t) (malloc_ok : perf_milestone_t -> bool)
    (s : perf_context_t) : result (Z * option perf_summary_t) :=
  match summary with
  | None => Ok (-1, None)
  | Some _ =>
      let current_time := perf_get_timestamp now in
      let total := perf_timestamp_diff_ms (Some (program_start_time s))
                     (Some current_time) in
      let peak := perf_get_peak_rss_kb status s in
      stats ← summary_statistics (N.to_nat PERF_MILESTONE_COUNT) 0%N malloc_ok s
                (timing_stats zero_summary);
      Ok (0, Some (mk_summary total peak (avg_cpu_percent zero_summary)
                     (max_threads_used s) (allocation_counter s) (bytes_allocated s)
                     stats))
  end.

(** The duration samples that [perf_get_milestone_statistics] collects
    for milestone [m]. *)
Definition samples_of (m : perf_milestone_t) (s : perf_context_t) : list double :=
  duration_ms <$> filter (fun e => milestone e = m) (records s).

(** A [double] that is a number. *)
Definition is_number (x : double) : Prop := is_nan x = false.

(** What the first loop of [perf_get_milestone_statistics] has
    established for the samples visited so far: the running minimum and
    maximum are among them and bound them. *)
Definition extremes_of (seen : list double) (mn mx : double) : Prop :=
  mn ∈ seen /\ mx ∈ seen
  /\ (Forall is_number seen ->
      Forall (fun x => (mn <=? x)%float = true /\ (x <=? mx)%float = true) seen).

(** The kind of a record is a milestone of the enumeration. *)
Definition kind_in_range (e : perf_metrics_t) : Prop :=
  (milestone e < PERF_MILESTONE_COUNT)%N.

(** How a call changes the records of the buffer: it keeps them, empties
    the buffer, or adds one record whose kind is in the enumeration. *)
Definition kind_effect (s s' : perf_context_t) : Prop :=
  records s' = records s
  \/ records s' = []
  \/ exists e', records s' = records s ++ [e'] /\ kind_in_range e'.

(* ====================================================================== *)
(** ** Formatting sizes; scoped milestones ([performance.h]) *)

(** [buffer] is [None] for a null pointer and otherwise holds the text in
    the buffer before the call; the result is the text in it after the
    call ([snprintf] keeps [buffer_size - 1] characters). *)
Definition perf_format_memory_size (bytes : N) (buffer : option string)
    (buffer_size : N) : option string :=
  match buffer with
  | None => None
  | Some old =>
      if (buffer_size =? 0)%N then Some old
      else
        Some (str_take (N.to_nat buffer_size - 1)
                (if (bytes <? 1024)%N then
                   String.append (fmt_zu bytes) " B"
                 else if (bytes <? 1024 * 1024)%N then
                   String.append (fmt_f 1 (double_of_N bytes / 1024)%float) " KB"
                 else if (bytes <? 1024 * 1024 * 1024)%N then
                   String.append (fmt_f 1 (double_of_N bytes / (1024 * 1024))%float)
                     " MB"
                 else
                   String.append
                     (fmt_f 1 (double_of_N bytes / (1024 * 1024 * 1024))%float) " GB"))
  end.

(** The whole numbers of kilobytes and of megabytes below 1024. *)
Definition whole_units : list N := N.of_nat <$> seq 1 1023.

Record perf_scoped_milestone_t : Type := mk_scoped_milestone {
  scope_milestone : perf_milestone_t;
  scope_label : string;
  scope_active : Z
}.

(** The declaration made by [PERF_SCOPED_MILESTONE(milestone, label)]
    (GNU C): the scope object starts all zero and is filled in when
    monitoring is enabled.  The macro substitutes its parameters also
    where they stand as member names ([.milestone], [.label]), so it
    compiles only when its two arguments are variables of the caller
    named [milestone] and [label]: [m] and [lbl] are the values of these
    variables, and [label] is not null ([strncpy] reads it). *)
Definition PERF_SCOPED_MILESTONE (m : perf_milestone_t) (lbl : string) (now : timespec)
    (s : perf_context_t) : perf_scoped_milestone_t * perf_context_t :=
  let scope := mk_scoped_milestone 0%N EmptyString 0 in
  if truthy (enabled (config s)) then
    (mk_scoped_milestone m (str_take (PERF_MAX_LABEL_LEN - 1) lbl) 1,
     perf_start_milestone_labeled m (Some lbl) now s)
  else (scope, s).

(** Called with the scope object when its block is left; [scope] is
    [None] for a null pointer. *)
Definition perf_scoped_milestone_cleanup (scope : option perf_scoped_milestone_t)
    (os : os_probe) (w : perf_world) : result perf_world :=
  match scope with
  | Some sc =>
      if truthy (scope_active sc) && truthy (enabled (config (g_perf_context w)))
      then perf_end_milestone_labeled (scope_milestone sc) (Some (scope_label sc)) os w
      else Ok w
  | None => Ok w
  end.

(* ====================================================================== *)
(** ** Fields of a CSV row *)

Fixpoint count_char (c : ascii) (s : string) : nat :=
  match s with
  | EmptyString => O
  | String x s' => (if Ascii.eqb x c then 1 else 0)%nat + count_char c s'
  end.

Definition comma : ascii := ","%char.

(** The context after an iteration has been logged, the buffer reset and
    a milestone started: slot 0 still holds the iteration record. *)
Definition stale_pending_world : perf_world :=
  set_context
    (perf_start_milestone PERF_MILESTONE_CLUSTERING_START (mk_timespec 103 0)
       stale_context)
    fresh_world.

(* ====================================================================== *)
(** ** Granularity ([performance.h]) *)











(** The parts of the context that the recording calls leave alone. *)
Definition context_frame (s s' : perf_context_t) : Prop :=
  allocation_counter s' = allocation_counter s
  /\ bytes_allocated s' = bytes_allocated s
  /\ bytes_freed s' = bytes_freed s
  /\ log_capacity s' = log_capacity s
  /\ active_threads s' = active_threads s
  /\ thread_data s' = thread_data s
  /\ max_threads_used s' = max_threads_used s
  /\ milestone_starts s' = milestone_starts s
  /\ program_start_time s' = program_start_time s.


(** A record stamped twelve seconds and thirty-four microseconds after
    the epoch of the clock. *)
Definition stamped_record : perf_metrics_t :=
  mk_metrics 0%N (mk_timestamp (mk_timespec 12 34000) 0) 0%float zero_memory zero_cpu
             0 0 0%float "load" EmptyString.

(* ====================================================================== *)
(** ** Producers that overlap *)

(** [&g_perf_context.log_entries[i]], then the writes [f] through that
    pointer. *)
Definition write_entry_at (i : N) (f : perf_metrics_t -> perf_metrics_t)
    (s : perf_context_t) : result perf_context_t :=
  match log_entries s with
  | None => Fault NullDeref
  | Some l =>
      match l !! N.to_nat i with
      | None => Fault (OutOfBounds (Z.of_N i))
      | Some e => Ok (set_log_entries (Some (<[N.to_nat i := f e]> l)) s)
      end
  end.

(** Where a thread stands inside [perf_log_event_with_context].
    [log_count] is a [volatile size_t] that the function reads three
    times, without a lock: in the test [log_count < log_capacity], in
    [&log_entries[log_count]] and in [log_count++]. *)
Inductive event_point : Type :=
| at_test
| at_slot
| at_write (slot : N)
| at_increment
| returned.

(** One step of thread at point [p]: up to and including its next
    access to [log_count]. *)
Definition event_step (lbl : option string) (value : double) (ctx : option string)
    (now : timespec) (p : event_point) (s : perf_context_t)
  : result (event_point * perf_context_t) :=
  match p with
  | at_test =>
      match lbl with
      | None => Ok (returned, s)
      | Some _ =>
          if negb (truthy (enabled (config s))) then Ok (returned, s)
          else if (log_count s <? log_capacity s)%N then Ok (at_slot, s)
          else Ok (returned, s)
      end
  | at_slot => Ok (at_write (log_count s), s)
  | at_write i =>
      s1 ← write_entry_at i (event_entry s (default EmptyString lbl) value ctx now) s;
      Ok (at_increment, s1)
  | at_increment => Ok (returned, set_log_count (log_count s + 1)%N s)
  | returned => Ok (returned, s)
  end.

(** A call of [perf_log_event_with_context] in progress. *)
Record event_call : Type := mk_event_call {
  event_label : option string;
  event_value : double;
  event_context : option string;
  event_clock : timespec
}.

Definition event_call_step (c : event_call) : event_point -> perf_context_t ->
    result (event_point * perf_context_t) :=
  event_step (event_label c) (event_value c) (event_context c) (event_clock c).

(** The call run alone, from its first statement to its return. *)
Definition event_alone (c : event_call) (s : perf_context_t) : result perf_context_t :=
  r1 ← event_call_step c at_test s;
  r2 ← event_call_step c (fst r1) (snd r1);
  r3 ← event_call_step c (fst r2) (snd r2);
  r4 ← event_call_step c (fst r3) (snd r3);
  Ok (snd r4).

(** Two threads inside [perf_log_event_with_context] at once. *)
Inductive producer : Type := first_thread | second_thread.

Record two_producers : Type := mk_two_producers {
  first_point : event_point;
  second_point : event_point;
  shared_context : perf_context_t
}.

(** The thread that the scheduler picks takes one step. *)
Definition overlap_step (c1 c2 : event_call) (who : producer) (st : two_producers)
  : result two_producers :=
  match who with
  | first_thread =>
      r ← event_call_step c1 (first_point st) (shared_context st);
      Ok (mk_two_producers (fst r) (second_point st) (snd r))
  | second_thread =>
      r ← event_call_step c2 (second_point st) (shared_context st);
      Ok (mk_two_producers (first_point st) (fst r) (snd r))
  end.

Fixpoint overlap_run (c1 c2 : event_call) (schedule : list producer)
    (st : two_producers) : result two_producers :=
  match schedule with
  | [] => Ok st
  | who :: rest => st' ← overlap_step c1 c2 who st; overlap_run c1 c2 rest st'
  end.

(** Both threads enter their calls in context [s]. *)
Definition both_enter (s : perf_context_t) : two_producers :=
  mk_two_producers at_test at_test s.

(** The second thread passes the test before the first has incremented
    [log_count], and takes its slot after. *)
Definition late_slot_schedule : list producer :=
  [ first_thread; second_thread;
    first_thread; first_thread; first_thread;
    second_thread; second_thread ].

(** Both threads take their slot before either increments. *)
Definition same_slot_schedule : list producer :=
  [ first_thread; second_thread;
    first_thread; second_thread;
    first_thread; second_thread;
    first_thread; second_thread ].

(** The calls one after the other. *)
Definition serial_schedule : list producer :=
  [ first_thread; first_thread; first_thread; first_thread;
    second_thread; second_thread; second_thread; second_thread ].

(** [perf_log_event("a", 1.0)] and [perf_log_event("b", 2.0)]. *)
Definition event_a : event_call :=
  mk_event_call (Some "a"%string) 1%float (Some EmptyString) (mk_timespec 102 0).
Definition event_b : event_call :=
  mk_event_call (Some "b"%string) 2%float (Some EmptyString) (mk_timespec 102 1).

(* ====================================================================== *)
(** ** Reading printed numbers *)

(** Whether every character of [s] is a decimal digit. *)
Fixpoint all_digits (s : string) : bool :=
  match s with
  | EmptyString => true
  | String c s' => (48 <=? N_of_ascii c)%N && (N_of_ascii c <=? 57)%N && all_digits s'
  end.

(** The integer that decimal digits, after a minus sign or not, denote. *)
Definition signed_value (s : string) : Z :=
  match s with
  | String c s' =>
      if Ascii.eqb c "-" then - Z.of_N (digits_value s' 0)
      else Z.of_N (digits_value s 0)
  | EmptyString => 0
  end.

(** [s] without its decimal points. *)
Fixpoint unpointed (s : string) : string :=
  match s with
  | EmptyString => EmptyString
  | String c s' => if Ascii.eqb c "." then unpointed s' else String c (unpointed s')
  end.

(** The characters of [s] behind its first decimal point. *)
Fixpoint decimals (s : string) : string :=
  match s with
  | EmptyString => EmptyString
  | String c s' => if Ascii.eqb c "." then s' else decimals s'
  end.

(** The number of units of the last decimal that a text in fixed
    notation denotes: [-12.345000] denotes -12345000 millionths. *)
Definition fixed_value (s : string) : Z := signed_value (unpointed s).

(** What the C library prints for the [double] [x] under [%.<prec>f]:
    a number in fixed notation with [prec] decimals, which is [x]
    rounded to the nearest multiple of [10^-prec], to the even one of
    two that are equally near; a zero with its sign; [inf] or [-inf];
    and for a NaN [nan] or [-nan], after the sign bit of the NaN. *)
Definition prints_as (prec : nat) (x : double) (text : string) : Prop :=
  match Prim2SF x with
  | S754_nan => text = "nan"%string \/ text = "-nan"%string
  | S754_infinity neg => text = if neg then "-inf"%string else "inf"%string
  | S754_zero neg =>
      String.length (decimals text) = prec
      /\ fixed_value text = 0
      /\ str_prefix "-" text = neg
  | S754_finite neg m e =>
      exists n : Z,
        String.length (decimals text) = prec
        /\ fixed_value text = (if neg then - n else n)
        /\ str_prefix "-" text = neg
        /\ 0 <= n
        /\ (if 0 <=? e then n = Zpos m * 2 ^ e * 10 ^ Z.of_nat prec
            else 2 * Z.abs (n * 2 ^ (- e) - Zpos m * 10 ^ Z.of_nat prec) <= 2 ^ (- e)
                 /\ (2 * Z.abs (n * 2 ^ (- e) - Zpos m * 10 ^ Z.of_nat prec) = 2 ^ (- e) ->
                     Z.even n = true))
  end.

(** * Properties *)

(** ** The printf conversions on sample values *)

Example fmt_d_neg : fmt_d (-2147483648) = "-2147483648"%string.
Proof. reflexivity. Qed.
Example fmt_d_zero : fmt_d 0 = "0"%string.
Proof. reflexivity. Qed.
Example fmt_09ld_small : fmt_09ld 1234 = "000001234"%string.
Proof. reflexivity. Qed.
Example fmt_09ld_full : fmt_09ld 999999999 = "999999999"%string.
Proof. reflexivity. Qed.
Example fmt_f6_042 : fmt_f 6 0x1.ae147ae147ae1p-2%float = "0.420000"%string.
Proof. vm_compute. reflexivity. Qed.
Example fmt_f3_125 : fmt_f 3 1.25%float = "1.250"%string.
Proof. vm_compute. reflexivity. Qed.
Example fmt_f3_half_even : fmt_f 3 0.0625%float = "0.062"%string.
Proof. vm_compute. reflexivity. Qed.
Example fmt_f2_neg : fmt_f 2 (-2.5)%float = "-2.50"%string.
Proof. vm_compute. reflexivity. Qed.
Example fmt_f0_tie : fmt_f 0 2.5%float = "2"%string.
Proof. vm_compute. reflexivity. Qed.

(* ====================================================================== *)
(** ** Basic facts *)

Lemma set_context_same (w : perf_world) : set_context (g_perf_context w) w = w.
Proof. by destruct w. Qed.

Lemma wrap_int_small (z : Z) : - 2 ^ 31 <= z < 2 ^ 31 -> wrap_int z = z.
Proof.
  intros Hz. unfold wrap_int.
  rewrite Z.mod_small; lia.
Qed.

Lemma truthy_0 : truthy 0 = false.
Proof. reflexivity. Qed.

Lemma milestone_names_length :
  length milestone_names = N.to_nat PERF_MILESTONE_COUNT.
Proof. reflexivity. Qed.

Lemma on_context_r_same (f : perf_context_t -> result perf_context_t) (w : perf_world) :
  f (g_perf_context w) = Ok (g_perf_context w) -> on_context_r f w = Ok w.
Proof.
  intros Hf. unfold on_context_r. rewrite Hf. simpl.
  by rewrite set_context_same.
Qed.

Lemma on_context_same (f : perf_context_t -> perf_context_t) (w : perf_world) :
  f (g_perf_context w) = g_perf_context w -> on_context f w = Ok w.
Proof.
  intros Hf. unfold on_context. by rewrite Hf, set_context_same.
Qed.

(** *** The recording calls when monitoring is disabled *)

Section Disabled.
Variable w : perf_world.
Hypothesis Hoff : enabled (config (g_perf_context w)) = 0.

Lemma start_disabled m lbl now :
  perf_start_milestone_labeled m lbl now (g_perf_context w) = g_perf_context w.
Proof. unfold perf_start_milestone_labeled. by rewrite Hoff. Qed.

Lemma end_disabled m lbl os : perf_end_milestone_labeled m lbl os w = Ok w.
Proof. unfold perf_end_milestone_labeled. by rewrite Hoff. Qed.

Lemma event_disabled lbl value ctx now :
  perf_log_event_with_context lbl value ctx now (g_perf_context w)
  = Ok (g_perf_context w).
Proof.
  unfold perf_log_event_with_context. destruct lbl; [|done]. by rewrite Hoff.
Qed.

Lemma iteration_disabled i metric now :
  perf_log_iteration i metric now (g_perf_context w) = Ok (g_perf_context w).
Proof. unfold perf_log_iteration. by rewrite Hoff. Qed.

Lemma algorithm_step_disabled a st metric now :
  perf_log_algorithm_step a st metric now (g_perf_context w)
  = Ok (g_perf_context w).
Proof.
  unfold perf_log_algorithm_step. destruct a, st; try done. by rewrite Hoff.
Qed.

Lemma recording_call_disabled c : recording_call c = true -> perf_call c w = Ok w.
Proof.
  destruct c; simpl; try discriminate; intros _.
  - apply on_context_same, start_disabled.
  - apply on_context_same, start_disabled.
  - apply end_disabled.
  - apply end_disabled.
  - apply on_context_r_same, event_disabled.
  - apply on_context_r_same, event_disabled.
  - apply on_context_r_same, iteration_disabled.
  - apply on_context_r_same, algorithm_step_disabled.
Qed.
End Disabled.

(** C3.  With [enabled = 0], a start or end of a milestone, an event, an
    iteration or an algorithm step publishes nothing: every such call,
    and every sequence of such calls, returns with the whole state, and
    so the record count and the buffer, as they were. *)
Theorem disabled_publishes_no_record (w : perf_world) :
  enabled (config (g_perf_context w)) = 0 ->
  (forall c,
      recording_call c = true ->
      exists w', perf_call c w = Ok w'
                 /\ log_count (g_perf_context w') = log_count (g_perf_context w)
                 /\ log_entries (g_perf_context w') = log_entries (g_perf_context w)
                 /\ w' = w)
  /\ (forall calls,
         forallb recording_call calls = true ->
         exists w', perf_run calls w = Ok w'
                    /\ log_count (g_perf_context w') = log_count (g_perf_context w)
                    /\ w' = w).
Proof.
  intros Hoff. split.
  - intros c Hc. exists w. by rewrite recording_call_disabled.
  - intros calls Hcalls. exists w. split; [|done].
    induction calls as [|c calls IH]; [done|].
    cbn [forallb] in Hcalls. apply andb_prop in Hcalls as [Hc Hrest].
    cbn [perf_run]. rewrite (recording_call_disabled w Hoff c Hc).
    cbn [mbind result_bind]. by apply IH.
Qed.

Lemma disabled_world_off : enabled (config (g_perf_context disabled_world)) = 0.
Proof. reflexivity. Qed.

Lemma disabled_publishes_no_record_witness :
  enabled (config (g_perf_context disabled_world)) = 0
  /\ (exists w',
         perf_call (CallLogEvent (Some "d"%string) 1.25%float (mk_timespec 101 0))
           disabled_world = Ok w'
         /\ log_count (g_perf_context w') = 0%N
         /\ w' = disabled_world)
  /\ (exists w',
         perf_run start_end_pairs disabled_world = Ok w'
         /\ log_count (g_perf_context w') = 0%N
         /\ w' = disabled_world).
Proof.
  destruct (disabled_publishes_no_record disabled_world disabled_world_off)
    as [Hcall Hrun].
  split; [exact disabled_world_off|]. split.
  - destruct (Hcall (CallLogEvent (Some "d"%string) 1.25%float (mk_timespec 101 0))
                eq_refl) as (w' & H1 & H2 & _ & H3).
    exists w'. split; [exact H1|]. split; [|exact H3].
    exact (eq_trans H2 eq_refl).
  - destruct (Hrun start_end_pairs eq_refl) as (w' & H1 & H2 & H3).
    exists w'. split; [exact H1|]. split; [|exact H3].
    exact (eq_trans H2 eq_refl).
Defined.

(** *** The buffer of a well-shaped context *)

Lemma write_entry_ok (f : perf_metrics_t -> perf_metrics_t) (s : perf_context_t) :
  context_ok s -> (log_count s < log_capacity s)%N ->
  exists l e,
    log_entries s = Some l
    /\ l !! N.to_nat (log_count s) = Some e
    /\ write_entry f s
       = Ok (set_log_entries (Some (<[N.to_nat (log_count s) := f e]> l)) s).
Proof.
  intros [[l [Hl Hlen]] _ _ _ _] Hlt.
  destruct (lookup_lt_is_Some_2 l (N.to_nat (log_count s))) as [e He]; [lia|].
  exists l, e. unfold write_entry. by rewrite Hl, He.
Qed.

Lemma published_ok (s : perf_context_t) :
  context_ok s ->
  exists l, log_entries s = Some l
            /\ length l = N.to_nat (log_capacity s)
            /\ published s = Ok (take (N.to_nat (log_count s)) l).
Proof.
  intros [[l [Hl Hlen]] Hc _ _ _]. exists l. split; [done|]. split; [done|].
  unfold published. rewrite Hl.
  destruct (Nat.leb_spec (N.to_nat (log_count s)) (length l)); [done|lia].
Qed.

Lemma context_ok_published (s : perf_context_t) (l : list perf_metrics_t)
    (e : perf_metrics_t) :
  context_ok s -> (log_count s < log_capacity s)%N -> log_entries s = Some l ->
  context_ok (set_log_count (log_count s + 1)
                (set_log_entries (Some (<[N.to_nat (log_count s) := e]> l)) s)).
Proof.
  intros [[l' [Hl Hlen]] Hc Ht Hs Ha] Hlt Hl'.
  rewrite Hl in Hl'. injection Hl' as ->.
  constructor; simpl; try done.
  - exists (<[N.to_nat (log_count s) := e]> l). by rewrite length_insert.
  - lia.
Qed.

Lemma context_ok_config (c : perf_config_t) (s : perf_context_t) :
  context_ok s -> context_ok (set_config c s).
Proof. intros [? ? ? ? ?]. by constructor. Qed.

Lemma context_ok_milestone_active (l : list Z) (s : perf_context_t) :
  length l = N.to_nat PERF_MILESTONE_COUNT ->
  context_ok s -> context_ok (set_milestone_active l s).
Proof. intros Hl [? ? ? ? ?]. by constructor. Qed.

Lemma context_ok_milestone_starts (l : list perf_timestamp_t) (s : perf_context_t) :
  length l = N.to_nat PERF_MILESTONE_COUNT ->
  context_ok s -> context_ok (set_milestone_starts l s).
Proof. intros Hl [? ? ? ? ?]. by constructor. Qed.

Lemma flush_ok (w : perf_world) :
  context_ok (g_perf_context w) ->
  exists fs, perf_flush_logs w = Ok (set_streams fs w).
Proof.
  intros Hok. unfold perf_flush_logs.
  destruct (negb _).
  { exists (streams w). by destruct w. }
  destruct (output_file _).
  2:{ exists (streams w). by destruct w. }
  destruct (published_ok _ Hok) as [l [_ [_ ->]]]. simpl. eauto.
Qed.

Lemma milestone_slots (s : perf_context_t) (m : perf_milestone_t) :
  context_ok s -> (m < PERF_MILESTONE_COUNT)%N ->
  exists a start, milestone_active s !! N.to_nat m = Some a
                  /\ milestone_starts s !! N.to_nat m = Some start.
Proof.
  intros [_ _ _ Hs Ha] Hm.
  destruct (lookup_lt_is_Some_2 (milestone_active s) (N.to_nat m)) as [a Ha']; [lia|].
  destruct (lookup_lt_is_Some_2 (milestone_starts s) (N.to_nat m)) as [t Ht']; [lia|].
  eauto.
Qed.

(** *** Milestone start and end *)

Lemma start_enabled (m : perf_milestone_t) (lbl : option string) (now : timespec)
    (s : perf_context_t) :
  truthy (enabled (config s)) = true -> (m < PERF_MILESTONE_COUNT)%N ->
  perf_start_milestone_labeled m lbl now s
  = set_milestone_active (<[N.to_nat m := 1]> (milestone_active s))
      (set_milestone_starts
         (<[N.to_nat m := perf_get_timestamp now]> (milestone_starts s)) s).
Proof.
  intros He Hm. unfold perf_start_milestone_labeled. rewrite He. simpl.
  destruct (N.leb_spec PERF_MILESTONE_COUNT m); [lia|done].
Qed.

Lemma start_context_ok (m : perf_milestone_t) (lbl : option string) (now : timespec)
    (s : perf_context_t) :
  context_ok s -> context_ok (perf_start_milestone_labeled m lbl now s).
Proof.
  intros Hok. unfold perf_start_milestone_labeled.
  destruct (_ || _); [done|].
  apply context_ok_milestone_active.
  { rewrite length_insert. by destruct Hok. }
  apply context_ok_milestone_starts; [|done].
  rewrite length_insert. by destruct Hok.
Qed.

(** The end of an inactive milestone returns at once. *)
Lemma end_inactive (m : perf_milestone_t) (lbl : option string) (os : os_probe)
    (w : perf_world) (a : Z) :
  context_ok (g_perf_context w) ->
  milestone_active (g_perf_context w) !! N.to_nat m = Some a ->
  truthy a = false ->
  perf_end_milestone_labeled m lbl os w = Ok w.
Proof.
  intros Hok Ha Hf. unfold perf_end_milestone_labeled.
  destruct (_ || _) eqn:Hg; [done|].
  apply orb_false_elim in Hg as [_ Hm].
  destruct (milestone_slots (g_perf_context w) m Hok) as [a' [t [Ha' Ht]]].
  { by destruct (N.leb_spec PERF_MILESTONE_COUNT m). }
  rewrite Ha', Ht. rewrite Ha in Ha'. injection Ha' as <-. by rewrite Hf.
Qed.

(** What the end of an active milestone stores when the buffer has room. *)
Lemma end_active_publishes (m : perf_milestone_t) (lbl : option string)
    (os : os_probe) (w : perf_world) (a : Z) (start : perf_timestamp_t)
    (l : list perf_metrics_t) (e : perf_metrics_t) :
  let s := g_perf_context w in
  context_ok s ->
  truthy (enabled (config s)) = true ->
  (m < PERF_MILESTONE_COUNT)%N ->
  milestone_active s !! N.to_nat m = Some a -> truthy a = true ->
  milestone_starts s !! N.to_nat m = Some start ->
  (log_count s < log_capacity s)%N ->
  log_entries s = Some l -> l !! N.to_nat (log_count s) = Some e ->
  exists w' e',
    perf_end_milestone_labeled m lbl os w = Ok w'
    /\ log_count (g_perf_context w') = (log_count s + 1)%N
    /\ log_capacity (g_perf_context w') = log_capacity s
    /\ log_entries (g_perf_context w') = Some (<[N.to_nat (log_count s) := e']> l)
    /\ milestone_active (g_perf_context w') = <[N.to_nat m := 0]> (milestone_active s)
    /\ config (g_perf_context w') = config s
    /\ milestone e' = m
    /\ timestamp e' = perf_get_timestamp (clock_now os)
    /\ duration_ms e'
       = perf_timestamp_diff_ms (Some start) (Some (perf_get_timestamp (clock_now os)))
    /\ thread_count e' = active_threads s
    /\ iteration_number e' = 0
    /\ convergence_metric e' = 0%float
    /\ label e' = match lbl with Some x => bounded_label x | None => EmptyString end
    /\ context e' = context e
    /\ context_ok (g_perf_context w').
Proof.
  intros s Hok He Hm Ha Hat Hst Hlt Hl Hle.
  unfold perf_end_milestone_labeled. fold s. rewrite He. simpl.
  destruct (N.leb_spec PERF_MILESTONE_COUNT m); [lia|].
  rewrite Ha, Hst, Hat. simpl.
  destruct (N.ltb_spec (log_count s) (log_capacity s)); [|lia].
  destruct (cpu_usage_probe _ _ _) as [[r cpu_now] cpu_st].
  unfold write_entry. rewrite Hl, Hle. simpl.
  match goal with
  | |- context [<[_ := ?x]> l] => set (e' := x)
  end.
  set (s2 := set_log_count _ _).
  assert (Hok2 : context_ok s2) by (by apply context_ok_published).
  set (w2 := mk_world s2 _ _ _).
  assert (Hfl : exists fs, (if truthy (flush_immediately (config s))
                            then perf_flush_logs w2 else Ok w2)
                           = Ok (set_streams fs w2)).
  { destruct (truthy (flush_immediately _)).
    - by apply flush_ok.
    - exists (streams w2). by destruct w2. }
  destruct Hfl as [fs ->]. simpl.
  eexists _, e'. split; [reflexivity|]. simpl.
  do 13 (split; [done|]).
  apply context_ok_milestone_active; [|done].
  rewrite length_insert. by destruct Hok.
Qed.

(** *** After a successful initialization *)

Lemma init_context (cfg : perf_config_t) (now : timespec)
    (block : nat -> perf_metrics_t) (w : perf_world) :
  let s := g_perf_context
             (snd (perf_init_with_config (Some (caller_config cfg)) now (Some block) w)) in
  config s = cfg
  /\ log_count s = 0%N
  /\ log_capacity s = PERF_MAX_LOG_ENTRIES
  /\ log_entries s = Some (block <$> seq 0 (N.to_nat PERF_MAX_LOG_ENTRIES))
  /\ active_threads s = 0
  /\ max_threads_used s = 0
  /\ milestone_active s = replicate (N.to_nat PERF_MILESTONE_COUNT) 0
  /\ milestone_starts s = replicate (N.to_nat PERF_MILESTONE_COUNT) zero_timestamp
  /\ thread_data s = replicate (Z.to_nat PERF_MAX_THREADS) zero_thread_data.
Proof. repeat split. Qed.

Lemma init_context_ok (cfg : perf_config_t) (now : timespec)
    (block : nat -> perf_metrics_t) (w : perf_world) :
  context_ok
    (g_perf_context
       (snd (perf_init_with_config (Some (caller_config cfg)) now (Some block) w))).
Proof.
  destruct (init_context cfg now block w)
    as (_ & Hc & Hcap & Hl & _ & _ & Ha & Hs & Ht).
  constructor.
  - eexists. split; [exact Hl|]. by rewrite Hcap, length_fmap, length_seq.
  - rewrite Hc, Hcap. done.
  - rewrite Ht. by rewrite length_replicate.
  - rewrite Hs. by rewrite length_replicate.
  - rewrite Ha. by rewrite length_replicate.
Qed.

(** C4.  For a milestone kind [m]: an end while no start of [m] is active
    returns with the state as it was, publishing nothing; and of two
    starts before an end only the second timestamp is kept, so that the
    record of the following end has the duration from the second start to
    the end. *)
Theorem unbalanced_start_end (w : perf_world) (m : perf_milestone_t) :
  let s := g_perf_context w in
  context_ok s -> (m < PERF_MILESTONE_COUNT)%N ->
  (forall a lbl os,
      milestone_active s !! N.to_nat m = Some a -> truthy a = false ->
      perf_end_milestone_labeled m lbl os w = Ok w)
  /\ (forall lbl1 lbl2 lbl3 t1 t2 os,
         truthy (enabled (config s)) = true ->
         (log_count s < log_capacity s)%N ->
         let s2 := perf_start_milestone_labeled m lbl2 t2
                     (perf_start_milestone_labeled m lbl1 t1 s) in
         milestone_starts s2 !! N.to_nat m = Some (perf_get_timestamp t2)
         /\ exists w' l' e,
             perf_end_milestone_labeled m lbl3 os (set_context s2 w) = Ok w'
             /\ log_count (g_perf_context w') = (log_count s + 1)%N
             /\ log_entries (g_perf_context w') = Some l'
             /\ l' !! N.to_nat (log_count s) = Some e
             /\ milestone e = m
             /\ duration_ms e
                = perf_timestamp_diff_ms (Some (perf_get_timestamp t2))
                    (Some (perf_get_timestamp (clock_now os)))).
Proof.
  intros s Hok Hm. split.
  - intros a lbl os Ha Hf. by apply (end_inactive m lbl os w a).
  - intros lbl1 lbl2 lbl3 t1 t2 os He Hlt s2.
    assert (Hs2 : s2 = set_milestone_active
                         (<[N.to_nat m := 1]> (<[N.to_nat m := 1]> (milestone_active s)))
                         (set_milestone_starts
                            (<[N.to_nat m := perf_get_timestamp t2]>
                               (<[N.to_nat m := perf_get_timestamp t1]> (milestone_starts s)))
                            s)).
    { unfold s2. rewrite (start_enabled m lbl1 t1 s He Hm).
      by rewrite start_enabled. }
    assert (Hok2 : context_ok s2) by (by do 2 apply start_context_ok).
    pose proof Hok as [_ _ _ Hls Hla].
    assert (Hst : milestone_starts s2 !! N.to_nat m = Some (perf_get_timestamp t2)).
    { rewrite Hs2. simpl. apply list_lookup_insert_eq. rewrite length_insert. lia. }
    split; [done|].
    destruct (write_entry_ok id s Hok Hlt) as (l & e & Hl & Hle & _).
    assert (Hact : milestone_active s2 !! N.to_nat m = Some 1).
    { rewrite Hs2. simpl. apply list_lookup_insert_eq. rewrite length_insert. lia. }
    destruct (end_active_publishes m lbl3 os (set_context s2 w) 1
                (perf_get_timestamp t2) l e) as (w' & e' & Hend & Hc & _ & Hl' & H);
      simpl; try done; try (rewrite Hs2; simpl; done).
    exists w', (<[N.to_nat (log_count s) := e']> l), e'.
    destruct H as (_ & _ & Hmil & _ & Hd & _).
    simpl in Hc, Hl'. rewrite Hs2 in Hc, Hl'. simpl in Hc, Hl'.
    repeat split; try done.
      apply list_lookup_insert_eq. by apply lookup_lt_Some in Hle.
Qed.

Lemma fresh_world_ok : context_ok (g_perf_context fresh_world).
Proof. apply init_context_ok. Qed.

Lemma unbalanced_start_end_witness :
  context_ok (g_perf_context fresh_world)
  /\ (PERF_MILESTONE_CLUSTERING_START < PERF_MILESTONE_COUNT)%N
  /\ perf_end_milestone_labeled PERF_MILESTONE_CLUSTERING_START None
       (probe_at (mk_timespec 100 5000000)) fresh_world = Ok fresh_world
  /\ exists w' l' e,
      perf_end_milestone_labeled PERF_MILESTONE_CLUSTERING_START None
        (probe_at (mk_timespec 100 5000000))
        (set_context
           (perf_start_milestone_labeled PERF_MILESTONE_CLUSTERING_START None
              (mk_timespec 100 2000000)
              (perf_start_milestone_labeled PERF_MILESTONE_CLUSTERING_START None
                 (mk_timespec 100 1000000) (g_perf_context fresh_world)))
           fresh_world) = Ok w'
      /\ log_count (g_perf_context w') = 1%N
      /\ log_entries (g_perf_context w') = Some l'
      /\ l' !! 0%nat = Some e
      /\ milestone e = PERF_MILESTONE_CLUSTERING_START
      /\ duration_ms e = 3%float.
Proof.
  assert (Hm : (PERF_MILESTONE_CLUSTERING_START < PERF_MILESTONE_COUNT)%N) by reflexivity.
  destruct (unbalanced_start_end fresh_world PERF_MILESTONE_CLUSTERING_START
              fresh_world_ok Hm) as [Hend Hdouble].
  split; [exact fresh_world_ok|]. split; [exact Hm|]. split.
  - apply (Hend 0); reflexivity.
  - destruct (Hdouble None None None (mk_timespec 100 1000000) (mk_timespec 100 2000000)
                (probe_at (mk_timespec 100 5000000)))
      as (_ & w' & l' & e & H1 & H2 & H3 & H4 & H5 & H6); [reflexivity|reflexivity|].
    exists w', l', e.
    (* the duration is 5 ms - 2 ms *)
    repeat split; assumption.
Defined.

(** *** Bounded strings and decimal conversions *)

Lemma str_take_all (n : nat) (s : string) :
  (String.length s <= n)%nat -> str_take n s = s.
Proof.
  revert n. induction s as [|c s IH]; intros [|n] Hn; simpl in *; try done; try lia.
  rewrite IH; [done|lia].
Qed.

Lemma str_take_length (n : nat) (s : string) :
  (String.length (str_take n s) <= n)%nat.
Proof.
  revert s. induction n as [|n IH]; intros [|c s]; simpl; try lia.
  specialize (IH s). lia.
Qed.

Lemma str_prefix_take (n : nat) (s : string) : str_prefix (str_take n s) s = true.
Proof.
  revert s. induction n as [|n IH]; intros [|c s]; simpl; try done.
  by rewrite Ascii.eqb_refl.
Qed.

Lemma string_length_append (a b : string) :
  String.length (String.append a b) = (String.length a + String.length b)%nat.
Proof. induction a as [|c a IH]; simpl; [done|]. by rewrite IH. Qed.

Lemma fmt_digits_length (fuel k : nat) (n : N) (acc : string) :
  (1 <= k)%nat -> (n < 10 ^ N.of_nat k)%N ->
  (String.length (fmt_digits fuel n acc) <= k + String.length acc)%nat.
Proof.
  revert k n acc. induction fuel as [|fuel IH]; intros k n acc Hk Hn; simpl; [lia|].
  destruct (N.eqb_spec (n / 10) 0) as [Hq|Hq]; simpl; [lia|].
  destruct k as [|[|k]]; [lia| |].
  - exfalso. apply Hq. apply N.div_small. simpl in Hn. lia.
  - etrans.
    + apply (IH (S k)); [lia|].
      apply N.Div0.div_lt_upper_bound.
      replace (N.of_nat (S (S k))) with (N.succ (N.of_nat (S k))) in Hn by lia.
      by rewrite N.pow_succ_r' in Hn.
    + simpl. lia.
Qed.


(** *** Events and iterations *)

Lemma event_publishes (s : perf_context_t) (lbl : string) (value : double)
    (ctx : option string) (now : timespec) :
  context_ok s -> truthy (enabled (config s)) = true ->
  (log_count s < log_capacity s)%N ->
  exists l e,
    log_entries s = Some l
    /\ l !! N.to_nat (log_count s) = Some e
    /\ perf_log_event_with_context (Some lbl) value ctx now s
       = Ok (publish (event_entry s lbl value ctx now e) l s).
Proof.
  intros Hok He Hlt.
  destruct (write_entry_ok (event_entry s lbl value ctx now) s Hok Hlt)
    as (l & e & Hl & Hle & Hw).
  exists l, e. split; [done|]. split; [done|].
  unfold perf_log_event_with_context. rewrite He. simpl.
  destruct (N.ltb_spec (log_count s) (log_capacity s)); [|lia].
  unfold event_entry in Hw. by rewrite Hw.
Qed.

Lemma iteration_publishes (s : perf_context_t) (iteration : Z) (metric : double)
    (now : timespec) :
  context_ok s -> truthy (enabled (config s)) = true ->
  (log_count s < log_capacity s)%N ->
  exists l e,
    log_entries s = Some l
    /\ l !! N.to_nat (log_count s) = Some e
    /\ perf_log_iteration iteration metric now s
       = Ok (publish (iteration_entry s iteration metric now e) l s).
Proof.
  intros Hok He Hlt.
  destruct (write_entry_ok (iteration_entry s iteration metric now) s Hok Hlt)
    as (l & e & Hl & Hle & Hw).
  exists l, e. split; [done|]. split; [done|].
  unfold perf_log_iteration. rewrite He. simpl.
  destruct (N.ltb_spec (log_count s) (log_capacity s)); [|lia].
  unfold iteration_entry in Hw. by rewrite Hw.
Qed.


Lemma reset_context_ok (now : timespec) (s : perf_context_t) :
  context_ok s -> context_ok (perf_reset now s).
Proof.
  intros Hok. unfold perf_reset. destruct (negb _); [done|].
  destruct Hok as [? ? ? ? ?]. constructor; simpl; try done.
  lia.
Qed.

Lemma publish_context_ok (e' : perf_metrics_t) (l : list perf_metrics_t)
    (s : perf_context_t) :
  context_ok s -> (log_count s < log_capacity s)%N -> log_entries s = Some l ->
  context_ok (publish e' l s).
Proof. apply context_ok_published. Qed.

(** C9.  A record published by [perf_log_event_with_context] has its
    milestone, timestamp, duration, thread count, label and context
    written; the iteration number, the convergence metric, the memory and
    the CPU fields of the slot stay as they were.  A record published by
    [perf_end_milestone_labeled] has iteration number and convergence
    metric zero. *)
Theorem event_leaves_algorithm_fields (s : perf_context_t) (lbl : string)
    (value : double) (ctx : option string) (now : timespec) :
  context_ok s -> truthy (enabled (config s)) = true ->
  (log_count s < log_capacity s)%N ->
  exists l e,
    log_entries s = Some l
    /\ l !! N.to_nat (log_count s) = Some e
    /\ (exists e',
           perf_log_event_with_context (Some lbl) value ctx now s = Ok (publish e' l s)
           /\ log_entries (publish e' l s) = Some (<[N.to_nat (log_count s) := e']> l)
           /\ milestone e' = PERF_MILESTONE_USER_1
           /\ timestamp e' = perf_get_timestamp now
           /\ duration_ms e' = value
           /\ thread_count e' = active_threads s
           /\ label e' = bounded_label lbl
           /\ context e' = match ctx with
                           | Some c => bounded_label c
                           | None => EmptyString
                           end
           /\ iteration_number e' = iteration_number e
           /\ convergence_metric e' = convergence_metric e
           /\ memory e' = memory e
           /\ cpu e' = cpu e)
    /\ (forall w m lbl' os a start,
           g_perf_context w = s ->
           (m < PERF_MILESTONE_COUNT)%N ->
           milestone_active s !! N.to_nat m = Some a -> truthy a = true ->
           milestone_starts s !! N.to_nat m = Some start ->
           exists w' e',
             perf_end_milestone_labeled m lbl' os w = Ok w'
             /\ log_entries (g_perf_context w')
                = Some (<[N.to_nat (log_count s) := e']> l)
             /\ iteration_number e' = 0
             /\ convergence_metric e' = 0%float).
Proof.
  intros Hok He Hlt.
  destruct (event_publishes s lbl value ctx now Hok He Hlt) as (l & e & Hl & Hle & Hp).
  exists l, e. split; [done|]. split; [done|]. split.
  - exists (event_entry s lbl value ctx now e). repeat split; done.
  - intros w m lbl' os a start Hw Hm Ha Hat Hst. subst s.
    destruct (end_active_publishes m lbl' os w a start l e Hok He Hm Ha Hat Hst Hlt Hl Hle)
      as (w' & e' & Hend & _ & _ & Hl' & _ & _ & _ & _ & _ & _ & Hi & Hc & _).
    by exists w', e'.
Qed.

Lemma stale_context_ok : context_ok stale_context.
Proof.
  unfold stale_context.
  destruct (iteration_publishes (g_perf_context fresh_world) 3 metric_042
              (mk_timespec 101 0) fresh_world_ok eq_refl eq_refl)
    as (l & e & Hl & _ & ->).
  apply reset_context_ok. by apply publish_context_ok; [apply fresh_world_ok| |].
Qed.

Lemma stale_context_slot :
  exists l e, log_entries stale_context = Some l
              /\ l !! 0%nat = Some e
              /\ iteration_number e = 3
              /\ convergence_metric e = metric_042.
Proof.
  unfold stale_context.
  destruct (iteration_publishes (g_perf_context fresh_world) 3 metric_042
              (mk_timespec 101 0) fresh_world_ok eq_refl eq_refl)
    as (l & e & Hl & Hle & ->).
  eexists _, _. split; [reflexivity|]. split.
  - change (N.to_nat (log_count (g_perf_context fresh_world))) with 0%nat in *.
    apply list_lookup_insert_eq. by apply lookup_lt_Some in Hle.
  - split; reflexivity.
Qed.

Lemma event_leaves_algorithm_fields_witness :
  context_ok stale_context
  /\ truthy (enabled (config stale_context)) = true
  /\ (log_count stale_context < log_capacity stale_context)%N
  /\ exists l e',
      perf_log_event_with_context (Some "d"%string) 1.25%float None (mk_timespec 103 0)
        stale_context = Ok (publish e' l stale_context)
      /\ log_entries (publish e' l stale_context) = Some (<[0%nat := e']> l)
      /\ milestone e' = PERF_MILESTONE_USER_1
      /\ duration_ms e' = 1.25%float
      /\ label e' = "d"%string
      /\ iteration_number e' = 3
      /\ convergence_metric e' = metric_042.
Proof.
  assert (He : truthy (enabled (config stale_context)) = true) by reflexivity.
  assert (Hlt : (log_count stale_context < log_capacity stale_context)%N) by reflexivity.
  split; [exact stale_context_ok|]. split; [exact He|]. split; [exact Hlt|].
  destruct (event_leaves_algorithm_fields stale_context "d" 1.25%float None
              (mk_timespec 103 0) stale_context_ok He Hlt)
    as (l & e & Hl & Hle & (e' & Hrun & Hl' & Hm & _ & Hd & _ & Hlbl & _ & Hi & Hc & _) & _).
  destruct stale_context_slot as (l0 & e0 & Hl0 & Hle0 & Hi0 & Hc0).
  rewrite Hl in Hl0. injection Hl0 as <-.
  change (N.to_nat (log_count stale_context)) with 0%nat in *.
  rewrite Hle in Hle0. injection Hle0 as <-.
  exists l, e'. rewrite Hi, Hc.
  repeat split; assumption.
Defined.

(** *** Thread registration *)

Lemma register_ok (t : os_thread) (now : timespec) (w : perf_world) :
  let s := g_perf_context w in
  context_ok s ->
  truthy (enabled (config s)) = true -> truthy (track_threads (config s)) = true ->
  0 <= active_threads s < PERF_MAX_THREADS ->
  exists w',
    perf_register_thread t now w = Ok (active_threads s, w')
    /\ context_ok (g_perf_context w')
    /\ config (g_perf_context w') = config s
    /\ active_threads (g_perf_context w') = active_threads s + 1
    /\ log_count (g_perf_context w') = log_count s
    /\ log_capacity (g_perf_context w') = log_capacity s
    /\ log_entries (g_perf_context w') = log_entries s
    /\ milestone_active (g_perf_context w') = milestone_active s
    /\ milestone_starts (g_perf_context w') = milestone_starts s
    /\ tls_thread_key w' !! t = Some (active_threads s).
Proof.
  intros s Hok He Ht Ha. unfold perf_register_thread. fold s.
  rewrite He, Ht. simpl.
  destruct (Z.leb_spec 0 (active_threads s)); [|lia].
  destruct (Z.ltb_spec (active_threads s) PERF_MAX_THREADS); [|lia]. simpl.
  pose proof Hok as [Hl Hc Hth Hs Hact].
  destruct (lookup_lt_is_Some_2 (thread_data s) (Z.to_nat (active_threads s)))
    as [slot ->]; [lia|].
  eexists. split; [reflexivity|].
  assert (Hw : wrap_int (active_threads s + 1) = active_threads s + 1).
  { apply wrap_int_small. unfold PERF_MAX_THREADS in *. lia. }
  destruct (_ <? _); simpl; rewrite Hw;
    (split; [constructor; simpl; try done; by rewrite length_insert|]);
    repeat split; try done; unfold set_thread_id; by rewrite lookup_insert_eq.
Qed.

Lemma unregister_spec (t : os_thread) (now : timespec) (w : perf_world) :
  let s := g_perf_context w in
  let w' := perf_unregister_thread t now w in
  context_ok s ->
  context_ok (g_perf_context w')
  /\ config (g_perf_context w') = config s
  /\ active_threads (g_perf_context w')
     = (if truthy (enabled (config s)) && truthy (track_threads (config s))
        then wrap_int (active_threads s - 1) else active_threads s)
  /\ log_count (g_perf_context w') = log_count s
  /\ log_capacity (g_perf_context w') = log_capacity s
  /\ log_entries (g_perf_context w') = log_entries s
  /\ milestone_active (g_perf_context w') = milestone_active s
  /\ milestone_starts (g_perf_context w') = milestone_starts s.
Proof.
  intros s w' Hok. unfold w', perf_unregister_thread. fold s.
  destruct (truthy (enabled _)); simpl; [|done].
  destruct (truthy (track_threads _)); simpl; [|done].
  destruct (get_thread_id _ _) as [id tls]. simpl.
  pose proof Hok as [Hl Hc Hth Hs Hact].
  destruct (_ && _); [destruct (_ !! _)|]; simpl;
    (split; [constructor; simpl; try done; by rewrite length_insert|]); done.
Qed.

(** C2.  With [PERF_MAX_THREADS] threads registered, the next
    [perf_register_thread] does not return -1: it takes the thread id
    [PERF_MAX_THREADS] and writes [thread_data[PERF_MAX_THREADS]], one
    slot past the end of the array. *)
Theorem register_past_last_slot (t : os_thread) (now : timespec) (w : perf_world) :
  truthy (enabled (config (g_perf_context w))) = true ->
  truthy (track_threads (config (g_perf_context w))) = true ->
  active_threads (g_perf_context w) = PERF_MAX_THREADS ->
  perf_register_thread t now w = Fault (OutOfBounds PERF_MAX_THREADS)
  /\ perf_register_thread t now w <> Ok (-1, w).
Proof.
  intros He Ht Ha. unfold perf_register_thread. rewrite He, Ht, Ha. done.
Qed.

Lemma crowded_world_threads :
  registered_ids (register_threads 0 (Z.to_nat PERF_MAX_THREADS)) fresh_world
  = Z.of_nat <$> seq 0 (Z.to_nat PERF_MAX_THREADS)
  /\ active_threads (g_perf_context crowded_world) = PERF_MAX_THREADS
  /\ truthy (enabled (config (g_perf_context crowded_world))) = true
  /\ truthy (track_threads (config (g_perf_context crowded_world))) = true.
Proof. vm_compute. repeat split. Qed.

Lemma register_past_last_slot_witness :
  truthy (enabled (config (g_perf_context crowded_world))) = true
  /\ truthy (track_threads (config (g_perf_context crowded_world))) = true
  /\ active_threads (g_perf_context crowded_world) = PERF_MAX_THREADS
  /\ perf_register_thread 256%N (mk_timespec 100 256) crowded_world
     = Fault (OutOfBounds PERF_MAX_THREADS)
  /\ perf_register_thread 256%N (mk_timespec 100 256) crowded_world
     <> Ok (-1, crowded_world).
Proof.
  destruct crowded_world_threads as (_ & Ha & He & Ht).
  split; [exact He|]. split; [exact Ht|]. split; [exact Ha|].
  exact (register_past_last_slot 256%N (mk_timespec 100 256) crowded_world He Ht Ha).
Defined.

Lemma register_threads_ids (n : nat) (first : N) (w : perf_world) (offset : nat) :
  let s := g_perf_context w in
  context_ok s ->
  truthy (enabled (config s)) = true -> truthy (track_threads (config s)) = true ->
  0 <= active_threads s -> active_threads s + Z.of_nat n <= PERF_MAX_THREADS ->
  registered_ids
    ((fun i => CallRegisterThread (first + N.of_nat i)%N (mk_timespec 100 (Z.of_nat i)))
       <$> seq offset n) w
  = (fun i => active_threads s + Z.of_nat i) <$> seq 0 n.
Proof.
  revert w offset. induction n as [|n IH]; intros w offset s Hok He Ht Ha Hn; [done|].
  simpl.
  assert (Hrange : 0 <= active_threads s < PERF_MAX_THREADS) by lia.
  destruct (register_ok (first + N.of_nat offset)%N (mk_timespec 100 (Z.of_nat offset)) w
              Hok He Ht Hrange)
    as (w' & -> & Hok' & Hcfg & Hact & _).
  fold s. f_equal; [lia|].
  etrans.
  { apply (IH w' (S offset)); [done|by rewrite Hcfg|by rewrite Hcfg| |];
      rewrite Hact; fold s; lia. }
  change (list_fmap nat Z ?f ?l) with (f <$> l).
  rewrite <- fmap_S_seq, <- list_fmap_compose.
  apply list_fmap_ext. intros _ i _. simpl. rewrite Hact. fold s. lia.
Qed.

(** Thread 1 registers and gets index 0; after it unregisters, the next
    thread to register gets index 0 again. *)
Lemma index_assigned_again :
  registered_ids [ CallRegisterThread 1%N (mk_timespec 100 1);
                   CallUnregisterThread 1%N (mk_timespec 100 2);
                   CallRegisterThread 2%N (mk_timespec 100 3) ] fresh_world
  = [0; 0]
  /\ ~ NoDup (registered_ids
                [ CallRegisterThread 1%N (mk_timespec 100 1);
                  CallUnregisterThread 1%N (mk_timespec 100 2);
                  CallRegisterThread 2%N (mk_timespec 100 3) ] fresh_world).
Proof.
  assert (H : registered_ids
                [ CallRegisterThread 1%N (mk_timespec 100 1);
                  CallUnregisterThread 1%N (mk_timespec 100 2);
                  CallRegisterThread 2%N (mk_timespec 100 3) ] fresh_world
              = [0; 0]) by (vm_compute; reflexivity).
  split; [exact H|]. rewrite H. intros Hnd.
  apply NoDup_cons in Hnd as [Hnot _]. apply Hnot. by left.
Qed.

(** [perf_register_thread] returns the value that the active-thread
    counter had before the call, so threads that register with no
    unregistration in between get consecutive indices, from zero after
    initialization; [perf_unregister_thread] decrements the counter,
    whichever thread calls it, and the next [perf_register_thread]
    returns the decremented value. *)
Theorem register_returns_active_count (w : perf_world) (t : os_thread) (now : timespec) :
  let s := g_perf_context w in
  context_ok s ->
  truthy (enabled (config s)) = true -> truthy (track_threads (config s)) = true ->
  0 <= active_threads s < PERF_MAX_THREADS ->
  exists w',
    perf_register_thread t now w = Ok (active_threads s, w')
    /\ active_threads (g_perf_context w') = active_threads s + 1
    /\ (forall first n,
           active_threads s + Z.of_nat n <= PERF_MAX_THREADS ->
           registered_ids (register_threads first n) w
           = (fun i => active_threads s + Z.of_nat i) <$> seq 0 n)
    /\ (forall t' now',
           active_threads (g_perf_context (perf_unregister_thread t' now' w'))
           = active_threads s)
    /\ (forall t' now' t'' now'',
           exists w'',
             perf_register_thread t'' now'' (perf_unregister_thread t' now' w')
             = Ok (active_threads s, w'')).
Proof.
  intros s Hok He Ht Ha. subst s.
  destruct (register_ok t now w Hok He Ht Ha) as (w' & Hreg & Hok' & Hcfg & Hact & _).
  exists w'. split; [done|]. split; [done|].
  assert (Hun : forall t' now',
             context_ok (g_perf_context (perf_unregister_thread t' now' w'))
             /\ config (g_perf_context (perf_unregister_thread t' now' w'))
                = config (g_perf_context w)
             /\ active_threads (g_perf_context (perf_unregister_thread t' now' w'))
                = active_threads (g_perf_context w)).
  { intros t' now'.
    destruct (unregister_spec t' now' w' Hok') as (Hok'' & Hcfg'' & Hact'' & _).
    split; [done|]. split; [by rewrite Hcfg''|].
    rewrite Hact'', Hcfg, He, Ht, Hact. simpl.
    replace (active_threads (g_perf_context w) + 1 - 1)
      with (active_threads (g_perf_context w)) by lia.
    apply wrap_int_small. unfold PERF_MAX_THREADS in Ha. lia. }
  split; [|split].
  - intros first n Hn. by apply register_threads_ids; try lia.
  - intros t' now'. apply Hun.
  - intros t' now' t'' now''.
    destruct (Hun t' now') as (Hok'' & Hcfg'' & Hact'').
    destruct (register_ok t'' now'' (perf_unregister_thread t' now' w') Hok'')
      as (w'' & Hreg'' & _); try (rewrite Hcfg''; done); [lia|].
    exists w''. by rewrite Hreg'', Hact''.
Qed.

Lemma register_returns_active_count_witness :
  context_ok (g_perf_context fresh_world)
  /\ truthy (enabled (config (g_perf_context fresh_world))) = true
  /\ truthy (track_threads (config (g_perf_context fresh_world))) = true
  /\ exists w',
      perf_register_thread 1%N (mk_timespec 100 1) fresh_world = Ok (0, w')
      /\ active_threads (g_perf_context w') = 1
      /\ registered_ids (register_threads 0 4) fresh_world = [0; 1; 2; 3]
      /\ active_threads
           (g_perf_context (perf_unregister_thread 1%N (mk_timespec 100 2) w')) = 0
      /\ exists w'',
          perf_register_thread 2%N (mk_timespec 100 3)
            (perf_unregister_thread 1%N (mk_timespec 100 2) w') = Ok (0, w'').
Proof.
  split; [exact fresh_world_ok|]. split; [reflexivity|]. split; [reflexivity|].
  destruct (register_returns_active_count fresh_world 1%N (mk_timespec 100 1)
              fresh_world_ok eq_refl eq_refl ltac:(done))
    as (w' & Hreg & Hact & Hids & Hun & Hagain).
  exists w'. split; [exact Hreg|]. split; [exact Hact|].
  split; [exact (Hids 0%N 4%nat ltac:(done))|].
  split; [exact (Hun 1%N (mk_timespec 100 2))|].
  exact (Hagain 1%N (mk_timespec 100 2) 2%N (mk_timespec 100 3)).
Defined.

(** *** Statistics *)

Lemma published_records (s : perf_context_t) :
  context_ok s -> published s = Ok (records s).
Proof.
  intros Hok. destruct (published_ok s Hok) as (l & Hl & _ & ->).
  unfold records. by rewrite Hl.
Qed.

(** C10, as stated, fails: for a milestone value out of range the function
    returns -1 before it clears [*stats], which keeps its contents. *)
Lemma statistics_out_of_range_not_zeroed :
  perf_get_milestone_statistics PERF_MILESTONE_COUNT (Some used_statistics) true
    (g_perf_context fresh_world)
  = Ok (-1, Some used_statistics)
  /\ sample_count used_statistics = 2%N
  /\ used_statistics <> zero_statistics.
Proof. split; [reflexivity|]. split; [reflexivity|]. discriminate. Qed.

(** C10, amended.  [perf_get_milestone_statistics(m, stats)] returns 0
    exactly when [stats] is not null, [m] is in range, the allocation
    succeeds and the buffer holds a record of kind [m]; otherwise it
    returns -1.  When it returns -1 with [m] in range (and [stats] not
    null), [*stats] is all zero; when [m] is out of range, [*stats] is
    left as it was. *)
Theorem milestone_statistics_result (s : perf_context_t) (m : perf_milestone_t)
    (stats : option perf_statistics_t) (malloc_ok : bool) :
  context_ok s ->
  exists ret stats',
    perf_get_milestone_statistics m stats malloc_ok s = Ok (ret, stats')
    /\ (ret = 0 \/ ret = -1)
    /\ (ret = 0 <->
        is_Some stats /\ (m < PERF_MILESTONE_COUNT)%N /\ malloc_ok = true
        /\ exists e, e ∈ records s /\ milestone e = m)
    /\ (stats = None -> stats' = None)
    /\ (forall old, stats = Some old -> (PERF_MILESTONE_COUNT <= m)%N ->
                    ret = -1 /\ stats' = Some old)
    /\ (forall old, stats = Some old -> (m < PERF_MILESTONE_COUNT)%N -> ret = -1 ->
                    stats' = Some zero_statistics)
    /\ (ret = 0 ->
        exists st, stats' = Some st
                   /\ sample_count st
                      = N.of_nat (length (filter (fun e => milestone e = m) (records s)))
                   /\ median st = 0%float /\ percentile_95 st = 0%float
                   /\ percentile_99 st = 0%float).
Proof.
  intros Hok. unfold perf_get_milestone_statistics.
  destruct stats as [old|].
  2:{ exists (-1), None. split; [done|]. split; [by right|].
      repeat split; try done; try lia.
      all: try (intros (Hs & _); by destruct Hs). }
  destruct (N.leb_spec PERF_MILESTONE_COUNT m) as [Hm|Hm].
  { exists (-1), (Some old). split; [done|]. split; [by right|].
    repeat split; try done; try lia.
    all: try (intros (_ & Hlt & _); lia). }
  destruct malloc_ok; simpl.
  2:{ exists (-1), (Some zero_statistics). split; [done|]. split; [by right|].
      repeat split; try done; try lia.
      all: try (by intros (_ & _ & Hf & _)). }
  rewrite (published_records s Hok). simpl.
  destruct (filter (fun e => milestone e = m) (records s)) as [|e0 rest] eqn:Hf; simpl.
  - exists (-1), (Some zero_statistics). split; [done|]. split; [by right|].
    split.
    { split; [done|]. intros (_ & _ & _ & e & He & Hk).
      assert (Hin : e ∈ filter (fun e => milestone e = m) (records s))
        by (by apply list_elem_of_filter).
      rewrite Hf in Hin. by apply elem_of_nil in Hin. }
    repeat split; try done; try lia.
  - destruct (stats_scan _ _) as [[mn mx] sum].
    eexists 0, _. split; [reflexivity|]. split; [by left|].
    split; [|split; [done|split; [intros; lia|split; [done|]]]].
    + split; [|done]. intros _. split; [done|]. split; [done|]. split; [done|].
      exists e0.
      assert (Hin : e0 ∈ filter (fun e => milestone e = m) (records s))
        by (rewrite Hf; by left).
      by apply list_elem_of_filter in Hin as [? ?].
    + intros _. eexists. split; [reflexivity|]. simpl.
      by rewrite length_fmap.
Qed.

Lemma milestone_statistics_result_witness :
  context_ok (g_perf_context fresh_world)
  /\ perf_get_milestone_statistics PERF_MILESTONE_USER_1 (Some used_statistics) true
       (g_perf_context fresh_world)
     = Ok (-1, Some zero_statistics)
  /\ perf_get_milestone_statistics PERF_MILESTONE_COUNT (Some used_statistics) true
       (g_perf_context fresh_world)
     = Ok (-1, Some used_statistics).
Proof.
  split; [exact fresh_world_ok|].
  destruct (milestone_statistics_result (g_perf_context fresh_world) PERF_MILESTONE_USER_1
              (Some used_statistics) true fresh_world_ok)
    as (ret & stats' & Hrun & Hret & _ & _ & _ & Hzero & _).
  split; [|reflexivity].
  assert (Hr : ret = -1).
  { assert (Hc : perf_get_milestone_statistics PERF_MILESTONE_USER_1
                   (Some used_statistics) true (g_perf_context fresh_world)
                 = Ok (-1, Some zero_statistics)) by reflexivity.
    rewrite Hc in Hrun. by injection Hrun. }
  rewrite Hrun, Hr. f_equal. f_equal. by apply (Hzero used_statistics).
Defined.

(** *** Lines of text *)

Lemma string_append_cons (x : ascii) (a b : string) :
  String.append (String x a) b = String x (String.append a b).
Proof. reflexivity. Qed.

Lemma string_append_assoc (a b c : string) :
  String.append (String.append a b) c = String.append a (String.append b c).
Proof.
  induction a as [|x a IH]; [done|]. rewrite !string_append_cons. by f_equal.
Qed.

Lemma string_append_empty (a : string) : String.append a EmptyString = a.
Proof.
  induction a as [|x a IH]; [done|]. rewrite string_append_cons. by f_equal.
Qed.

Lemma count_lines_append (a b : string) :
  count_lines (String.append a b) = (count_lines a + count_lines b)%nat.
Proof. induction a as [|x a IH]; simpl; [done|]. rewrite IH. lia. Qed.

Lemma has_newline_append (a b : string) :
  has_newline (String.append a b) = has_newline a || has_newline b.
Proof.
  induction a as [|x a IH]; simpl; [done|]. by destruct (Ascii.eqb x newline).
Qed.

Lemma count_lines_none (s : string) : has_newline s = false -> count_lines s = 0%nat.
Proof.
  induction s as [|x s IH]; simpl; [done|].
  destruct (Ascii.eqb x newline); [done|]. intros H. by rewrite IH.
Qed.

Lemma has_newline_concat (parts : list string) :
  Forall (fun p => has_newline p = false) parts ->
  has_newline (str_concat parts) = false.
Proof.
  induction 1 as [|p parts Hp _ IH]; simpl; [done|].
  by rewrite has_newline_append, Hp, IH.
Qed.

Lemma digit_char_not_newline (n : N) :
  Ascii.eqb (digit_char (n mod 10)) newline = false.
Proof.
  assert (Hd : (n mod 10 < 10)%N) by (apply N.mod_lt; lia).
  set (d := (n mod 10)%N) in *. clearbody d.
  assert (Hc : (d = 0 \/ d = 1 \/ d = 2 \/ d = 3 \/ d = 4 \/ d = 5 \/ d = 6
                \/ d = 7 \/ d = 8 \/ d = 9)%N) by lia.
  repeat (destruct Hc as [-> | Hc]; [reflexivity|]). by rewrite Hc.
Qed.

Lemma fmt_digits_no_newline (fuel : nat) (n : N) (acc : string) :
  has_newline acc = false -> has_newline (fmt_digits fuel n acc) = false.
Proof.
  revert n acc. induction fuel as [|fuel IH]; intros n acc Hacc; simpl; [done|].
  assert (Hstep : has_newline (String (digit_char (n mod 10)) acc) = false).
  { simpl. by rewrite digit_char_not_newline. }
  destruct (n / 10 =? 0)%N; [done|]. by apply IH.
Qed.

Lemma fmt_zu_no_newline (n : N) : has_newline (fmt_zu n) = false.
Proof. by apply fmt_digits_no_newline. Qed.

Lemma fmt_d_no_newline (z : Z) : has_newline (fmt_d z) = false.
Proof.
  unfold fmt_d. destruct (z <? 0); simpl; by rewrite ?fmt_zu_no_newline.
Qed.

Lemma zero_pad_no_newline (width : nat) (s : string) :
  has_newline s = false -> has_newline (zero_pad width s) = false.
Proof.
  intros Hs. unfold zero_pad.
  induction (width - String.length s)%nat as [|k IH]; simpl; done.
Qed.

Lemma fmt_09ld_no_newline (z : Z) : has_newline (fmt_09ld z) = false.
Proof.
  unfold fmt_09ld.
  destruct (z <? 0); simpl; apply zero_pad_no_newline, fmt_zu_no_newline.
Qed.

Lemma fmt_f_no_newline (prec : nat) (x : double) : has_newline (fmt_f prec x) = false.
Proof.
  assert (Hfixed : forall (neg : bool) (n : N),
             has_newline
               (let p10 := (10 ^ N.of_nat prec)%N in
                let body :=
                  match prec with
                  | O => fmt_zu n
                  | S _ => String.append (fmt_zu (n / p10))
                             (String "." (zero_pad prec (fmt_zu (n mod p10))))
                  end in
                if neg then String "-" body else body) = false).
  { intros neg n. cbv zeta.
    assert (Hbody : has_newline
                      match prec with
                      | O => fmt_zu n
                      | S _ => String.append (fmt_zu (n / 10 ^ N.of_nat prec))
                                 (String "." (zero_pad prec
                                                (fmt_zu (n mod 10 ^ N.of_nat prec))))
                      end = false).
    { destruct prec; [apply fmt_zu_no_newline|].
      rewrite has_newline_append, fmt_zu_no_newline. simpl.
      apply zero_pad_no_newline, fmt_zu_no_newline. }
    destruct neg; simpl; by rewrite Hbody. }
  unfold fmt_f. destruct (Prim2SF x) as [neg|neg| |neg m e].
  - apply Hfixed.
  - by destruct neg.
  - done.
  - apply Hfixed.
Qed.

Lemma milestone_name_no_newline (m : perf_milestone_t) :
  has_newline (perf_milestone_name m) = false.
Proof.
  assert (Hall : Forall (fun p => has_newline p = false) milestone_names)
    by (repeat constructor).
  unfold perf_milestone_name. destruct (m <? PERF_MILESTONE_COUNT)%N; [|done].
  destruct (nth_in_or_default (N.to_nat m) milestone_names "UNKNOWN"%string) as [Hin| ->];
    [|done].
  rewrite Forall_forall in Hall. apply Hall. by apply list_elem_of_In.
Qed.

Lemma csv_row_one_line (e : perf_metrics_t) :
  has_newline (label e) = false -> has_newline (context e) = false ->
  count_lines (csv_row e) = 1%nat.
Proof.
  intros Hl Hc. unfold csv_row. rewrite count_lines_append.
  rewrite count_lines_none; [done|].
  apply has_newline_concat.
  repeat constructor;
    auto using fmt_d_no_newline, fmt_09ld_no_newline, fmt_zu_no_newline,
               fmt_f_no_newline, milestone_name_no_newline.
Qed.

Lemma csv_rows_lines (entries : list perf_metrics_t) :
  Forall (fun e => has_newline (label e) = false /\ has_newline (context e) = false)
         entries ->
  count_lines (str_concat (csv_row <$> entries)) = length entries.
Proof.
  induction 1 as [|e entries [Hl Hc] _ IH]; [done|].
  rewrite fmap_cons. simpl str_concat. rewrite count_lines_append, IH.
  by rewrite csv_row_one_line.
Qed.

(** *** Writing to a stream *)

Lemma stream_text_fprintf (f : FILE) (text : string) (fs : gmap FILE string) :
  stream_text f (fprintf f text fs) = String.append (stream_text f fs) text.
Proof. unfold stream_text at 1, fprintf. by rewrite lookup_insert_eq. Qed.

Lemma fprintf_other (f f' : FILE) (text : string) (fs : gmap FILE string) :
  f' <> f -> fprintf f text fs !! f' = fs !! f'.
Proof. intros Hne. unfold fprintf. by rewrite lookup_insert_ne. Qed.

Lemma fprintf_rows (f : FILE) (g : perf_metrics_t -> string)
    (entries : list perf_metrics_t) (fs : gmap FILE string) :
  let fs' := fold_left (fun fs e => fprintf f (g e) fs) entries fs in
  stream_text f fs' = String.append (stream_text f fs) (str_concat (g <$> entries))
  /\ forall f', f' <> f -> fs' !! f' = fs !! f'.
Proof.
  revert fs. induction entries as [|e entries IH]; intros fs; simpl.
  - by rewrite string_append_empty.
  - destruct (IH (fprintf f (g e) fs)) as [Htext Hother]. split.
    + rewrite Htext, stream_text_fprintf. apply string_append_assoc.
    + intros f' Hne. rewrite Hother by done. by apply fprintf_other.
Qed.

Lemma records_length (s : perf_context_t) :
  context_ok s -> length (records s) = N.to_nat (log_count s).
Proof.
  intros [[l [Hl Hlen]] Hc _ _ _]. unfold records. rewrite Hl, length_take. lia.
Qed.

Lemma with_output_restore (f : option FILE) (fmt : perf_output_format_t)
    (c : perf_config_t) :
  with_output (output_file c) (output_format c) (with_output f fmt c) = c.
Proof. by destruct c. Qed.

Lemma set_config_same (s : perf_context_t) : set_config (config s) s = s.
Proof. by destruct s. Qed.

Lemma set_config_twice (c c' : perf_config_t) (s : perf_context_t) :
  set_config c (set_config c' s) = set_config c s.
Proof. done. Qed.

(** *** CSV export *)

(** C7, as stated, fails: a record whose label holds a newline takes two
    lines of the file.  One record gives three lines, not two. *)
Lemma export_csv_two_line_label :
  match perf_run two_line_export fresh_world with
  | Ok w =>
      log_count (g_perf_context w) = 1%N
      /\ count_lines (stream_text 3%N (streams w)) = 3%nat
      /\ count_lines (stream_text 3%N (streams w))
         <> S (N.to_nat (log_count (g_perf_context w)))
  | Fault _ => False
  end.
Proof. vm_compute. repeat split. discriminate. Qed.

(** C7, amended.  With monitoring enabled, [perf_export_csv(path)] leaves
    in the file the canonical header line followed by one data row per
    record of the buffer, in order, and then restores the output stream
    and the output format; the file has exactly [N + 1] lines when no
    label and no context of the [N] records contains a newline
    character.  If the file cannot be opened, nothing is written and the
    output stream is the one from before. *)
Theorem export_csv_rows (w : perf_world) (path : string) (f : FILE) :
  let s := g_perf_context w in
  context_ok s ->
  truthy (enabled (config s)) = true ->
  (exists w',
      perf_export_csv (Some path) (Some f) w = Ok w'
      /\ g_perf_context w' = s
      /\ stream_text f (streams w')
         = String.append csv_header (str_concat (csv_row <$> records s))
      /\ (forall f', f' <> f -> streams w' !! f' = streams w !! f')
      /\ (Forall (fun e => has_newline (label e) = false
                           /\ has_newline (context e) = false) (records s) ->
          count_lines (stream_text f (streams w')) = S (N.to_nat (log_count s))))
  /\ perf_export_csv (Some path) None w = Ok w.
Proof.
  intros s Hok He. split.
  - unfold perf_export_csv. fold s.
    set (s1 := set_config (with_output (Some f) PERF_FORMAT_CSV (config s)) s).
    set (fs1 := fprintf f csv_header (fopen_w f (streams w))).
    assert (Hok1 : context_ok s1) by (by apply context_ok_config).
    unfold perf_flush_logs. cbn [g_perf_context].
    replace (truthy (enabled (config s1))) with true by (symmetry; exact He).
    cbn [negb]. cbn [s1 config set_config with_output output_file output_format].
    fold s1. rewrite (published_records s1 Hok1).
    change (records s1) with (records s).
    cbn [mbind result_bind]. cbn [set_streams g_perf_context streams format_entry].
    destruct (fprintf_rows f csv_row (records s) fs1) as [Htext Hother].
    eexists. split; [reflexivity|].
    cbn [g_perf_context set_context set_streams streams tls_thread_key cpu_static].
    split; [|split; [|split]].
    + unfold s1. rewrite set_config_twice.
      cbn [config set_config]. rewrite with_output_restore. apply set_config_same.
    + rewrite Htext. unfold fs1. rewrite stream_text_fprintf.
      unfold stream_text at 1, fopen_w. by rewrite lookup_insert_eq.
    + intros f' Hne. rewrite Hother by done. unfold fs1.
      rewrite fprintf_other by done. unfold fopen_w. by rewrite lookup_insert_ne.
    + intros Hlines. rewrite Htext. unfold fs1. rewrite stream_text_fprintf.
      unfold stream_text at 1, fopen_w. rewrite lookup_insert_eq.
      cbn [default]. rewrite !count_lines_append.
      rewrite (csv_rows_lines _ Hlines), (records_length s Hok).
      change (count_lines csv_header) with 1%nat. simpl. lia.
  - unfold perf_export_csv. fold s.
    replace (with_output (output_file (config s)) (output_format (config s)) (config s))
      with (config s) by (by destruct (config s)).
    rewrite set_config_same. unfold s. by rewrite set_context_same.
Qed.

(** *** The effect of each call on the buffer *)

Lemma log_effect_none (s s' : perf_context_t) :
  context_ok s' -> log_capacity s' = log_capacity s -> config s' = config s ->
  log_entries s' = log_entries s -> log_count s' = log_count s ->
  log_effect s s' None.
Proof. intros. unfold log_effect. auto. Qed.

Lemma log_effect_refl (s : perf_context_t) : context_ok s -> log_effect s s None.
Proof. intros. by apply log_effect_none. Qed.

Lemma log_effect_publish (e' : perf_metrics_t) (l : list perf_metrics_t)
    (s : perf_context_t) :
  context_ok s -> (log_count s < log_capacity s)%N -> log_entries s = Some l ->
  log_effect s (publish e' l s) (Some (duration_ms e')).
Proof.
  intros Hok Hlt Hl. split; [by apply publish_context_ok|].
  split; [done|]. split; [done|]. by exists l, e'.
Qed.

Lemma start_effect (m : perf_milestone_t) (lbl : option string) (now : timespec)
    (s : perf_context_t) :
  context_ok s -> log_effect s (perf_start_milestone_labeled m lbl now s) None.
Proof.
  intros Hok. apply log_effect_none; [by apply start_context_ok|..];
    unfold perf_start_milestone_labeled; by destruct (_ || _).
Qed.

Lemma event_effect (lbl : option string) (value : double) (ctx : option string)
    (now : timespec) (s s' : perf_context_t) :
  context_ok s ->
  perf_log_event_with_context lbl value ctx now s = Ok s' ->
  log_effect s s'
    (if truthy (enabled (config s)) && bool_decide (is_Some lbl)
        && (log_count s <? log_capacity s)%N
     then Some value else None).
Proof.
  intros Hok Hrun. destruct lbl as [l|].
  2:{ injection Hrun as <-. rewrite andb_false_r. by apply log_effect_refl. }
  destruct (truthy (enabled (config s))) eqn:He.
  2:{ unfold perf_log_event_with_context in Hrun. rewrite He in Hrun.
      injection Hrun as <-. by apply log_effect_refl. }
  destruct (N.ltb_spec (log_count s) (log_capacity s)) as [Hlt|Hge]; simpl.
  - destruct (event_publishes s l value ctx now Hok He Hlt) as (l0 & e & Hl & Hle & Hp).
    rewrite Hp in Hrun. injection Hrun as <-.
    by apply (log_effect_publish (event_entry s l value ctx now e)).
  - unfold perf_log_event_with_context in Hrun. rewrite He in Hrun. simpl in Hrun.
    destruct (N.ltb_spec (log_count s) (log_capacity s)); [lia|].
    injection Hrun as <-. by apply log_effect_refl.
Qed.

Lemma iteration_effect (i : Z) (metric : double) (now : timespec)
    (s s' : perf_context_t) :
  context_ok s ->
  perf_log_iteration i metric now s = Ok s' ->
  log_effect s s'
    (if truthy (enabled (config s)) && (log_count s <? log_capacity s)%N
     then Some 0%float else None).
Proof.
  intros Hok Hrun.
  destruct (truthy (enabled (config s))) eqn:He.
  2:{ unfold perf_log_iteration in Hrun. rewrite He in Hrun.
      injection Hrun as <-. by apply log_effect_refl. }
  destruct (N.ltb_spec (log_count s) (log_capacity s)) as [Hlt|Hge]; simpl.
  - destruct (iteration_publishes s i metric now Hok He Hlt) as (l0 & e & Hl & Hle & Hp).
    rewrite Hp in Hrun. injection Hrun as <-.
    by apply (log_effect_publish (iteration_entry s i metric now e)).
  - unfold perf_log_iteration in Hrun. rewrite He in Hrun. simpl in Hrun.
    destruct (N.ltb_spec (log_count s) (log_capacity s)); [lia|].
    injection Hrun as <-. by apply log_effect_refl.
Qed.

Lemma algorithm_step_effect (a st : option string) (metric : double) (now : timespec)
    (s s' : perf_context_t) :
  context_ok s ->
  perf_log_algorithm_step a st metric now s = Ok s' ->
  log_effect s s'
    (if truthy (enabled (config s)) && (bool_decide (is_Some a) && bool_decide (is_Some st))
        && (log_count s <? log_capacity s)%N
     then Some metric else None).
Proof.
  intros Hok Hrun. unfold perf_log_algorithm_step in Hrun.
  destruct a as [a|]; [destruct st as [st|]|].
  - destruct (truthy (enabled (config s))) eqn:He; cbn [negb] in Hrun.
    + apply event_effect in Hrun; [|done]. by rewrite He in Hrun.
    + injection Hrun as <-. by apply log_effect_refl.
  - injection Hrun as <-. rewrite andb_false_r. by apply log_effect_refl.
  - injection Hrun as <-. rewrite andb_false_r. by apply log_effect_refl.
Qed.

Lemma end_effect (m : perf_milestone_t) (lbl : option string) (os : os_probe)
    (w w' : perf_world) :
  context_ok (g_perf_context w) ->
  perf_end_milestone_labeled m lbl os w = Ok w' ->
  log_effect (g_perf_context w) (g_perf_context w')
    (if publishes (CallEndMilestoneLabeled m lbl os) w
     then Some (published_duration (CallEndMilestoneLabeled m lbl os) w) else None).
Proof.
  intros Hok Hrun. unfold publishes, publish_attempt, published_duration.
  set (s := g_perf_context w) in *.
  destruct (truthy (enabled (config s))) eqn:He.
  2:{ unfold perf_end_milestone_labeled in Hrun. fold s in Hrun. rewrite He in Hrun.
      injection Hrun as <-. by apply log_effect_refl. }
  destruct (N.ltb_spec m PERF_MILESTONE_COUNT) as [Hm|Hm].
  2:{ unfold perf_end_milestone_labeled in Hrun. fold s in Hrun. rewrite He in Hrun.
      destruct (N.leb_spec PERF_MILESTONE_COUNT m); [|lia].
      injection Hrun as <-. by apply log_effect_refl. }
  destruct (milestone_slots s m Hok Hm) as (a & start & Ha & Hst).
  rewrite Ha, Hst. cbn [andb].
  destruct (truthy a) eqn:Hat.
  2:{ rewrite (end_inactive m lbl os w a Hok Ha Hat) in Hrun.
      injection Hrun as <-. by apply log_effect_refl. }
  destruct (N.ltb_spec (log_count s) (log_capacity s)) as [Hlt|Hge].
  - destruct (write_entry_ok id s Hok Hlt) as (l & e & Hl & Hle & _).
    destruct (end_active_publishes m lbl os w a start l e Hok He Hm Ha Hat Hst Hlt Hl Hle)
      as (w'' & e' & Hend & Hc & Hcap & Hl' & _ & Hcfg & _ & _ & Hd & H).
    rewrite Hend in Hrun. injection Hrun as <-.
    split; [apply H|]. split; [done|]. split; [done|].
    by exists l, e'.
  - unfold perf_end_milestone_labeled in Hrun. fold s in Hrun.
    rewrite He, Ha, Hst, Hat in Hrun. cbn [negb orb] in Hrun.
    destruct (N.leb_spec PERF_MILESTONE_COUNT m); [lia|].
    destruct (N.ltb_spec (log_count s) (log_capacity s)); [lia|].
    cbn [mbind result_bind] in Hrun. injection Hrun as <-.
    cbn [g_perf_context set_context]. fold s.
    apply log_effect_none; try done.
    apply context_ok_milestone_active; [|done].
    rewrite length_insert. by destruct Hok.
Qed.

Lemma flush_context (w w' : perf_world) :
  context_ok (g_perf_context w) -> perf_flush_logs w = Ok w' ->
  g_perf_context w' = g_perf_context w.
Proof.
  intros Hok Hrun. destruct (flush_ok w Hok) as [fs Hfs].
  rewrite Hfs in Hrun. by injection Hrun as <-.
Qed.

Lemma export_csv_context (filename : option string) (fopen_result : option FILE)
    (w w' : perf_world) :
  context_ok (g_perf_context w) ->
  perf_export_csv filename fopen_result w = Ok w' ->
  g_perf_context w' = g_perf_context w.
Proof.
  intros Hok Hrun. unfold perf_export_csv in Hrun.
  destruct filename as [path|]; [|by injection Hrun as <-].
  set (s := g_perf_context w) in *.
  destruct fopen_result as [f|].
  - set (w1 := mk_world _ _ _ _) in Hrun.
    assert (Hok1 : context_ok (g_perf_context w1)) by (by apply context_ok_config).
    destruct (flush_ok w1 Hok1) as [fs Hfs]. rewrite Hfs in Hrun.
    cbn [mbind result_bind] in Hrun. injection Hrun as <-.
    cbn [g_perf_context set_context set_streams w1].
    rewrite set_config_twice. cbn [config set_config].
    rewrite with_output_restore. apply set_config_same.
  - injection Hrun as <-. cbn [g_perf_context set_context].
    replace (with_output (output_file (config s)) (output_format (config s)) (config s))
      with (config s) by (by destruct (config s)).
    apply set_config_same.
Qed.

Lemma export_csv_defined (filename : option string) (fopen_result : option FILE)
    (w : perf_world) :
  context_ok (g_perf_context w) ->
  exists w', perf_export_csv filename fopen_result w = Ok w'.
Proof.
  intros Hok. unfold perf_export_csv.
  destruct filename as [path|]; [|eauto].
  destruct fopen_result as [f|]; [|eauto].
  set (w1 := mk_world _ _ _ _).
  assert (Hok1 : context_ok (g_perf_context w1)) by (by apply context_ok_config).
  destruct (flush_ok w1 Hok1) as [fs ->]. cbn [mbind result_bind]. eauto.
Qed.

Lemma register_effect (t : os_thread) (now : timespec) (w w' : perf_world) (id : Z) :
  context_ok (g_perf_context w) ->
  perf_register_thread t now w = Ok (id, w') ->
  log_effect (g_perf_context w) (g_perf_context w') None.
Proof.
  intros Hok Hrun. unfold perf_register_thread in Hrun.
  set (s := g_perf_context w) in *.
  destruct (_ || _).
  { injection Hrun as <- <-. by apply log_effect_refl. }
  destruct (_ && _); [|done].
  destruct (_ !! _) as [slot|] eqn:Hslot; [|done].
  injection Hrun as <- <-. cbn [g_perf_context].
  pose proof Hok as [Hl Hc Hth Hs Hact].
  destruct (_ <? _); apply log_effect_none; try done;
    constructor; simpl; try done; by rewrite length_insert.
Qed.

Lemma unregister_effect (t : os_thread) (now : timespec) (w : perf_world) :
  context_ok (g_perf_context w) ->
  log_effect (g_perf_context w) (g_perf_context (perf_unregister_thread t now w)) None.
Proof.
  intros Hok.
  destruct (unregister_spec t now w Hok) as (Hok' & Hcfg & _ & Hc & Hcap & Hl & _).
  by apply log_effect_none.
Qed.

Lemma on_context_effect (f : perf_context_t -> perf_context_t) (w w' : perf_world)
    (pub : option double) :
  log_effect (g_perf_context w) (f (g_perf_context w)) pub ->
  on_context f w = Ok w' ->
  log_effect (g_perf_context w) (g_perf_context w') pub.
Proof. intros Heff Hrun. by injection Hrun as <-. Qed.

Lemma on_context_r_effect (f : perf_context_t -> result perf_context_t)
    (w w' : perf_world) (pub : option double) :
  (forall s', f (g_perf_context w) = Ok s' -> log_effect (g_perf_context w) s' pub) ->
  on_context_r f w = Ok w' ->
  log_effect (g_perf_context w) (g_perf_context w') pub.
Proof.
  intros Heff Hrun. unfold on_context_r in Hrun.
  destruct (f (g_perf_context w)) as [s'|]; [|done].
  injection Hrun as <-. by apply Heff.
Qed.

(** Every call other than [perf_reset] and [perf_set_enabled] keeps the
    configuration and the capacity, and publishes at most one record. *)
Lemma perf_call_effect (c : api_call) (w w' : perf_world) :
  context_ok (g_perf_context w) ->
  perf_call c w = Ok w' ->
  match c with
  | CallReset now => g_perf_context w' = perf_reset now (g_perf_context w)
  | CallSetEnabled e => g_perf_context w' = perf_set_enabled e (g_perf_context w)
  | _ =>
      log_effect (g_perf_context w) (g_perf_context w')
        (if publishes c w then Some (published_duration c w) else None)
  end.
Proof.
  intros Hok Hrun. destruct c; cbn [perf_call] in Hrun.
  - replace (publishes _ w) with false
      by (unfold publishes, publish_attempt; by rewrite andb_false_r).
    eapply on_context_effect; [|exact Hrun]. by apply start_effect.
  - replace (publishes _ w) with false
      by (unfold publishes, publish_attempt; by rewrite andb_false_r).
    eapply on_context_effect; [|exact Hrun]. by apply start_effect.
  - by apply (end_effect m (Some EmptyString) os).
  - by apply end_effect.
  - eapply on_context_r_effect; [|exact Hrun]. intros s' Hs'.
    by apply (event_effect lbl value (Some EmptyString) now).
  - eapply on_context_r_effect; [|exact Hrun]. intros s' Hs'.
    by apply (event_effect lbl value ctx now).
  - eapply on_context_r_effect; [|exact Hrun]. intros s' Hs'.
    apply iteration_effect in Hs'; [|done].
    unfold publishes, publish_attempt. by rewrite andb_true_r.
  - eapply on_context_r_effect; [|exact Hrun]. intros s' Hs'.
    by apply (algorithm_step_effect algorithm step metric now).
  - by injection Hrun as <-.
  - by injection Hrun as <-.
  - destruct (perf_register_thread t now w) as [[id w'']|] eqn:Hreg; [|done].
    injection Hrun as <-. unfold publishes, publish_attempt. rewrite andb_false_r.
    by apply (register_effect t now w w'' id).
  - injection Hrun as <-. unfold publishes, publish_attempt. rewrite andb_false_r.
    by apply unregister_effect.
  - unfold publishes, publish_attempt. rewrite andb_false_r.
    rewrite (flush_context w w' Hok Hrun). by apply log_effect_refl.
  - unfold publishes, publish_attempt. rewrite andb_false_r.
    rewrite (export_csv_context _ _ w w' Hok Hrun). by apply log_effect_refl.
Qed.

Lemma perf_call_context_ok (c : api_call) (w w' : perf_world) :
  context_ok (g_perf_context w) -> perf_call c w = Ok w' ->
  context_ok (g_perf_context w')
  /\ log_capacity (g_perf_context w') = log_capacity (g_perf_context w).
Proof.
  intros Hok Hrun. pose proof (perf_call_effect c w w' Hok Hrun) as Heff.
  destruct c; try (destruct Heff as (? & ? & _); done).
  - rewrite Heff. split; [by apply reset_context_ok|].
    unfold perf_reset. by destruct (negb _).
  - rewrite Heff. split; [by apply context_ok_config|done].
Qed.

Lemma end_defined (m : perf_milestone_t) (lbl : option string) (os : os_probe)
    (w : perf_world) :
  context_ok (g_perf_context w) ->
  exists w', perf_end_milestone_labeled m lbl os w = Ok w'.
Proof.
  intros Hok. set (s := g_perf_context w).
  destruct (truthy (enabled (config s))) eqn:He.
  2:{ unfold perf_end_milestone_labeled. fold s. rewrite He. eauto. }
  destruct (N.ltb_spec m PERF_MILESTONE_COUNT) as [Hm|Hm].
  2:{ unfold perf_end_milestone_labeled. fold s. rewrite He.
      destruct (N.leb_spec PERF_MILESTONE_COUNT m); [|lia]. eauto. }
  destruct (milestone_slots s m Hok Hm) as (a & start & Ha & Hst).
  destruct (truthy a) eqn:Hat.
  2:{ rewrite (end_inactive m lbl os w a Hok Ha Hat). eauto. }
  destruct (N.ltb_spec (log_count s) (log_capacity s)) as [Hlt|Hge].
  - destruct (write_entry_ok id s Hok Hlt) as (l & e & Hl & Hle & _).
    destruct (end_active_publishes m lbl os w a start l e Hok He Hm Ha Hat Hst Hlt Hl Hle)
      as (w' & _ & Hend & _).
    eauto.
  - unfold perf_end_milestone_labeled. fold s.
    rewrite He, Ha, Hst, Hat. cbn [negb orb].
    destruct (N.leb_spec PERF_MILESTONE_COUNT m); [lia|].
    destruct (N.ltb_spec (log_count s) (log_capacity s)); [lia|].
    cbn [mbind result_bind]. eauto.
Qed.

(** A call faults only if it is a [perf_register_thread] that finds the
    thread counter outside [0 .. PERF_MAX_THREADS - 1]. *)
Lemma perf_call_defined (c : api_call) (w : perf_world) :
  context_ok (g_perf_context w) ->
  (forall t now, c <> CallRegisterThread t now) ->
  exists w', perf_call c w = Ok w'.
Proof.
  intros Hok Hc.
  assert (Hend : forall m lbl os, exists w', perf_end_milestone_labeled m lbl os w = Ok w')
    by (intros; by apply end_defined).
  assert (Hevent : forall lbl value ctx now,
             exists s', perf_log_event_with_context lbl value ctx now (g_perf_context w)
                        = Ok s').
  { intros lbl value ctx now. unfold perf_log_event_with_context.
    destruct lbl as [l|]; [|eauto]. destruct (negb _); [eauto|].
    destruct (N.ltb_spec (log_count (g_perf_context w))
                (log_capacity (g_perf_context w))) as [Hlt|Hge]; [|eauto].
    match goal with
    | |- context [write_entry ?f _] =>
        destruct (write_entry_ok f (g_perf_context w) Hok Hlt) as (l0 & e & Hl & Hle & ->)
    end.
    cbn [mbind result_bind]. eauto. }
  destruct c; cbn [perf_call]; unfold on_context, on_context_r.
  - eauto.
  - eauto.
  - apply Hend.
  - apply Hend.
  - destruct (Hevent lbl value (Some EmptyString) now) as [s' Hs'].
    unfold perf_log_event. rewrite Hs'. cbn [mbind result_bind]. eauto.
  - destruct (Hevent lbl value ctx now) as [s' ->]. cbn [mbind result_bind]. eauto.
  - unfold perf_log_iteration. destruct (negb _); [cbn [mbind result_bind]; eauto|].
    destruct (N.ltb_spec (log_count (g_perf_context w))
                (log_capacity (g_perf_context w))) as [Hlt|Hge];
      [|cbn [mbind result_bind]; eauto].
    match goal with
    | |- context [write_entry ?f _] =>
        destruct (write_entry_ok f (g_perf_context w) Hok Hlt) as (l0 & e & Hl & Hle & ->)
    end.
    cbn [mbind result_bind]. eauto.
  - unfold perf_log_algorithm_step.
    destruct algorithm as [a|]; [destruct step as [st|]|];
      try (cbn [mbind result_bind]; eauto; fail).
    destruct (negb _); [cbn [mbind result_bind]; eauto|].
    match goal with
    | |- context [perf_log_event_with_context ?l ?v ?c ?n _] =>
        destruct (Hevent l v c n) as [s' ->]
    end.
    cbn [mbind result_bind]. eauto.
  - eauto.
  - eauto.
  - by destruct (Hc t now).
  - eauto.
  - destruct (flush_ok w Hok) as [fs ->]. eauto.
  - by apply export_csv_defined.
Qed.

(** *** Runs *)

Lemma perf_run_app (calls1 calls2 : list api_call) (w : perf_world) :
  perf_run (calls1 ++ calls2) w = perf_run calls1 w ≫= perf_run calls2.
Proof.
  revert w. induction calls1 as [|c calls1 IH]; intros w; [done|].
  simpl. destruct (perf_call c w) as [w'|]; [|done]. apply IH.
Qed.

Lemma perf_call_count (c : api_call) (w w' : perf_world) :
  context_ok (g_perf_context w) ->
  perf_call c w = Ok w' ->
  log_count (g_perf_context w')
  = match c with
    | CallReset _ =>
        if truthy (enabled (config (g_perf_context w))) then 0%N
        else log_count (g_perf_context w)
    | _ => if publishes c w then (log_count (g_perf_context w) + 1)%N
           else log_count (g_perf_context w)
    end.
Proof.
  intros Hok Hrun. pose proof (perf_call_effect c w w' Hok Hrun) as Heff.
  destruct c;
    try (destruct Heff as (_ & _ & _ & Hpub); destruct (publishes _ w);
         [by destruct Hpub as (l & e' & _ & _ & ? & _)|by destruct Hpub]).
  - rewrite Heff. unfold perf_reset. by destruct (truthy _).
  - rewrite Heff. unfold publishes, publish_attempt. by rewrite andb_false_r.
Qed.

Lemma run_context_ok (calls : list api_call) (w w' : perf_world) :
  context_ok (g_perf_context w) -> perf_run calls w = Ok w' ->
  context_ok (g_perf_context w')
  /\ log_capacity (g_perf_context w') = log_capacity (g_perf_context w).
Proof.
  revert w. induction calls as [|c calls IH]; intros w Hok Hrun.
  - by injection Hrun as <-.
  - simpl in Hrun. destruct (perf_call c w) as [w1|] eqn:Hc; [|done].
    destruct (perf_call_context_ok c w w1 Hok Hc) as [Hok1 Hcap1].
    destruct (IH w1 Hok1 Hrun) as [Hok' Hcap']. split; [done|congruence].
Qed.

(** The record count of a run is the number of its publish attempts,
    capped by the capacity. *)
Lemma run_count (calls : list api_call) (w w' : perf_world) (n : N) :
  context_ok (g_perf_context w) ->
  log_count (g_perf_context w) = N.min n (log_capacity (g_perf_context w)) ->
  perf_run calls w = Ok w' ->
  log_count (g_perf_context w')
  = N.min (publish_attempts calls w n) (log_capacity (g_perf_context w)).
Proof.
  revert w n. induction calls as [|c calls IH]; intros w n Hok Hn Hrun.
  - by injection Hrun as <-.
  - simpl in Hrun. cbn [publish_attempts].
    destruct (perf_call c w) as [w1|] eqn:Hc; [|done].
    destruct (perf_call_context_ok c w w1 Hok Hc) as [Hok1 Hcap1].
    pose proof (perf_call_count c w w1 Hok Hc) as Hcount.
    pose proof (ok_count _ Hok) as Hle.
    rewrite <- Hcap1. apply IH; [done| |done]. rewrite Hcap1, Hcount.
    assert (Hstep : (if publishes c w then (log_count (g_perf_context w) + 1)%N
                     else log_count (g_perf_context w))
                    = N.min (if publish_attempt c w then (n + 1)%N else n)
                        (log_capacity (g_perf_context w))).
    { unfold publishes. destruct (publish_attempt c w); cbn [andb]; [|done].
      destruct (N.ltb_spec (log_count (g_perf_context w))
                  (log_capacity (g_perf_context w))); lia. }
    destruct c; try exact Hstep.
    destruct (truthy _); [lia|done].
Qed.

Lemma run_defined (calls : list api_call) (w : perf_world) :
  context_ok (g_perf_context w) ->
  (forall t now, CallRegisterThread t now ∉ calls) ->
  exists w', perf_run calls w = Ok w'.
Proof.
  revert w. induction calls as [|c calls IH]; intros w Hok Hno; [by exists w|].
  destruct (perf_call_defined c w Hok) as [w1 Hc].
  { intros t now ->. apply (Hno t now). by left. }
  simpl. rewrite Hc. cbn [mbind result_bind].
  apply IH; [by apply (perf_call_context_ok c w w1)|].
  intros t now Hin. apply (Hno t now). by right.
Qed.

Lemma run_fault (calls : list api_call) (w : perf_world) (why : fault) :
  context_ok (g_perf_context w) ->
  perf_run calls w = Fault why ->
  exists t now, CallRegisterThread t now ∈ calls.
Proof.
  revert w. induction calls as [|c calls IH]; intros w Hok Hrun; [done|].
  simpl in Hrun. destruct (perf_call c w) as [w1|] eqn:Hc.
  - destruct (IH w1) as (t & now & Hin); [by apply (perf_call_context_ok c w w1)|done|].
    exists t, now. by right.
  - destruct c as [| | | | | | | | | |t now| | |];
      try (match type of Hc with
           | perf_call ?c0 w = _ =>
               destruct (perf_call_defined c0 w Hok) as [w1 Hw1];
               [intros ? ?; discriminate|congruence]
           end).
    exists t, now. by left.
Qed.

(** A publish attempt on a full buffer stores nothing. *)
Lemma full_buffer_drops (c : api_call) (w w' : perf_world) :
  context_ok (g_perf_context w) ->
  log_count (g_perf_context w) = log_capacity (g_perf_context w) ->
  publish_attempt c w = true ->
  perf_call c w = Ok w' ->
  log_count (g_perf_context w') = log_count (g_perf_context w)
  /\ log_entries (g_perf_context w') = log_entries (g_perf_context w)
  /\ config (g_perf_context w') = config (g_perf_context w).
Proof.
  intros Hok Hfull Hatt Hrun.
  pose proof (perf_call_effect c w w' Hok Hrun) as Heff.
  assert (Hpub : publishes c w = false).
  { unfold publishes. rewrite Hatt, Hfull. cbn [andb]. apply N.ltb_irrefl. }
  destruct c; try (unfold publish_attempt in Hatt; by rewrite andb_false_r in Hatt);
    rewrite Hpub in Heff; by destruct Heff as (_ & _ & ? & ? & ?).
Qed.

(** Calls that execute one after the other.  In every such run from a
    successful initialization the buffer holds at most
    [PERF_MAX_LOG_ENTRIES] records: the record count is the number of
    publish attempts made since the buffer was last emptied, capped by the
    capacity, and a publish attempt on a full buffer leaves the count and
    the stored records as they are.  (A run ends early only at a
    [perf_register_thread] that goes past the thread table.)  Calls that
    overlap are another matter: see the section on producers that
    overlap. *)
Theorem buffer_bounded_by_capacity (cfg : perf_config_t) (now : timespec)
    (block : nat -> perf_metrics_t) (calls : list api_call) :
  let w0 := snd (perf_init_with_config (Some (caller_config cfg)) now (Some block) initial_world) in
  match perf_run calls w0 with
  | Ok w =>
      let s := g_perf_context w in
      log_capacity s = PERF_MAX_LOG_ENTRIES
      /\ (log_count s <= PERF_MAX_LOG_ENTRIES)%N
      /\ length (records s) = N.to_nat (log_count s)
      /\ log_count s = N.min (publish_attempts calls w0 0) PERF_MAX_LOG_ENTRIES
      /\ (forall c w',
             log_count s = log_capacity s ->
             publish_attempt c w = true ->
             perf_call c w = Ok w' ->
             log_count (g_perf_context w') = log_count s
             /\ log_entries (g_perf_context w') = log_entries s
             /\ config (g_perf_context w') = config s)
  | Fault _ => exists t now', CallRegisterThread t now' ∈ calls
  end.
Proof.
  intros w0.
  assert (Hok0 : context_ok (g_perf_context w0)) by apply init_context_ok.
  destruct (init_context cfg now block initial_world) as (_ & Hc0 & Hcap0 & _).
  fold w0 in Hc0, Hcap0.
  destruct (perf_run calls w0) as [w|why] eqn:Hrun.
  - destruct (run_context_ok calls w0 w Hok0 Hrun) as [Hok Hcap].
    pose proof (run_count calls w0 w 0 Hok0 ltac:(rewrite Hc0; lia) Hrun) as Hcount.
    rewrite Hcap0 in Hcap, Hcount.
    split; [done|]. split; [rewrite <- Hcap; apply (ok_count _ Hok)|].
    split; [by apply records_length|]. split; [done|].
    intros c w' Hfull Hatt Hcall. by apply (full_buffer_drops c w w').
  - by apply (run_fault calls w0 why).
Qed.

Lemma iterations_attempts (n : nat) (w : perf_world) (k : N) :
  context_ok (g_perf_context w) ->
  truthy (enabled (config (g_perf_context w))) = true ->
  publish_attempts (iterations n) w k = (k + N.of_nat n)%N.
Proof.
  revert w k. induction n as [|n IH]; intros w k Hok He.
  - simpl. lia.
  - unfold iterations. rewrite replicate_S. fold (iterations n).
    cbn [publish_attempts].
    replace (publish_attempt _ w) with true
      by (unfold publish_attempt; by rewrite He).
    destruct (perf_call_defined (CallLogIteration 1 0.5%float (mk_timespec 101 0)) w Hok)
      as [w1 Hc]; [done|].
    rewrite Hc.
    pose proof (perf_call_effect _ w w1 Hok Hc) as (Hok1 & _ & Hcfg & _).
    rewrite IH; [lia|done|by rewrite Hcfg].
Qed.

Lemma iteration_full (i : Z) (metric : double) (now : timespec) (w : perf_world) :
  (log_capacity (g_perf_context w) <= log_count (g_perf_context w))%N ->
  perf_call (CallLogIteration i metric now) w = Ok w.
Proof.
  intros Hfull. cbn [perf_call]. apply on_context_r_same.
  unfold perf_log_iteration. destruct (negb _); [done|].
  by destruct (N.ltb_spec (log_count (g_perf_context w))
                 (log_capacity (g_perf_context w))); [lia|].
Qed.

(** [n] iterations on an empty buffer, and one more when [n] fills it. *)
Lemma iterations_run (n : nat) (w0 : perf_world) :
  context_ok (g_perf_context w0) ->
  truthy (enabled (config (g_perf_context w0))) = true ->
  log_count (g_perf_context w0) = 0%N ->
  exists w,
    perf_run (iterations n) w0 = Ok w
    /\ log_count (g_perf_context w)
       = N.min (N.of_nat n) (log_capacity (g_perf_context w0))
    /\ publish_attempts (iterations n) w0 0 = N.of_nat n
    /\ publish_attempts (iterations (S n)) w0 0 = N.of_nat (S n)
    /\ ((log_capacity (g_perf_context w0) <= N.of_nat n)%N ->
        perf_run (iterations (S n)) w0 = Ok w).
Proof.
  intros Hok He Hzero.
  destruct (run_defined (iterations n) w0 Hok) as [w Hrun].
  { intros t now Hin. unfold iterations in Hin.
    by apply elem_of_replicate in Hin as [? _]. }
  exists w. split; [done|].
  assert (Hcount : log_count (g_perf_context w)
                   = N.min (N.of_nat n) (log_capacity (g_perf_context w0))).
  { rewrite (run_count (iterations n) w0 w 0 Hok ltac:(rewrite Hzero; lia) Hrun).
    by rewrite iterations_attempts. }
  split; [done|].
  split; [by rewrite iterations_attempts|].
  split; [by rewrite iterations_attempts|].
  intros Hfull.
  destruct (run_context_ok (iterations n) w0 w Hok Hrun) as [Hokw Hcap].
  assert (Hsplit : iterations (S n)
                   = iterations n ++ [CallLogIteration 1 0.5%float (mk_timespec 101 0)])
    by apply replicate_S_end.
  rewrite Hsplit, perf_run_app, Hrun. cbn [mbind result_bind perf_run].
  rewrite iteration_full; [done|]. rewrite Hcap, Hcount. lia.
Qed.

(** The code keeps no dropped-records counter.  The publish attempt
    after [PERF_MAX_LOG_ENTRIES] successful ones leaves the whole state of
    the process as it was, so nothing in the state can tell how many
    attempts were dropped. *)
Lemma no_dropped_records_counter :
  perf_run (iterations (S (N.to_nat PERF_MAX_LOG_ENTRIES))) fresh_world
  = perf_run (iterations (N.to_nat PERF_MAX_LOG_ENTRIES)) fresh_world
  /\ publish_attempts (iterations (S (N.to_nat PERF_MAX_LOG_ENTRIES))) fresh_world 0
     = (PERF_MAX_LOG_ENTRIES + 1)%N
  /\ (exists w, perf_run (iterations (N.to_nat PERF_MAX_LOG_ENTRIES)) fresh_world = Ok w
                /\ log_count (g_perf_context w) = PERF_MAX_LOG_ENTRIES)
  /\ ~ (exists drop_count : perf_world -> N,
           forall calls w,
             perf_run calls fresh_world = Ok w ->
             Z.of_N (drop_count w)
             = Z.of_N (publish_attempts calls fresh_world 0)
               - Z.of_N (N.min (log_count (g_perf_context w)) PERF_MAX_LOG_ENTRIES)).
Proof.
  assert (He : truthy (enabled (config (g_perf_context fresh_world))) = true)
    by reflexivity.
  assert (Hzero : log_count (g_perf_context fresh_world) = 0%N) by reflexivity.
  destruct (iterations_run (N.to_nat PERF_MAX_LOG_ENTRIES) fresh_world
              fresh_world_ok He Hzero)
    as (w & Hrun & Hcount & Hatt & Hatt' & Hover).
  rewrite N2Nat.id in Hcount, Hatt, Hover.
  assert (Hcap : log_capacity (g_perf_context fresh_world) = PERF_MAX_LOG_ENTRIES)
    by reflexivity.
  rewrite Hcap in Hcount, Hover. rewrite N.min_id in Hcount.
  specialize (Hover (N.le_refl _)).
  assert (Hnum : N.of_nat (S (N.to_nat PERF_MAX_LOG_ENTRIES)) = (PERF_MAX_LOG_ENTRIES + 1)%N).
  { rewrite Nat2N.inj_succ, N2Nat.id. apply eq_sym, N.add_1_r. }
  rewrite Hnum in Hatt'.
  split; [exact (eq_trans Hover (eq_sym Hrun))|].
  split; [exact Hatt'|].
  split; [exists w; split; [exact Hrun|exact Hcount]|].
  intros [drop_count Hdrop].
  pose proof (Hdrop (iterations (N.to_nat PERF_MAX_LOG_ENTRIES)) w Hrun) as H1.
  pose proof (Hdrop (iterations (S (N.to_nat PERF_MAX_LOG_ENTRIES))) w Hover) as H2.
  rewrite Hatt in H1. rewrite Hatt' in H2. rewrite H1 in H2.
  apply (f_equal (fun z => z + Z.of_N (N.min (log_count (g_perf_context w))
                                         PERF_MAX_LOG_ENTRIES))) in H2.
  rewrite !Z.sub_add in H2. apply N2Z.inj in H2.
  revert H2. clear. vm_compute. discriminate.
Qed.

Lemma two_events_world_ok :
  context_ok (g_perf_context two_events_world)
  /\ truthy (enabled (config (g_perf_context two_events_world))) = true
  /\ log_count (g_perf_context two_events_world) = 2%N
  /\ forallb (fun e => negb (has_newline (label e)) && negb (has_newline (context e)))
       (records (g_perf_context two_events_world)) = true
  /\ String.append csv_header
       (str_concat (csv_row <$> records (g_perf_context two_events_world)))
     = two_events_csv.
Proof.
  split.
  - destruct (run_defined two_events fresh_world fresh_world_ok) as [w Hrun].
    { intros t now Hin. repeat (apply elem_of_cons in Hin as [Hin|Hin]; [done|]).
      by apply elem_of_nil in Hin. }
    unfold two_events_world. rewrite Hrun.
    apply (run_context_ok two_events fresh_world w fresh_world_ok Hrun).
  - vm_compute. repeat split.
Qed.

Lemma export_csv_rows_witness :
  context_ok (g_perf_context two_events_world)
  /\ truthy (enabled (config (g_perf_context two_events_world))) = true
  /\ (exists w',
         perf_export_csv (Some "out.csv"%string) (Some 3%N) two_events_world = Ok w'
         /\ g_perf_context w' = g_perf_context two_events_world
         /\ stream_text 3%N (streams w') = two_events_csv
         /\ count_lines (stream_text 3%N (streams w')) = 3%nat)
  /\ perf_export_csv (Some "out.csv"%string) None two_events_world = Ok two_events_world.
Proof.
  destruct two_events_world_ok as (Hok & He & Hcount & Hlines & Htext).
  destruct (export_csv_rows two_events_world "out.csv" 3%N Hok He)
    as [(w' & Hrun & Hctx & Hfile & _ & Hn) Hfail].
  split; [exact Hok|]. split; [exact He|]. split; [|exact Hfail].
  exists w'. split; [exact Hrun|]. split; [exact Hctx|].
  split; [exact (eq_trans Hfile Htext)|].
  rewrite Hn, Hcount; [reflexivity|].
  apply Forall_forall. intros e Hin.
  rewrite forallb_forall in Hlines. apply list_elem_of_In in Hin.
  specialize (Hlines e Hin). apply andb_prop in Hlines as [Hl Hc].
  split; by apply negb_true_iff.
Defined.

(* ====================================================================== *)
(** ** Subtraction of doubles *)

Section Binary64.
Let prec : Z := 53.
Let emax : Z := 1024.

Lemma digits2_pos_bounds (m : positive) :
  2 ^ (Zpos (digits2_pos m) - 1) <= Zpos m < 2 ^ Zpos (digits2_pos m).
Proof.
  induction m as [m IH|m IH|]; simpl digits2_pos.
  - rewrite Pos2Z.inj_succ.
    replace (Z.succ (Zpos (digits2_pos m)) - 1) with (Z.succ (Zpos (digits2_pos m) - 1)) by lia.
    rewrite !Z.pow_succ_r by lia. lia.
  - rewrite Pos2Z.inj_succ.
    replace (Z.succ (Zpos (digits2_pos m)) - 1) with (Z.succ (Zpos (digits2_pos m) - 1)) by lia.
    rewrite !Z.pow_succ_r by lia. lia.
  - simpl. lia.
Qed.

Lemma iter_xO_value (m d : positive) :
  Zpos (Pos.iter xO m d) = Zpos m * 2 ^ Zpos d.
Proof.
  induction d as [|d IH] using Pos.peano_ind.
  - simpl. lia.
  - rewrite Pos.iter_succ, Pos2Z.inj_succ, Z.pow_succ_r by lia.
    rewrite Pos2Z.inj_xO, IH. lia.
Qed.

Lemma shl_align_value (m : positive) (e ez : Z) :
  ez <= e -> Zpos (fst (shl_align m e ez)) = Zpos m * 2 ^ (e - ez).
Proof.
  intros Hle. unfold shl_align.
  destruct (ez - e) as [|d|d] eqn:Hd; simpl fst.
  - replace (e - ez) with 0 by lia. simpl. lia.
  - lia.
  - rewrite iter_xO_value. f_equal. f_equal. lia.
Qed.

(** Rounding never changes the sign. *)
Lemma shr_1_nonneg (mrs : shr_record) : 0 <= shr_m mrs -> 0 <= shr_m (shr_1 mrs).
Proof.
  destruct mrs as [m r s]. simpl. intros Hm.
  destruct m as [|[p|p|]|[p|p|]]; simpl; lia.
Qed.

Lemma iter_shr_1_nonneg (p : positive) (mrs : shr_record) :
  0 <= shr_m mrs -> 0 <= shr_m (SpecFloat.iter_pos shr_1 p mrs).
Proof.
  revert mrs. induction p as [p IH|p IH|]; intros mrs Hm; simpl.
  - apply IH, IH. by apply shr_1_nonneg.
  - by apply IH, IH.
  - by apply shr_1_nonneg.
Qed.

Lemma shr_fexp_nonneg (m e : Z) (l : location) :
  0 <= m -> 0 <= shr_m (fst (shr_fexp prec emax m e l)).
Proof.
  intros Hm. unfold shr_fexp, shr.
  assert (Hrec : 0 <= shr_m (shr_record_of_loc m l)).
  { destruct l as [|[]]; simpl; lia. }
  destruct (_ - e); simpl fst; [done| |done].
  by apply iter_shr_1_nonneg.
Qed.

Lemma round_nearest_even_nonneg (m : Z) (l : location) :
  0 <= m -> 0 <= round_nearest_even m l.
Proof.
  intros Hm. unfold round_nearest_even.
  destruct l as [|[]]; try lia. destruct (Z.even m); lia.
Qed.

Lemma binary_round_aux_nonneg (m e : Z) (l : location) :
  0 <= m -> SFnonneg (binary_round_aux prec emax false m e l).
Proof.
  intros Hm. unfold binary_round_aux.
  pose proof (shr_fexp_nonneg m e l Hm) as H1.
  destruct (shr_fexp prec emax m e l) as [mrs' e']. simpl fst in H1.
  pose proof (shr_fexp_nonneg _ e' loc_Exact
                (round_nearest_even_nonneg _ (loc_of_shr_record mrs') H1)) as H2.
  destruct (shr_fexp prec emax _ e' loc_Exact) as [mrs'' e'']. simpl fst in H2.
  destruct (shr_m mrs'') as [|p|p]; [done| |lia].
  by destruct (e'' <=? _).
Qed.

Lemma binary_normalize_nonneg (m e : Z) :
  0 <= m -> SFnonneg (binary_normalize prec emax m e false).
Proof.
  intros Hm. destruct m as [|p|p]; [done| |lia].
  unfold binary_normalize, binary_round.
  destruct (shl_align _ _ _) as [mz ez]. by apply binary_round_aux_nonneg.
Qed.

Lemma bounded_shape (m : positive) (e : Z) :
  bounded prec emax m e = true ->
  Zpos (digits2_pos m) <= prec
  /\ 3 - emax - prec <= e
  /\ (3 - emax - prec < e -> Zpos (digits2_pos m) = prec).
Proof.
  unfold bounded, canonical_mantissa, fexp, emin. intros Hb.
  apply andb_prop in Hb as [Hc _]. apply Z.eqb_eq in Hc. lia.
Qed.

(** The larger exponent wins the comparison of two canonical
    magnitudes. *)
Lemma magnitude_lt (m1 m2 : positive) (e1 e2 : Z) :
  bounded prec emax m1 e1 = true -> bounded prec emax m2 e2 = true ->
  e1 < e2 -> Zpos m1 < Zpos m2 * 2 ^ (e2 - e1).
Proof.
  intros Hb1 Hb2 Hlt.
  destruct (bounded_shape m1 e1 Hb1) as (Hd1 & He1 & _).
  destruct (bounded_shape m2 e2 Hb2) as (_ & _ & Hd2).
  specialize (Hd2 ltac:(lia)).
  pose proof (digits2_pos_bounds m1) as [_ Hm1].
  pose proof (digits2_pos_bounds m2) as [Hm2 _].
  rewrite Hd2 in Hm2.
  assert (H1 : 2 ^ Zpos (digits2_pos m1) <= 2 ^ prec)
    by (apply Z.pow_le_mono_r; lia).
  assert (H2 : 2 ^ 1 <= 2 ^ (e2 - e1)) by (apply Z.pow_le_mono_r; lia).
  assert (H3 : 2 ^ prec = 2 ^ (prec - 1) * 2 ^ 1)
    by (rewrite <- Z.pow_add_r by (unfold prec; lia); f_equal; lia).
  assert (H4 : 0 < 2 ^ (prec - 1)) by (apply Z.pow_pos_nonneg; unfold prec; lia).
  nia.
Qed.

Lemma finite_le_difference (sx sy : bool) (mx my : positive) (ex ey : Z) :
  bounded prec emax mx ex = true -> bounded prec emax my ey = true ->
  SFleb (S754_finite sx mx ex) (S754_finite sy my ey) = true ->
  0 <= cond_Zopp sy (Zpos (fst (shl_align my ey (Z.min ey ex))))
       - cond_Zopp sx (Zpos (fst (shl_align mx ex (Z.min ey ex)))).
Proof.
  intros Hbx Hby Hle.
  rewrite !shl_align_value by lia.
  assert (Hpx : 0 < 2 ^ (ex - Z.min ey ex)) by (apply Z.pow_pos_nonneg; lia).
  assert (Hpy : 0 < 2 ^ (ey - Z.min ey ex)) by (apply Z.pow_pos_nonneg; lia).
  unfold SFleb, SFcompare in Hle.
  destruct sx, sy; simpl cond_Zopp; try discriminate; [| nia |].
  - destruct (Z.compare_spec ex ey) as [Heq|Hlt|Hgt]; try discriminate.
    + subst ey. rewrite Z.min_id, Z.sub_diag in *. simpl.
      destruct (Pos.compare_cont Eq mx my) eqn:Hc; try discriminate.
      * apply Pos.compare_eq in Hc. subst. lia.
      * apply Pos.compare_gt_iff in Hc. lia.
    + pose proof (magnitude_lt my mx ey ex Hby Hbx Hgt) as Hm.
      replace (Z.min ey ex) with ey in * by lia.
      rewrite Z.sub_diag in *. simpl in *. lia.
  - destruct (Z.compare_spec ex ey) as [Heq|Hlt|Hgt]; try discriminate.
    + subst ey. rewrite Z.min_id, Z.sub_diag in *. simpl.
      destruct (Pos.compare_cont Eq mx my) eqn:Hc; try discriminate.
      * apply Pos.compare_eq in Hc. subst. lia.
      * assert (Hlt : (mx < my)%positive) by exact Hc. lia.
    + pose proof (magnitude_lt mx my ex ey Hbx Hby Hlt) as Hm.
      replace (Z.min ey ex) with ex in * by lia.
      rewrite Z.sub_diag in *. simpl in *. lia.
Qed.

(** [x <= y] and [y] not infinite give [0 <= y - x]. *)
Lemma SFsub_nonneg (x y : spec_float) :
  valid_binary x = true -> valid_binary y = true ->
  SFleb x y = true ->
  (forall s, y <> S754_infinity s) ->
  SFnonneg (SFsub prec emax y x).
Proof.
  intros Hvx Hvy Hle Hfin. unfold SFnonneg.
  destruct y as [sy|sy| |sy my ey]; try (by destruct (Hfin sy)).
  - destruct x as [sx|sx| |sx mx ex]; try discriminate.
    + by destruct sy, sx.
    + by destruct sx.
    + by destruct sx.
  - by destruct x.
  - destruct x as [sx|sx| |sx mx ex]; try discriminate.
    + by destruct sy.
    + by destruct sx.
    + simpl in Hvx, Hvy. cbn [SFsub].
      apply binary_normalize_nonneg. by apply finite_le_difference.
Qed.

Lemma float_sub_nonneg (x y : float) :
  (x <=? y)%float = true -> is_infinity y = false ->
  (0 <=? y - x)%float = true.
Proof.
  intros Hle Hfin. rewrite leb_spec in *. rewrite sub_spec.
  change (Prim2SF 0) with (S754_zero false).
  apply SFsub_nonneg; try apply Prim2SF_valid; [done|].
  intros s Hy. unfold is_infinity in Hfin.
  rewrite FloatAxioms.eqb_spec, abs_spec, Hy in Hfin. by destruct s.
Qed.
End Binary64.

(* ====================================================================== *)
(** ** Durations of the stored records *)

Lemma records_effect (s s' : perf_context_t) (pub : option double) :
  context_ok s -> log_effect s s' pub ->
  match pub with
  | Some d => exists e', records s' = records s ++ [e'] /\ duration_ms e' = d
  | None => records s' = records s
  end.
Proof.
  intros Hok (Hok' & Hcap & _ & Hpub). destruct pub as [d|].
  - destruct Hpub as (l & e' & Hl & Hl' & Hc & Hd).
    exists e'. split; [|done]. unfold records. rewrite Hl, Hl', Hc.
    replace (N.to_nat (log_count s + 1)) with (S (N.to_nat (log_count s))) by lia.
    destruct Hok' as [(l' & Hl'' & Hlen) Hcount _ _ _].
    rewrite Hl' in Hl''. injection Hl'' as <-. rewrite length_insert in Hlen.
    rewrite (take_S_r _ _ e').
    + by rewrite take_insert_ge.
    + apply list_lookup_insert_eq. lia.
  - destruct Hpub as [Hl Hc]. unfold records. by rewrite Hl, Hc.
Qed.

Lemma timestamp_diff_nonneg (start now : timespec) (cycles : N) :
  clock_ordered start now = true ->
  (0 <=? perf_timestamp_diff_ms (Some (mk_timestamp start cycles))
           (Some (perf_get_timestamp now)))%float = true.
Proof.
  intros Hclock. apply andb_prop in Hclock as [Hle Hfin].
  apply negb_true_iff in Hfin. simpl. by apply float_sub_nonneg.
Qed.

(** A call that respects [call_nonneg] publishes a duration that is not
    negative. *)
Lemma published_duration_nonneg (c : api_call) (w : perf_world) :
  call_nonneg c w = true -> publishes c w = true ->
  (0 <=? published_duration c w)%float = true.
Proof.
  intros Hcall Hpub. unfold publishes in Hpub. apply andb_prop in Hpub as [Hatt _].
  assert (Hend : forall m os,
             negb true
             || match milestone_starts (g_perf_context w) !! N.to_nat m with
                | Some start => clock_ordered (ts start) (clock_now os)
                | None => false
                end = true ->
             (0 <=? perf_timestamp_diff_ms
                      (milestone_starts (g_perf_context w) !! N.to_nat m)
                      (Some (perf_get_timestamp (clock_now os))))%float = true).
  { intros m os H. cbn [negb orb] in H.
    destruct (milestone_starts (g_perf_context w) !! N.to_nat m) as [[start cyc]|];
      [|done].
    by apply timestamp_diff_nonneg. }
  destruct c; try done; cbn [call_nonneg published_duration] in *;
    rewrite Hatt in Hcall; by apply Hend.
Qed.

Lemma perf_call_durations (c : api_call) (w w' : perf_world) :
  context_ok (g_perf_context w) ->
  call_nonneg c w = true ->
  perf_call c w = Ok w' ->
  Forall (fun e => duration_nonneg e = true) (records (g_perf_context w)) ->
  Forall (fun e => duration_nonneg e = true) (records (g_perf_context w')).
Proof.
  intros Hok Hcall Hrun Hall.
  pose proof (perf_call_effect c w w' Hok Hrun) as Heff.
  assert (Hstep : log_effect (g_perf_context w) (g_perf_context w')
                    (if publishes c w then Some (published_duration c w) else None) ->
                  Forall (fun e => duration_nonneg e = true)
                         (records (g_perf_context w'))).
  { intros Hlog. apply (records_effect _ _ _ Hok) in Hlog.
    destruct (publishes c w) eqn:Hpub.
    - destruct Hlog as (e' & -> & Hd). apply Forall_app. split; [done|].
      apply Forall_singleton. unfold duration_nonneg. rewrite Hd.
      by apply published_duration_nonneg.
    - by rewrite Hlog. }
  destruct c; try (by apply Hstep).
  - rewrite Heff. unfold perf_reset. destruct (negb _); [done|].
    unfold records. simpl. destruct (log_entries _); by rewrite ?take_0.
  - by rewrite Heff.
Qed.

(** C5, as stated, fails: [perf_log_event("d", -1.0)] stores a record
    whose [duration_ms] is -1. *)
Lemma negative_event_value_stored :
  match perf_run negative_event fresh_world with
  | Ok w =>
      exists e,
        records (g_perf_context w) = [e]
        /\ duration_ms e = (-1)%float
        /\ duration_nonneg e = false
  | Fault _ => False
  end.
Proof. vm_compute. eexists. repeat split. Qed.

(** C5, amended.  An event stores the value it is given as the
    [duration_ms] of its record, whatever it is: the record has
    [duration_ms >= 0] exactly when the value passed is [>= 0], which a
    negative value and a NaN are not.  In every run from a successful
    initialization in which every value passed to an event or an
    algorithm step is [>= 0], and in which every end of an active
    milestone reads a clock (in ms, finite) that is not before the
    stored start, every record of the buffer has [duration_ms >= 0]. *)
Theorem durations_not_negative (cfg : perf_config_t) (now : timespec)
    (block : nat -> perf_metrics_t) (calls : list api_call) (w : perf_world) :
  let w0 := snd (perf_init_with_config (Some (caller_config cfg)) now (Some block) initial_world) in
  run_nonneg calls w0 = true ->
  perf_run calls w0 = Ok w ->
  Forall (fun e => duration_nonneg e = true) (records (g_perf_context w))
  /\ (forall lbl value ctx now' w',
         publishes (CallLogEventWithContext lbl value ctx now') w = true ->
         perf_call (CallLogEventWithContext lbl value ctx now') w = Ok w' ->
         exists e', records (g_perf_context w') = records (g_perf_context w) ++ [e']
                    /\ duration_ms e' = value
                    /\ duration_nonneg e' = (0 <=? value)%float).
Proof.
  intros w0 Hnonneg Hrun.
  assert (Hok0 : context_ok (g_perf_context w0)) by apply init_context_ok.
  assert (Hall0 : Forall (fun e => duration_nonneg e = true) (records (g_perf_context w0))).
  { unfold records.
    destruct (init_context cfg now block initial_world) as (_ & Hc0 & _ & Hl0 & _).
    fold w0 in Hc0, Hl0. rewrite Hl0, Hc0. by rewrite take_0. }
  split.
  - clearbody w0. revert w0 Hok0 Hall0 Hnonneg Hrun.
    induction calls as [|c calls IH]; intros w0 Hok0 Hall0 Hnonneg Hrun.
    + by injection Hrun as <-.
    + cbn [run_nonneg perf_run] in *. apply andb_prop in Hnonneg as [Hc Hrest].
      destruct (perf_call c w0) as [w1|] eqn:Hcall; [|done].
      apply (IH w1); try done.
      * by apply (perf_call_context_ok c w0 w1).
      * by apply (perf_call_durations c w0 w1).
  - intros lbl value ctx now' w' Hpub Hcall.
    destruct (run_context_ok calls w0 w Hok0 Hrun) as [Hok _].
    pose proof (perf_call_effect _ w w' Hok Hcall) as Heff. cbn beta iota in Heff.
    rewrite Hpub in Heff. apply (records_effect _ _ _ Hok) in Heff.
    destruct Heff as (e' & Hrec & Hd). exists e'.
    split; [exact Hrec|]. split; [exact Hd|].
    unfold duration_nonneg. by rewrite Hd.
Qed.

Lemma mixed_run_facts :
  run_nonneg mixed_run fresh_world = true
  /\ perf_run mixed_run fresh_world = Ok mixed_world
  /\ duration_ms <$> records (g_perf_context mixed_world) = [0; 1.25; 3]%float.
Proof. split; [|split]; vm_compute; reflexivity. Qed.

Lemma durations_not_negative_witness :
  run_nonneg mixed_run fresh_world = true
  /\ perf_run mixed_run fresh_world = Ok mixed_world
  /\ Forall (fun e => duration_nonneg e = true) (records (g_perf_context mixed_world))
  /\ duration_ms <$> records (g_perf_context mixed_world) = [0; 1.25; 3]%float.
Proof.
  destruct mixed_run_facts as (Hnonneg & Hrun & Hdurations).
  split; [exact Hnonneg|]. split; [exact Hrun|]. split; [|exact Hdurations].
  exact (proj1 (durations_not_negative default_config (mk_timespec 100 0) zero_block
                  mixed_run mixed_world Hnonneg Hrun)).
Defined.

(* ====================================================================== *)
(** ** The decimal conversion prints the number *)

Lemma digit_char_value (d : N) : (d < 10)%N -> (N_of_ascii (digit_char d) - 48 = d)%N.
Proof.
  intros Hd. unfold digit_char. rewrite N_ascii_embedding; lia.
Qed.

Lemma fmt_digits_grows (fuel : nat) (n : N) (acc : string) :
  (String.length acc <= String.length (fmt_digits fuel n acc))%nat.
Proof.
  revert n acc. induction fuel as [|fuel IH]; intros n acc; simpl; [lia|].
  destruct (n / 10 =? 0)%N; simpl; [lia|].
  etrans; [|apply IH]. simpl. lia.
Qed.

Lemma fmt_digits_value (fuel : nat) (n : N) (acc : string) (a : N) :
  (n < 2 ^ N.of_nat fuel)%N -> (0 < fuel)%nat ->
  digits_value (fmt_digits fuel n acc) a
  = digits_value acc
      (a * 10 ^ N.of_nat (String.length (fmt_digits fuel n acc) - String.length acc) + n)%N.
Proof.
  revert n acc a. induction fuel as [|fuel IH]; intros n acc a Hn Hfuel; [lia|].
  cbn [fmt_digits].
  assert (Hd : (n mod 10 < 10)%N) by (apply N.mod_lt; lia).
  pose proof (N.div_mod n 10 ltac:(lia)) as Hdm.
  destruct (N.eqb_spec (n / 10) 0) as [Hq|Hq].
  - cbn [String.length digits_value]. rewrite digit_char_value by done.
    replace (S (String.length acc) - String.length acc)%nat with 1%nat by lia.
    f_equal. change (10 ^ N.of_nat 1)%N with 10%N. lia.
  - assert (Hhalf : (n / 10 < 2 ^ N.of_nat fuel)%N).
    { apply N.Div0.div_lt_upper_bound.
      replace (N.of_nat (S fuel)) with (N.succ (N.of_nat fuel)) in Hn by lia.
      rewrite N.pow_succ_r' in Hn. lia. }
    destruct fuel as [|fuel'].
    { exfalso. apply Hq. simpl in Hhalf. lia. }
    rewrite (IH (n / 10)%N _ a Hhalf ltac:(lia)).
    set (acc' := String (digit_char (n mod 10)) acc).
    pose proof (fmt_digits_grows (S fuel') (n / 10) acc') as Hgrow.
    set (len := String.length (fmt_digits (S fuel') (n / 10) acc')) in *.
    clearbody len. unfold acc' in *. cbn [digits_value String.length] in *.
    rewrite digit_char_value by done. f_equal.
    replace (len - String.length acc)%nat
      with (S (len - S (String.length acc))) by lia.
    rewrite Nat2N.inj_succ, N.pow_succ_r'. lia.
Qed.

(** Reading back the digits of [%zu] gives the number printed. *)
Lemma fmt_zu_value (n : N) : digits_value (fmt_zu n) 0 = n.
Proof.
  unfold fmt_zu. rewrite fmt_digits_value; [simpl; lia| |lia].
  destruct n as [|p]; [done|].
  replace (N.of_nat (S (N.to_nat (N.log2 (N.pos p))))) with (N.succ (N.log2 (N.pos p)))
    by lia.
  apply N.log2_spec. lia.
Qed.

(* ====================================================================== *)
(** * Initialization, cleanup and reset *)

(** *** A context with no milestone active *)

Lemma replicate_zero_inactive (m : perf_milestone_t) (a : Z) :
  replicate (N.to_nat PERF_MILESTONE_COUNT) 0 !! N.to_nat m = Some a -> truthy a = false.
Proof. intros [-> _]%lookup_replicate_1. reflexivity. Qed.

Lemma end_all_inactive (m : perf_milestone_t) (lbl : option string) (os : os_probe)
    (w : perf_world) :
  length (milestone_starts (g_perf_context w)) = N.to_nat PERF_MILESTONE_COUNT ->
  milestone_active (g_perf_context w) = replicate (N.to_nat PERF_MILESTONE_COUNT) 0 ->
  perf_end_milestone_labeled m lbl os w = Ok w.
Proof.
  intros Hst Hact. unfold perf_end_milestone_labeled.
  destruct (negb (truthy (enabled (config (g_perf_context w))))); [done|]. simpl.
  destruct (N.leb_spec PERF_MILESTONE_COUNT m) as [|Hm]; [done|].
  rewrite Hact.
  assert (Hlt : (N.to_nat m < N.to_nat PERF_MILESTONE_COUNT)%nat) by lia.
  rewrite (lookup_replicate_2 _ _ _ Hlt).
  destruct (lookup_lt_is_Some_2 (milestone_starts (g_perf_context w)) (N.to_nat m))
    as [start ->]; [lia|].
  reflexivity.
Qed.

(** X1.  [perf_init_with_config] returns 0 exactly when the configuration
    pointer is not null and the buffer is allocated, and -1 otherwise; with
    a null configuration nothing is touched.  On success the context is
    the one a first initialization gives, whatever it held before: the
    buffer is empty, no thread is counted and no milestone is pending, so
    that the end of any milestone does nothing.  The configuration
    installed is the one passed when the pointer is to an object of the
    caller.  When the pointer is the one [perf_get_config] returns, the
    configuration installed is the all-zero one, whatever the
    configuration was, and monitoring is left disabled: the context is
    zeroed before [*config] is read. *)
Theorem init_with_config_outcome (cfg : option config_pointer) (now : timespec)
    (malloc_result : option (nat -> perf_metrics_t)) (w : perf_world) :
  let r := perf_init_with_config cfg now malloc_result w in
  (fst r = 0 \/ fst r = -1)
  /\ (fst r = 0 <-> is_Some cfg /\ is_Some malloc_result)
  /\ (cfg = None -> snd r = w)
  /\ (fst r = 0 ->
      g_perf_context (snd r)
      = g_perf_context (snd (perf_init_with_config cfg now malloc_result initial_world))
      /\ context_ok (g_perf_context (snd r))
      /\ (forall c, cfg = Some (caller_config c) -> config (g_perf_context (snd r)) = c)
      /\ (cfg = Some perf_get_config ->
          config (g_perf_context (snd r)) = zero_config
          /\ truthy (enabled (config (g_perf_context (snd r)))) = false)
      /\ records (g_perf_context (snd r)) = []
      /\ log_capacity (g_perf_context (snd r)) = PERF_MAX_LOG_ENTRIES
      /\ perf_get_thread_count (g_perf_context (snd r)) = 0
      /\ tls_thread_key (snd r) = tls_thread_key w
      /\ streams (snd r) = streams w
      /\ forall m lbl os, perf_end_milestone_labeled m lbl os (snd r) = Ok (snd r)).
Proof.
  destruct cfg as [p|], malloc_result as [block|].
  - pose proof (init_context (read_config p zero_context) now block w) as Hw.
    pose proof (init_context_ok (read_config p zero_context) now block w) as Hok.
    change (perf_init_with_config (Some (caller_config (read_config p zero_context)))
              now (Some block) w)
      with (perf_init_with_config (Some p) now (Some block) w) in Hw, Hok.
    set (r := perf_init_with_config (Some p) now (Some block) w) in *.
    assert (Hr : fst r = 0) by reflexivity.
    assert (Htls : tls_thread_key (snd r) = tls_thread_key w) by reflexivity.
    assert (Hfs : streams (snd r) = streams w) by reflexivity.
    assert (Hctx : g_perf_context (snd r)
                   = g_perf_context
                       (snd (perf_init_with_config (Some p) now (Some block) initial_world)))
      by reflexivity.
    clearbody r. cbv zeta in Hw. cbv zeta.
    destruct Hw as (Hc & Hn & Hcap & Hl & Hat & _ & Hact & Hst & _).
    split; [by left|]. split; [by split; [eauto|]|]. split; [done|]. intros _.
    split; [exact Hctx|]. split; [exact Hok|].
    split; [intros c [= ->]; exact Hc|].
    split; [intros [= ->]; by rewrite Hc|].
    split; [unfold records; by rewrite Hl, Hn|].
    split; [exact Hcap|]. split; [exact Hat|]. split; [exact Htls|].
    split; [exact Hfs|].
    intros m lbl os. apply end_all_inactive; [|exact Hact].
    rewrite Hst. apply length_replicate.
  - cbv zeta. split; [by right|]. split; [|by split].
    split; [done|]. by intros [_ [? ?]].
  - cbv zeta. split; [by right|]. split; [|by split].
    split; [done|]. by intros [[? ?] _].
  - cbv zeta. split; [by right|]. split; [|by split].
    split; [done|]. by intros [[? ?] _].
Qed.

(** X2.  When the allocation of the buffer fails, [perf_init_with_config]
    returns -1 after it has installed the configuration and the capacity:
    the buffer pointer is null while the capacity is
    [PERF_MAX_LOG_ENTRIES].  With an enabled configuration the next call
    that records ([perf_log_iteration], [perf_log_event_with_context])
    then writes through the null pointer. *)
Theorem init_allocation_failure (c : perf_config_t) (now : timespec) (w : perf_world) :
  truthy (enabled c) = true ->
  let r := perf_init_with_config (Some (caller_config c)) now None w in
  fst r = -1
  /\ config (g_perf_context (snd r)) = c
  /\ log_entries (g_perf_context (snd r)) = None
  /\ log_count (g_perf_context (snd r)) = 0%N
  /\ log_capacity (g_perf_context (snd r)) = PERF_MAX_LOG_ENTRIES
  /\ (forall i metric now',
         perf_log_iteration i metric now' (g_perf_context (snd r)) = Fault NullDeref)
  /\ (forall lbl value ctx now',
         perf_log_event_with_context (Some lbl) value ctx now' (g_perf_context (snd r))
         = Fault NullDeref)
  /\ perf_flush_logs (snd r) = Ok (snd r).
Proof.
  intros He. simpl. do 5 (split; [done|]).
  split; [|split].
  - intros. unfold perf_log_iteration. simpl. by rewrite He.
  - intros. unfold perf_log_event_with_context. simpl. by rewrite He.
  - unfold perf_flush_logs. simpl. rewrite He. simpl.
    destruct (output_file c); [|done]. simpl. by destruct w.
Qed.

Lemma init_allocation_failure_witness :
  truthy (enabled default_config) = true
  /\ fst (perf_init (mk_timespec 100 0) None initial_world) = -1
  /\ perf_log_iteration 3 metric_042 (mk_timespec 101 0)
       (g_perf_context (snd (perf_init (mk_timespec 100 0) None initial_world)))
     = Fault NullDeref.
Proof.
  split; [reflexivity|].
  destruct (init_allocation_failure default_config (mk_timespec 100 0) initial_world
              eq_refl) as (H1 & _ & _ & _ & _ & H2 & _).
  split; [exact H1|apply H2].
Defined.

(** *** The context without a buffer *)

Lemma zero_context_closed : context_closed zero_context.
Proof. by constructor. Qed.

Lemma closed_config (c : perf_config_t) (s : perf_context_t) :
  truthy (track_threads c) = false ->
  context_closed s -> context_closed (set_config c s).
Proof. intros Hc [? ? ? ? ? ? ?]. by constructor. Qed.

Lemma closed_flush (w : perf_world) :
  context_closed (g_perf_context w) -> perf_flush_logs w = Ok w.
Proof.
  intros [Hl Hn _ _ _ _ _]. unfold perf_flush_logs.
  destruct (negb _); [done|]. destruct (output_file _); [|done].
  unfold published. rewrite Hl, Hn. simpl. by destruct w.
Qed.

Lemma closed_start (m : perf_milestone_t) (lbl : option string) (now : timespec)
    (s : perf_context_t) :
  context_closed s -> context_closed (perf_start_milestone_labeled m lbl now s).
Proof.
  intros [? ? ? ? ? ? ?]. unfold perf_start_milestone_labeled.
  destruct (_ || _); constructor; simpl; try done; by rewrite length_insert.
Qed.

Lemma closed_end (m : perf_milestone_t) (lbl : option string) (os : os_probe)
    (w : perf_world) :
  context_closed (g_perf_context w) ->
  exists w', perf_end_milestone_labeled m lbl os w = Ok w'
             /\ context_closed (g_perf_context w')
             /\ streams w' = streams w
             /\ tls_thread_key w' = tls_thread_key w.
Proof.
  intros Hc. pose proof Hc as [Hl Hn Hcap Ht Hs Ha Htt]. unfold perf_end_milestone_labeled.
  destruct (negb (truthy _)); simpl; [by exists w|].
  destruct (N.leb_spec PERF_MILESTONE_COUNT m) as [|Hm]; [by exists w|].
  destruct (lookup_lt_is_Some_2 (milestone_active (g_perf_context w)) (N.to_nat m))
    as [a ->]; [lia|].
  destruct (lookup_lt_is_Some_2 (milestone_starts (g_perf_context w)) (N.to_nat m))
    as [start ->]; [lia|].
  destruct (negb (truthy a)); [by exists w|].
  rewrite Hn, Hcap. simpl.
  eexists. split; [reflexivity|]. split; [|done].
  constructor; simpl; try done. by rewrite length_insert.
Qed.

Lemma closed_event (lbl : option string) (value : double) (ctx : option string)
    (now : timespec) (s : perf_context_t) :
  context_closed s -> perf_log_event_with_context lbl value ctx now s = Ok s.
Proof.
  intros [Hl Hn Hcap _ _ _ _]. unfold perf_log_event_with_context.
  destruct lbl; [|done]. destruct (negb _); [done|]. by rewrite Hn, Hcap.
Qed.

Lemma closed_iteration (i : Z) (metric : double) (now : timespec) (s : perf_context_t) :
  context_closed s -> perf_log_iteration i metric now s = Ok s.
Proof.
  intros [Hl Hn Hcap _ _ _ _]. unfold perf_log_iteration.
  destruct (negb _); [done|]. by rewrite Hn, Hcap.
Qed.

Lemma closed_algorithm_step (a st : option string) (metric : double) (now : timespec)
    (s : perf_context_t) :
  context_closed s -> perf_log_algorithm_step a st metric now s = Ok s.
Proof.
  intros Hc. unfold perf_log_algorithm_step.
  destruct a, st; try done. destruct (negb _); [done|]. by apply closed_event.
Qed.

Lemma closed_reset (now : timespec) (s : perf_context_t) :
  context_closed s -> context_closed (perf_reset now s).
Proof.
  intros [? ? ? ? ? ? ?]. unfold perf_reset.
  destruct (negb _); constructor; simpl; try done.
Qed.

(** Threads are not tracked: a registration returns -1 and an
    unregistration returns, both without a change. *)
Lemma closed_register (t : os_thread) (now : timespec) (w : perf_world) :
  context_closed (g_perf_context w) ->
  perf_register_thread t now w = Ok (-1, w).
Proof.
  intros [_ _ _ _ _ _ Htt]. unfold perf_register_thread. rewrite Htt.
  by rewrite orb_true_r.
Qed.

Lemma closed_unregister (t : os_thread) (now : timespec) (w : perf_world) :
  context_closed (g_perf_context w) ->
  perf_unregister_thread t now w = w.
Proof.
  intros [_ _ _ _ _ _ Htt]. unfold perf_unregister_thread. rewrite Htt.
  by rewrite orb_true_r.
Qed.

Lemma fprintf_new_file (f : FILE) (text : string) (fs : gmap FILE string) :
  fprintf f text (fopen_w f fs) = <[f := text]> fs.
Proof.
  unfold fprintf, fopen_w, stream_text. rewrite lookup_insert_eq. cbn [default].
  by rewrite insert_insert_eq.
Qed.

Lemma closed_export_csv (filename : option string) (fopen_result : option FILE)
    (w : perf_world) :
  context_closed (g_perf_context w) ->
  exists w', perf_export_csv filename fopen_result w = Ok w'
             /\ context_closed (g_perf_context w')
             /\ tls_thread_key w' = tls_thread_key w
             /\ (forall f, fopen_result = Some f -> is_Some filename ->
                           streams w' = <[f := csv_header]> (streams w))
             /\ (fopen_result = None \/ filename = None -> streams w' = streams w).
Proof.
  intros Hc. pose proof (closed_track_threads _ Hc) as Htt. unfold perf_export_csv.
  destruct filename as [name|].
  2:{ exists w. split; [done|]. split; [done|]. split; [done|].
      split; [by intros f _ [? ?]|done]. }
  destruct fopen_result as [f|].
  - set (w1 := mk_world _ _ _ _).
    assert (Hc1 : context_closed (g_perf_context w1)) by by apply closed_config.
    rewrite (closed_flush w1 Hc1). cbn [mbind result_bind].
    eexists. split; [reflexivity|]. split; [by apply closed_config|].
    split; [done|]. split; [|by intros [?|?]].
    intros f0 [= <-] _. cbn [set_context streams w1]. apply fprintf_new_file.
  - eexists. split; [reflexivity|]. split; [by apply closed_config|].
    split; [done|]. split; [by intros f|]. by intros _.
Qed.

Lemma closed_call (c : api_call) (w : perf_world) :
  context_closed (g_perf_context w) ->
  exists w',
    perf_call c w = Ok w'
    /\ context_closed (g_perf_context w')
    /\ tls_thread_key w' = tls_thread_key w
    /\ (export_call c = false -> streams w' = streams w).
Proof.
  intros Hc. pose proof (closed_track_threads _ Hc) as Htt. destruct c; simpl.
  - eexists. split; [reflexivity|]. split; [by apply closed_start|done].
  - eexists. split; [reflexivity|]. split; [by apply closed_start|done].
  - destruct (closed_end m (Some EmptyString) os w Hc) as (w' & Hr & ? & ? & ?).
    exists w'. unfold perf_end_milestone. by rewrite Hr.
  - destruct (closed_end m lbl os w Hc) as (w' & Hr & ? & ? & ?). exists w'.
    by rewrite Hr.
  - exists w. unfold on_context_r, perf_log_event. rewrite closed_event by done. simpl.
    by destruct w.
  - exists w. unfold on_context_r. rewrite closed_event by done. simpl. by destruct w.
  - exists w. unfold on_context_r. rewrite closed_iteration by done. simpl.
    by destruct w.
  - exists w. unfold on_context_r. rewrite closed_algorithm_step by done. simpl.
    by destruct w.
  - eexists. split; [reflexivity|]. split; [by apply closed_reset|done].
  - eexists. split; [reflexivity|]. split; [by apply closed_config|done].
  - exists w. by rewrite closed_register.
  - exists w. by rewrite closed_unregister.
  - exists w. by rewrite closed_flush.
  - destruct (closed_export_csv filename fopen_result w Hc) as (w' & Hr & ? & ? & _).
    exists w'. split; [exact Hr|]. split; [done|]. split; [done|]. done.
Qed.

(** In a context without a buffer every run returns: no record is
    stored, no thread is registered, and only [perf_export_csv] writes to
    a stream. *)
Lemma closed_run (calls : list api_call) (w : perf_world) :
  context_closed (g_perf_context w) ->
  exists w',
    perf_run calls w = Ok w'
    /\ context_closed (g_perf_context w')
    /\ tls_thread_key w' = tls_thread_key w
    /\ (forallb (fun c => negb (export_call c)) calls = true ->
        streams w' = streams w).
Proof.
  revert w. induction calls as [|c calls IH]; intros w Hc; simpl; [by exists w|].
  destruct (closed_call c w Hc) as (w1 & -> & Hc1 & Htls1 & Hfs1). simpl.
  destruct (IH w1 Hc1) as (w' & Hrun & Hc' & Htls' & Hfs').
  exists w'. split; [exact Hrun|]. split; [exact Hc'|]. split; [congruence|].
  intros [Hne Hrest]%andb_prop.
  rewrite Hfs' by done. apply Hfs1. by destruct (export_call c).
Qed.

(** *** Draining the buffer *)

Lemma flush_rows (w : perf_world) (f : FILE) :
  let s := g_perf_context w in
  context_ok s -> truthy (enabled (config s)) = true ->
  output_file (config s) = Some f ->
  exists fs,
    perf_flush_logs w = Ok (set_streams fs w)
    /\ stream_text f fs
       = String.append (stream_text f (streams w))
           (str_concat (format_entry (output_format (config s)) <$> records s))
    /\ forall f', f' <> f -> fs !! f' = streams w !! f'.
Proof.
  intros s Hok He Hf. unfold perf_flush_logs. fold s. rewrite He, Hf. simpl.
  rewrite (published_records s Hok). simpl.
  eexists. split; [reflexivity|].
  apply (fprintf_rows f (format_entry (output_format (config s))) (records s) (streams w)).
Qed.

Lemma flush_silent (w : perf_world) :
  truthy (enabled (config (g_perf_context w))) = false
  \/ output_file (config (g_perf_context w)) = None ->
  perf_flush_logs w = Ok w.
Proof.
  intros H. unfold perf_flush_logs.
  destruct (truthy _); simpl; [|done].
  destruct H as [?| ->]; done.
Qed.

Lemma cleanup_closed (w : perf_world) :
  context_closed (g_perf_context w) ->
  enabled (config (g_perf_context w)) = 0 ->
  g_perf_context w = zero_context -> perf_cleanup w = Ok w.
Proof.
  intros _ He Hz. unfold perf_cleanup. rewrite He. simpl. rewrite <- Hz.
  by destruct w.
Qed.

(** X3.  [perf_cleanup] prints the records of the buffer to the
    configured stream when monitoring is enabled (and prints nothing when
    it is disabled: the records are then discarded), and leaves the
    context all zero.  Afterwards a second [perf_cleanup] changes nothing,
    [perf_print_summary] prints nothing, and every run of the calls
    [perf_start_milestone], [perf_end_milestone] (labeled or not),
    [perf_log_event], [perf_log_event_with_context], [perf_log_iteration],
    [perf_log_algorithm_step], [perf_reset], [perf_set_enabled],
    [perf_register_thread], [perf_unregister_thread], [perf_flush_logs]
    and [perf_export_csv] returns, also after [perf_set_enabled(1)]: the
    freed buffer is never accessed, no record is stored, no thread is
    given an index, and nothing is printed except by [perf_export_csv].
    (The other functions of the API, [perf_init] among them, are not part
    of these runs.) *)
Theorem cleanup_closes_context (w : perf_world) :
  let s := g_perf_context w in
  context_ok s ->
  exists w0,
    perf_cleanup w = Ok w0
    /\ g_perf_context w0 = zero_context
    /\ tls_thread_key w0 = tls_thread_key w
    /\ (forall f,
           truthy (enabled (config s)) = true -> output_file (config s) = Some f ->
           stream_text f (streams w0)
           = String.append (stream_text f (streams w))
               (str_concat (format_entry (output_format (config s)) <$> records s))
           /\ forall f', f' <> f -> streams w0 !! f' = streams w !! f')
    /\ (truthy (enabled (config s)) = false \/ output_file (config s) = None ->
        streams w0 = streams w)
    /\ perf_cleanup w0 = Ok w0
    /\ (forall now status, perf_print_summary now status w0 = w0)
    /\ forall calls,
         exists w',
           perf_run calls w0 = Ok w'
           /\ log_count (g_perf_context w') = 0%N
           /\ log_entries (g_perf_context w') = None
           /\ records (g_perf_context w') = []
           /\ tls_thread_key w' = tls_thread_key w0
           /\ (forallb (fun c => negb (export_call c)) calls = true ->
               streams w' = streams w0).
Proof.
  intros s Hok.
  assert (Hfl : exists fs,
             perf_flush_logs w = Ok (set_streams fs w)
             /\ (forall f,
                    truthy (enabled (config s)) = true -> output_file (config s) = Some f ->
                    stream_text f fs
                    = String.append (stream_text f (streams w))
                        (str_concat (format_entry (output_format (config s)) <$> records s))
                    /\ forall f', f' <> f -> fs !! f' = streams w !! f')
             /\ (truthy (enabled (config s)) = false \/ output_file (config s) = None ->
                 fs = streams w)).
  { destruct (truthy (enabled (config s))) eqn:He.
    - destruct (output_file (config s)) as [f|] eqn:Hf.
      + destruct (flush_rows w f Hok He Hf) as (fs & Hr & Htxt & Hoth).
        exists fs. split; [done|]. split.
        * intros f0 _ [= <-]. by split.
        * by intros [?|?].
      + exists (streams w). rewrite flush_silent by (by right).
        split; [by destruct w|]. by split.
    - exists (streams w). rewrite flush_silent by (by left).
      split; [by destruct w|]. by split. }
  destruct Hfl as (fs & Hr & Htxt & Hsame).
  set (w0 := set_context zero_context
               (if truthy (enabled (config s)) then set_streams fs w else w)).
  assert (Hrun : perf_cleanup w = Ok w0).
  { unfold perf_cleanup. fold s. destruct (truthy (enabled (config s))) eqn:He.
    - rewrite Hr. simpl. unfold close_output_file, fclose.
      destruct (output_file (config s)) as [f|]; [|done].
      by destruct (_ && _).
    - done. }
  assert (Hfs0 : streams w0 = if truthy (enabled (config s)) then fs else streams w).
  { unfold w0. by destruct (truthy _). }
  exists w0. split; [exact Hrun|]. split; [done|].
  split; [unfold w0; by destruct (truthy _)|].
  split; [intros f He Hf; rewrite Hfs0, He; by apply Htxt|].
  split.
  { intros H. rewrite Hfs0. destruct (truthy _) eqn:He; [|done]. by apply Hsame. }
  split; [by apply cleanup_closed; [apply zero_context_closed|..]|].
  split; [done|].
  intros calls.
  destruct (closed_run calls w0 zero_context_closed)
    as (w' & Hcalls & [Hl Hn _ _ _ _ _] & Htls & Hfs).
  exists w'. split; [exact Hcalls|]. split; [exact Hn|]. split; [exact Hl|].
  split; [unfold records; by rewrite Hl|]. split; [exact Htls|exact Hfs].
Qed.

Lemma two_events_rows_text :
  String.append (stream_text stderr (streams two_events_world))
    (str_concat (format_entry (output_format (config (g_perf_context two_events_world)))
                   <$> records (g_perf_context two_events_world)))
  = two_events_rows.
Proof. vm_compute. reflexivity. Qed.

Lemma cleanup_closes_context_witness :
  context_ok (g_perf_context two_events_world)
  /\ exists w0,
      perf_cleanup two_events_world = Ok w0
      /\ g_perf_context w0 = zero_context
      /\ stream_text stderr (streams w0) = two_events_rows
      /\ match perf_run [ CallSetEnabled 1;
                          CallLogEvent (Some "d"%string) 1.25%float (mk_timespec 103 0) ] w0
         with
         | Ok w' => records (g_perf_context w') = []
         | Fault _ => False
         end.
Proof.
  pose proof two_events_world_ok as (Hok & He & _).
  split; [exact Hok|].
  destruct (cleanup_closes_context two_events_world Hok)
    as (w0 & Hrun & Hz & _ & Htxt & _ & _ & _ & Hcalls).
  exists w0. split; [exact Hrun|]. split; [exact Hz|]. split.
  - destruct (Htxt stderr He eq_refl) as [-> _]. exact two_events_rows_text.
  - specialize (Hcalls [ CallSetEnabled 1;
                         CallLogEvent (Some "d"%string) 1.25%float (mk_timespec 103 0) ]).
    destruct Hcalls as (w' & -> & _ & _ & Hrec & _). exact Hrec.
Defined.

(** X4.  [perf_reset] does nothing while monitoring is disabled.  When
    enabled it empties the buffer (the slots keep their old contents),
    restarts the program clock and marks every milestone inactive, so
    that a start made before the reset is forgotten and its end does
    nothing; it keeps the configuration, the registered threads and the
    allocation counters, and it sets [max_threads_used] to 0 even while
    threads are registered. *)
Theorem reset_forgets_pending_starts (now : timespec) (w : perf_world) :
  let s := g_perf_context w in
  let s' := perf_reset now s in
  context_ok s ->
  (truthy (enabled (config s)) = false -> s' = s)
  /\ (truthy (enabled (config s)) = true ->
      context_ok s'
      /\ log_count s' = 0%N
      /\ records s' = []
      /\ log_entries s' = log_entries s
      /\ program_start_time s' = perf_get_timestamp now
      /\ max_threads_used s' = 0
      /\ config s' = config s
      /\ active_threads s' = active_threads s
      /\ thread_data s' = thread_data s
      /\ allocation_counter s' = allocation_counter s
      /\ bytes_allocated s' = bytes_allocated s
      /\ forall m lbl os,
           perf_end_milestone_labeled m lbl os (set_context s' w)
           = Ok (set_context s' w)).
Proof.
  intros s s' Hok. split.
  - intros He. unfold s', perf_reset. by rewrite He.
  - intros He. pose proof (reset_context_ok now s Hok) as Hok'. fold s' in Hok'.
    assert (Hs' : s' = mk_context (config s) (log_entries s) 0 (log_capacity s)
                         (thread_data s) (perf_get_timestamp now) (allocation_counter s)
                         (bytes_allocated s) (bytes_freed s) (active_threads s)
                         (milestone_starts s)
                         (replicate (N.to_nat PERF_MILESTONE_COUNT) 0) 0%float 0 0).
    { unfold s', perf_reset. by rewrite He. }
    split; [done|]. rewrite Hs'. simpl.
    split; [done|]. split; [unfold records; simpl; by destruct (log_entries s)|].
    do 8 (split; [done|]).
    intros m lbl os. apply end_all_inactive; simpl; [|done].
    by destruct Hok.
Qed.

Lemma pending_world_ok :
  context_ok (g_perf_context pending_world)
  /\ truthy (enabled (config (g_perf_context pending_world))) = true
  /\ milestone_active (g_perf_context pending_world)
       !! N.to_nat PERF_MILESTONE_CLUSTERING_START = Some 1.
Proof.
  split; [apply start_context_ok, fresh_world_ok|]. split; reflexivity.
Qed.

Lemma reset_forgets_pending_starts_witness :
  context_ok (g_perf_context pending_world)
  /\ milestone_active (g_perf_context pending_world)
       !! N.to_nat PERF_MILESTONE_CLUSTERING_START = Some 1
  /\ perf_end_milestone_labeled PERF_MILESTONE_CLUSTERING_START None
       (probe_at (mk_timespec 100 5000000))
       (set_context (perf_reset (mk_timespec 100 2000000) (g_perf_context pending_world))
          pending_world)
     = Ok (set_context (perf_reset (mk_timespec 100 2000000) (g_perf_context pending_world))
             pending_world).
Proof.
  pose proof pending_world_ok as (Hok & He & Ha).
  split; [exact Hok|]. split; [exact Ha|].
  destruct (reset_forgets_pending_starts (mk_timespec 100 2000000) pending_world Hok)
    as [_ H].
  destruct (H He) as (_ & _ & _ & _ & _ & _ & _ & _ & _ & _ & _ & Hend).
  apply Hend.
Defined.


(* ====================================================================== *)
(** * Output: draining, formats, files and the summary *)

Lemma records_publish (e' : perf_metrics_t) (l : list perf_metrics_t)
    (s : perf_context_t) :
  context_ok s -> (log_count s < log_capacity s)%N -> log_entries s = Some l ->
  records (publish e' l s) = records s ++ [e'].
Proof.
  intros Hok Hlt Hl.
  destruct (records_effect s (publish e' l s) (Some (duration_ms e')) Hok
              (log_effect_publish e' l s Hok Hlt Hl)) as (e'' & Hr & _).
  rewrite Hr. f_equal. f_equal.
  assert (Hlast : last (records (publish e' l s)) = Some e'').
  { rewrite Hr. apply last_snoc. }
  unfold records, publish in Hlast. simpl in Hlast.
  destruct Hok as [(l0 & Hl0 & Hlen) _ _ _ _]. rewrite Hl in Hl0. injection Hl0 as <-.
  replace (N.to_nat (log_count s + 1)) with (S (N.to_nat (log_count s))) in Hlast by lia.
  rewrite (take_S_r _ _ e') in Hlast
    by (apply list_lookup_insert_eq; lia).
  rewrite last_snoc in Hlast. by injection Hlast.
Qed.

Lemma str_concat_app (a b : list string) :
  str_concat (a ++ b) = String.append (str_concat a) (str_concat b).
Proof.
  induction a as [|x a IH]; simpl; [done|].
  by rewrite IH, string_append_assoc.
Qed.

Lemma str_concat_empty {A : Type} (l : list A) :
  str_concat ((fun _ => EmptyString) <$> l) = EmptyString.
Proof. induction l as [|x l IH]; simpl; [done|]. exact IH. Qed.

Lemma human_row_one_line (e : perf_metrics_t) :
  has_newline (label e) = false -> count_lines (human_row e) = 1%nat.
Proof.
  intros Hl. unfold human_row. rewrite count_lines_append.
  rewrite count_lines_none; [done|].
  apply has_newline_concat.
  repeat constructor;
    auto using fmt_d_no_newline, fmt_09ld_no_newline, fmt_zu_no_newline,
               fmt_f_no_newline, milestone_name_no_newline.
Qed.

Lemma human_rows_lines (entries : list perf_metrics_t) :
  Forall (fun e => has_newline (label e) = false) entries ->
  count_lines (str_concat (human_row <$> entries)) = length entries.
Proof.
  induction 1 as [|e entries Hl _ IH]; [done|].
  rewrite fmap_cons. simpl str_concat. rewrite count_lines_append, IH.
  by rewrite human_row_one_line.
Qed.

(** X5.  [perf_flush_logs] prints one row per record of the buffer to the
    configured stream, in order, and leaves the buffer as it is: the
    records are not consumed, and a second [perf_flush_logs] prints all of
    them again.  No other stream is written. *)
Theorem flush_keeps_records (w : perf_world) (f : FILE) :
  let s := g_perf_context w in
  let rows := str_concat (format_entry (output_format (config s)) <$> records s) in
  context_ok s -> truthy (enabled (config s)) = true ->
  output_file (config s) = Some f ->
  exists w1 w2,
    perf_flush_logs w = Ok w1
    /\ g_perf_context w1 = s
    /\ stream_text f (streams w1) = String.append (stream_text f (streams w)) rows
    /\ (forall f', f' <> f -> streams w1 !! f' = streams w !! f')
    /\ perf_flush_logs w1 = Ok w2
    /\ g_perf_context w2 = s
    /\ stream_text f (streams w2)
       = String.append (String.append (stream_text f (streams w)) rows) rows.
Proof.
  intros s rows Hok He Hf.
  destruct (flush_rows w f Hok He Hf) as (fs & Hr & Htxt & Hoth).
  destruct (flush_rows (set_streams fs w) f Hok He Hf) as (fs2 & Hr2 & Htxt2 & _).
  exists (set_streams fs w), (set_streams fs2 (set_streams fs w)).
  split; [done|]. split; [done|]. split; [done|]. split; [done|].
  split; [done|]. split; [done|].
  simpl in *. by rewrite Htxt2, Htxt.
Qed.

Lemma flush_keeps_records_witness :
  context_ok (g_perf_context two_events_world)
  /\ exists w1 w2,
      perf_flush_logs two_events_world = Ok w1
      /\ log_count (g_perf_context w1) = 2%N
      /\ stream_text stderr (streams w1) = two_events_rows
      /\ perf_flush_logs w1 = Ok w2
      /\ stream_text stderr (streams w2) = String.append two_events_rows two_events_rows.
Proof.
  pose proof two_events_world_ok as (Hok & He & Hn & _).
  split; [exact Hok|].
  destruct (flush_keeps_records two_events_world stderr Hok He eq_refl)
    as (w1 & w2 & H1 & Hs & Ht1 & _ & H2 & _ & Ht2).
  exists w1, w2. split; [exact H1|]. split; [by rewrite Hs|].
  rewrite Ht2, Ht1. rewrite two_events_rows_text. by repeat split.
Defined.

(** X6.  The row that [perf_flush_logs] prints depends on the configured
    format: the CSV row for [PERF_FORMAT_CSV], nothing at all for
    [PERF_FORMAT_JSON] (the stream keeps its text however many records
    there are), and the human-readable row for [PERF_FORMAT_HUMAN] and
    also for [PERF_FORMAT_TSV], one line per record when no label
    contains a newline. *)
Theorem flush_by_format (w : perf_world) (f : FILE) :
  let s := g_perf_context w in
  context_ok s -> truthy (enabled (config s)) = true ->
  output_file (config s) = Some f ->
  exists w1 added,
    perf_flush_logs w = Ok w1
    /\ stream_text f (streams w1) = String.append (stream_text f (streams w)) added
    /\ match output_format (config s) with
       | PERF_FORMAT_CSV => added = str_concat (csv_row <$> records s)
       | PERF_FORMAT_JSON =>
           added = EmptyString
           /\ forall f', stream_text f' (streams w1) = stream_text f' (streams w)
       | PERF_FORMAT_HUMAN | PERF_FORMAT_TSV =>
           added = str_concat (human_row <$> records s)
           /\ (Forall (fun e => has_newline (label e) = false) (records s) ->
               count_lines added = N.to_nat (log_count s))
       end.
Proof.
  intros s Hok He Hf.
  destruct (flush_rows w f Hok He Hf) as (fs & Hr & Htxt & Hoth).
  exists (set_streams fs w), (str_concat (format_entry (output_format (config s))
                                           <$> records s)).
  split; [done|]. split; [done|].
  fold s in Htxt. simpl.
  assert (Hhuman : Forall (fun e => has_newline (label e) = false) (records s) ->
                   count_lines (str_concat (human_row <$> records s))
                   = N.to_nat (log_count s)).
  { intros Hl. by rewrite (human_rows_lines _ Hl), (records_length s Hok). }
  destruct (output_format (config s)) eqn:Hfmt; simpl; try done.
  change (list_fmap _ _ (fun _ => EmptyString) (records s))
    with ((fun _ : perf_metrics_t => EmptyString) <$> records s) in *.
  rewrite str_concat_empty in *. split; [done|].
  intros f'. destruct (decide (f' = f)) as [->|Hne].
  - rewrite Htxt. apply string_append_empty.
  - unfold stream_text. by rewrite Hoth.
Qed.

Lemma flush_by_format_witness :
  context_ok (g_perf_context two_events_world)
  /\ exists w1,
      perf_flush_logs two_events_world = Ok w1
      /\ count_lines (stream_text stderr (streams w1)) = 2%nat.
Proof.
  pose proof two_events_world_ok as (Hok & He & Hn & Hlines & _).
  split; [exact Hok|].
  destruct (flush_by_format two_events_world stderr Hok He eq_refl)
    as (w1 & added & H1 & Ht & Hfmt).
  exists w1. split; [exact H1|].
  change (output_format (config (g_perf_context two_events_world)))
    with PERF_FORMAT_HUMAN in Hfmt.
  destruct Hfmt as [_ Hcount]. rewrite Ht, count_lines_append, Hcount, Hn.
  - reflexivity.
  - apply Forall_forall. intros e Hin. rewrite forallb_forall in Hlines.
    apply list_elem_of_In in Hin. apply Hlines in Hin.
    apply andb_prop in Hin as [Hin _]. by apply negb_true_iff in Hin.
Defined.

(** X7.  The end of an active milestone, with room in the buffer, stores
    one record of that kind after the records already there.  With
    [flush_immediately] set it then prints the whole buffer, the earlier
    records again and the new one last, to the configured stream; without
    it, it prints nothing. *)
Theorem end_milestone_flushes_whole_buffer (m : perf_milestone_t)
    (lbl : option string) (os : os_probe) (w : perf_world) (f : FILE) (a : Z) :
  let s := g_perf_context w in
  context_ok s -> truthy (enabled (config s)) = true ->
  output_file (config s) = Some f ->
  (m < PERF_MILESTONE_COUNT)%N ->
  milestone_active s !! N.to_nat m = Some a -> truthy a = true ->
  (log_count s < log_capacity s)%N ->
  exists w' e',
    perf_end_milestone_labeled m lbl os w = Ok w'
    /\ records (g_perf_context w') = records s ++ [e']
    /\ milestone e' = m
    /\ stream_text f (streams w')
       = (if truthy (flush_immediately (config s))
          then String.append (stream_text f (streams w))
                 (str_concat (format_entry (output_format (config s))
                                <$> (records s ++ [e'])))
          else stream_text f (streams w))
    /\ forall f', f' <> f -> streams w' !! f' = streams w !! f'.
Proof.
  intros s Hok He Hf Hm Ha Hat Hlt.
  destruct (milestone_slots s m Hok Hm) as (a0 & start & Ha0 & Hst).
  destruct (write_entry_ok (fun e => e) s Hok Hlt) as (l & e & Hl & Hle & _).
  unfold perf_end_milestone_labeled. fold s. rewrite He. simpl.
  destruct (N.leb_spec PERF_MILESTONE_COUNT m); [lia|].
  rewrite Ha, Hst, Hat. simpl.
  destruct (N.ltb_spec (log_count s) (log_capacity s)); [|lia].
  destruct (cpu_usage_probe _ _ _) as [[r cpu_now] cpu_st].
  unfold write_entry. rewrite Hl, Hle. simpl.
  match goal with
  | |- context [<[_ := ?x]> l] => set (e' := x)
  end.
  change (set_log_count (log_count s + 1)
            (set_log_entries (Some (<[N.to_nat (log_count s) := e']> l)) s))
    with (publish e' l s).
  set (s2 := publish e' l s).
  assert (Hok2 : context_ok s2) by (by apply publish_context_ok).
  assert (Hrec : records s2 = records s ++ [e']) by (by apply records_publish).
  set (w2 := mk_world s2 _ _ _).
  destruct (truthy (flush_immediately (config s))) eqn:Hfi.
  - destruct (flush_rows w2 f Hok2 He Hf) as (fs & -> & Htxt & Hoth). simpl.
    eexists _, e'. split; [reflexivity|]. simpl.
    split; [exact Hrec|]. split; [done|]. split; [|done].
    rewrite Htxt. simpl. by rewrite Hrec.
  - simpl. eexists _, e'. split; [reflexivity|]. simpl.
    split; [exact Hrec|]. by split.
Qed.

Lemma flushing_world_ok :
  context_ok (g_perf_context flushing_world)
  /\ truthy (enabled (config (g_perf_context flushing_world))) = true
  /\ truthy (flush_immediately (config (g_perf_context flushing_world))) = true
  /\ output_file (config (g_perf_context flushing_world)) = Some stderr
  /\ milestone_active (g_perf_context flushing_world)
       !! N.to_nat PERF_MILESTONE_CLUSTERING_START = Some 1
  /\ log_count (g_perf_context flushing_world) = 1%N
  /\ log_capacity (g_perf_context flushing_world) = PERF_MAX_LOG_ENTRIES
  /\ stream_text stderr (streams flushing_world) = EmptyString
  /\ (human_row <$> records (g_perf_context flushing_world))
     = [ String.append "[101.000000000] USER_1: 1.250 ms, RSS: 0 KB, Threads: 0, d"
           end_of_line ].
Proof.
  split.
  - destruct (run_defined
                [ CallLogEvent (Some "d"%string) 1.25%float (mk_timespec 101 0);
                  CallStartMilestone PERF_MILESTONE_CLUSTERING_START (mk_timespec 102 0) ]
                (snd (perf_init_with_config (Some (caller_config flushing_config))
                        (mk_timespec 100 0) (Some zero_block) initial_world)))
      as [w Hw].
    + apply init_context_ok.
    + intros t now Hin.
      repeat (apply elem_of_cons in Hin as [Hin|Hin]; [done|]).
      by apply elem_of_nil in Hin.
    + unfold flushing_world. rewrite Hw.
      eapply run_context_ok; [|exact Hw]. apply init_context_ok.
  - vm_compute. by repeat split.
Qed.

Lemma end_milestone_flushes_whole_buffer_witness :
  context_ok (g_perf_context flushing_world)
  /\ exists w' e',
      perf_end_milestone_labeled PERF_MILESTONE_CLUSTERING_START (Some "pass"%string)
        (probe_at (mk_timespec 102 3000000)) flushing_world = Ok w'
      /\ length (records (g_perf_context w')) = 2%nat
      /\ stream_text stderr (streams w')
         = String.append
             (String.append "[101.000000000] USER_1: 1.250 ms, RSS: 0 KB, Threads: 0, d"
                end_of_line)
             (String.append (human_row e') EmptyString).
Proof.
  pose proof flushing_world_ok as (Hok & He & Hfi & Hf & Ha & Hn & Hcap & Ht & Hrows).
  split; [exact Hok|].
  destruct (end_milestone_flushes_whole_buffer PERF_MILESTONE_CLUSTERING_START
              (Some "pass"%string) (probe_at (mk_timespec 102 3000000))
              flushing_world stderr 1 Hok He Hf eq_refl Ha eq_refl)
    as (w' & e' & Hrun & Hrec & _ & Htxt & _).
  { rewrite Hn, Hcap. reflexivity. }
  exists w', e'. split; [exact Hrun|]. split.
  - rewrite Hrec, length_app, (records_length _ Hok), Hn. reflexivity.
  - rewrite Htxt, Hfi, Ht, fmap_app.
    change (output_format (config (g_perf_context flushing_world)))
      with PERF_FORMAT_HUMAN.
    change (format_entry PERF_FORMAT_HUMAN) with human_row.
    rewrite Hrows. reflexivity.
Defined.

(** X8.  [perf_set_output_file(name)] with a null name does nothing.
    Otherwise it stores the first 255 characters of the name and makes the
    file just opened the output stream, or [stderr] when it cannot be
    opened: the output stream is never left null.  The buffer is not
    touched, and a [perf_flush_logs] that follows prints every record to
    the new stream, which for a file opened starts empty. *)
Theorem set_output_file_then_flush (name : string) (fopen_result : option FILE)
    (w : perf_world) :
  let s := g_perf_context w in
  let w1 := perf_set_output_file (Some name) fopen_result w in
  let f := default stderr fopen_result in
  context_ok s -> truthy (enabled (config s)) = true ->
  perf_set_output_file None fopen_result w = w
  /\ output_file (config (g_perf_context w1)) = Some f
  /\ output_filename (config (g_perf_context w1))
     = str_take (PERF_MAX_FILENAME_LEN - 1) name
  /\ (String.length (output_filename (config (g_perf_context w1))) <= 255)%nat
  /\ output_format (config (g_perf_context w1)) = output_format (config s)
  /\ enabled (config (g_perf_context w1)) = enabled (config s)
  /\ records (g_perf_context w1) = records s
  /\ exists w2,
      perf_flush_logs w1 = Ok w2
      /\ g_perf_context w2 = g_perf_context w1
      /\ stream_text f (streams w2)
         = String.append
             (match fopen_result with
              | Some _ => EmptyString
              | None => stream_text stderr (streams w)
              end)
             (str_concat (format_entry (output_format (config s)) <$> records s)).
Proof.
  intros s w1 f Hok He.
  assert (Hnull : perf_set_output_file None fopen_result w = w) by done.
  assert (Hctx : g_perf_context w1
                 = set_config
                     (with_output (Some f) (output_format (config s))
                        (with_output_filename (str_take (PERF_MAX_FILENAME_LEN - 1) name)
                           (config s))) s).
  { unfold w1, f, perf_set_output_file. fold s. by destruct fopen_result. }
  assert (Hfs : stream_text f (streams w1)
                = match fopen_result with
                  | Some _ => EmptyString
                  | None => stream_text stderr (streams w)
                  end).
  { unfold w1, f, perf_set_output_file. fold s.
    destruct fopen_result as [f0|]; cbn [streams default].
    - unfold stream_text, fopen_w. by rewrite lookup_insert_eq.
    - unfold close_output_file, fclose. cbn [output_file with_output_filename].
      destruct (output_file (config s)); [|done]. by destruct (_ && _). }
  clearbody w1 f.
  assert (Hok1 : context_ok (g_perf_context w1)).
  { rewrite Hctx. by apply context_ok_config. }
  destruct (flush_rows w1 f Hok1) as (fs & Hr & Htxt & _).
  { by rewrite Hctx. }
  { by rewrite Hctx. }
  split; [exact Hnull|].
  rewrite Hctx in *.
  cbn [config set_config with_output output_file output_filename
       output_format with_output_filename enabled] in *.
  do 2 (split; [done|]). split; [apply str_take_length|]. do 3 (split; [done|]).
  exists (set_streams fs w1). split; [exact Hr|]. split; [done|].
  cbn [streams set_streams]. by rewrite Htxt, Hfs.
Qed.

Lemma two_events_rows_new_file :
  String.append EmptyString
    (str_concat (format_entry (output_format (config (g_perf_context two_events_world)))
                   <$> records (g_perf_context two_events_world)))
  = two_events_rows.
Proof. vm_compute. reflexivity. Qed.

Lemma set_output_file_then_flush_witness :
  context_ok (g_perf_context two_events_world)
  /\ output_file
       (config (g_perf_context
                  (perf_set_output_file (Some "run.log"%string) (Some 3%N)
                     two_events_world))) = Some 3%N
  /\ output_file
       (config (g_perf_context
                  (perf_set_output_file (Some "run.log"%string) None two_events_world)))
     = Some stderr
  /\ exists w2,
      perf_flush_logs
        (perf_set_output_file (Some "run.log"%string) (Some 3%N) two_events_world)
      = Ok w2
      /\ stream_text 3%N (streams w2) = two_events_rows.
Proof.
  pose proof two_events_world_ok as (Hok & He & _).
  split; [exact Hok|].
  destruct (set_output_file_then_flush "run.log" (Some 3%N) two_events_world Hok He)
    as (_ & Hf & _ & _ & _ & _ & _ & w2 & Hr & _ & Htxt).
  destruct (set_output_file_then_flush "run.log" None two_events_world Hok He)
    as (_ & Hf' & _).
  split; [exact Hf|]. split; [exact Hf'|].
  exists w2. split; [exact Hr|].
  exact (eq_trans Htxt two_events_rows_new_file).
Defined.

(** X9.  While monitoring is disabled [perf_export_csv] still creates the
    file, but writes the header line only: the records of the buffer are
    not exported.  The configuration and the buffer are as before. *)
Theorem export_csv_disabled_header_only (path : string) (f : FILE) (w : perf_world) :
  truthy (enabled (config (g_perf_context w))) = false ->
  exists w',
    perf_export_csv (Some path) (Some f) w = Ok w'
    /\ g_perf_context w' = g_perf_context w
    /\ stream_text f (streams w') = csv_header
    /\ count_lines (stream_text f (streams w')) = 1%nat
    /\ forall f', f' <> f -> streams w' !! f' = streams w !! f'.
Proof.
  intros He. unfold perf_export_csv.
  set (s := g_perf_context w).
  set (w1 := mk_world _ _ _ _).
  rewrite (flush_silent w1) by (by left). simpl.
  eexists. split; [reflexivity|]. simpl.
  split; [|split; [|split]].
  - rewrite set_config_twice, with_output_restore. apply set_config_same.
  - rewrite stream_text_fprintf. unfold stream_text, fopen_w.
    by rewrite lookup_insert_eq.
  - rewrite stream_text_fprintf. unfold stream_text, fopen_w.
    by rewrite lookup_insert_eq.
  - intros f' Hne. rewrite fprintf_other by done. unfold fopen_w.
    by rewrite lookup_insert_ne.
Qed.

Lemma export_csv_disabled_header_only_witness :
  truthy (enabled (config (g_perf_context two_events_disabled))) = false
  /\ log_count (g_perf_context two_events_disabled) = 2%N
  /\ exists w',
      perf_export_csv (Some "out.csv"%string) (Some 3%N) two_events_disabled = Ok w'
      /\ stream_text 3%N (streams w') = csv_header
      /\ count_lines (stream_text 3%N (streams w')) = 1%nat.
Proof.
  split; [reflexivity|]. split; [reflexivity|].
  destruct (export_csv_disabled_header_only "out.csv" 3%N two_events_disabled eq_refl)
    as (w' & Hr & _ & Ht & Hn & _).
  exists w'. by repeat split.
Defined.

(** *** The summary *)

Lemma text_line_one_line (parts : list string) :
  Forall (fun p => has_newline p = false) parts ->
  count_lines (text_line parts) = 1%nat.
Proof.
  intros Hp. unfold text_line. rewrite count_lines_append.
  by rewrite count_lines_none by (by apply has_newline_concat).
Qed.

Lemma fprintf_texts (f : FILE) (texts : list string) (fs : gmap FILE string) :
  let fs' := fold_left (fun fs text => fprintf f text fs) texts fs in
  stream_text f fs' = String.append (stream_text f fs) (str_concat texts)
  /\ forall f', f' <> f -> fs' !! f' = fs !! f'.
Proof.
  revert fs. induction texts as [|t texts IH]; intros fs; simpl.
  - by rewrite string_append_empty.
  - destruct (IH (fprintf f t fs)) as [Htext Hother]. split.
    + rewrite Htext, stream_text_fprintf. apply string_append_assoc.
    + intros f' Hne. rewrite Hother by done. by apply fprintf_other.
Qed.

Lemma summary_text_lines (s : perf_context_t) (total_runtime : double) (peak : N) :
  count_lines (str_concat (summary_text s total_runtime peak)) = 10%nat.
Proof.
  unfold summary_text. cbn [str_concat fold_right].
  rewrite !count_lines_append.
  rewrite !text_line_one_line
    by (repeat constructor;
        auto using fmt_d_no_newline, fmt_zu_no_newline, fmt_f_no_newline).
  reflexivity.
Qed.

(** X10.  [perf_print_summary] (and [perf_print_detailed_report], which
    only calls it) prints nothing while monitoring is disabled.  When
    enabled it appends its ten lines to [stderr], whatever output stream
    is configured: the run time since the program start recorded by the
    last initialization or reset, the [VmPeak] value of the process, the
    thread, record and allocation counters.  It does not change the
    context: the records stay in the buffer and are not printed. *)
Theorem print_summary_to_stderr (now : timespec) (status : option proc_status_t)
    (w : perf_world) :
  let s := g_perf_context w in
  let w' := perf_print_summary now status w in
  let text :=
    str_concat
      (summary_text s
         (perf_timestamp_diff_ms (Some (program_start_time s))
            (Some (perf_get_timestamp now)))
         (match status with
          | Some st => default 0%N (VmPeak st)
          | None => 0%N
          end)) in
  perf_print_detailed_report now status w = w'
  /\ g_perf_context w' = s
  /\ tls_thread_key w' = tls_thread_key w
  /\ (forall f, f <> stderr -> streams w' !! f = streams w !! f)
  /\ (truthy (enabled (config s)) = false -> w' = w)
  /\ (truthy (enabled (config s)) = true ->
      stream_text stderr (streams w')
      = String.append (stream_text stderr (streams w)) text)
  /\ count_lines text = 10%nat.
Proof.
  intros s w' text. split; [done|].
  assert (Hpeak : perf_get_peak_rss_kb status s
                  = match status with
                    | Some st => default 0%N (VmPeak st)
                    | None => 0%N
                    end) by (by destruct status).
  unfold w', perf_print_summary. fold s.
  destruct (truthy (enabled (config s))); cbn [negb].
  - cbn [g_perf_context set_streams streams tls_thread_key].
    destruct (fprintf_texts stderr
                (summary_text s
                   (perf_timestamp_diff_ms (Some (program_start_time s))
                      (Some (perf_get_timestamp now)))
                   (perf_get_peak_rss_kb status s)) (streams w)) as [Htxt Hoth].
    split; [done|]. split; [done|]. split; [exact Hoth|]. split; [done|].
    split; [|apply summary_text_lines].
    intros _. rewrite Htxt. unfold text. by rewrite Hpeak.
  - split; [done|]. split; [done|]. split; [done|]. split; [done|].
    split; [done|]. apply summary_text_lines.
Qed.

(* ====================================================================== *)
(** * Timing in nanoseconds, allocation counters, the CPU probe, threads *)

Lemma wrap_size_Z (n : N) : Z.of_N (wrap_size n) = Z.of_N n mod 2 ^ 64.
Proof. unfold wrap_size. by rewrite N2Z.inj_mod. Qed.

Lemma uint64_of_Z_Z (z : Z) : Z.of_N (uint64_of_Z z) = z mod 2 ^ 64.
Proof.
  unfold uint64_of_Z. rewrite Z2N.id; [done|].
  apply Z.mod_pos_bound. lia.
Qed.

Lemma timespec_ns_Z (t : timespec) :
  Z.of_N (timespec_ns t) = (tv_sec t * 1000000000 + tv_nsec t) mod 2 ^ 64.
Proof.
  unfold timespec_ns.
  rewrite wrap_size_Z, N2Z.inj_add, wrap_size_Z, N2Z.inj_mul, !uint64_of_Z_Z.
  change (Z.of_N 1000000000) with 1000000000.
  rewrite Z.add_mod_idemp_l by lia.
  rewrite Z.add_mod_idemp_r by lia.
  rewrite <- Z.add_mod_idemp_l by lia.
  rewrite Z.mul_mod_idemp_l by lia.
  by rewrite Z.add_mod_idemp_l by lia.
Qed.

Lemma timespec_ns_bound (t : timespec) : (timespec_ns t < 2 ^ 64)%N.
Proof. unfold timespec_ns, wrap_size. apply N.mod_lt. lia. Qed.

(** X11.  [perf_timestamp_diff_ns] computes in [uint64_t]: its result is
    the difference of the two readings in nanoseconds modulo [2^64].  It
    is the exact number of nanoseconds when the end is not before the
    start; when the end is before the start it is not a negative number
    but [2^64] minus the gap.  With a null pointer it is 0. *)
Theorem timestamp_diff_ns_modular (a b : perf_timestamp_t) :
  let d := (tv_sec (ts b) - tv_sec (ts a)) * 1000000000
           + (tv_nsec (ts b) - tv_nsec (ts a)) in
  Z.of_N (perf_timestamp_diff_ns (Some a) (Some b)) = d mod 2 ^ 64
  /\ (0 <= d < 2 ^ 64 -> Z.of_N (perf_timestamp_diff_ns (Some a) (Some b)) = d)
  /\ (- 2 ^ 64 < d < 0 ->
      Z.of_N (perf_timestamp_diff_ns (Some a) (Some b)) = 2 ^ 64 + d)
  /\ perf_timestamp_diff_ns (Some a) (Some a) = 0%N
  /\ perf_timestamp_diff_ns None (Some b) = 0%N
  /\ perf_timestamp_diff_ns (Some a) None = 0%N.
Proof.
  intros d.
  assert (Hmod : Z.of_N (perf_timestamp_diff_ns (Some a) (Some b)) = d mod 2 ^ 64).
  { unfold perf_timestamp_diff_ns.
    pose proof (timespec_ns_bound (ts a)) as Ha.
    rewrite wrap_size_Z, N2Z.inj_sub by lia.
    rewrite N2Z.inj_add, !timespec_ns_Z.
    change (Z.of_N (2 ^ 64)) with (2 ^ 64).
    set (x := tv_sec (ts b) * 1000000000 + tv_nsec (ts b)).
    set (y := tv_sec (ts a) * 1000000000 + tv_nsec (ts a)).
    replace d with (x - y) by (unfold x, y, d; ring).
    rewrite (Z.mod_eq x (2 ^ 64)), (Z.mod_eq y (2 ^ 64)) by lia.
    replace (x - 2 ^ 64 * (x / 2 ^ 64) + 2 ^ 64 - (y - 2 ^ 64 * (y / 2 ^ 64)))
      with (x - y + (1 - x / 2 ^ 64 + y / 2 ^ 64) * 2 ^ 64) by ring.
    apply Z_mod_plus_full. }
  split; [exact Hmod|]. split; [|split; [|split; [|by split]]].
  - intros Hd. rewrite Hmod. by apply Z.mod_small.
  - intros Hd. rewrite Hmod.
    replace d with (2 ^ 64 + d + (-1) * 2 ^ 64) at 1 by ring.
    rewrite Z_mod_plus_full. apply Z.mod_small. lia.
  - apply N2Z.inj. unfold perf_timestamp_diff_ns.
    pose proof (timespec_ns_bound (ts a)) as Ha.
    rewrite wrap_size_Z, N2Z.inj_sub, N2Z.inj_add by lia.
    replace (Z.of_N (timespec_ns (ts a)) + Z.of_N (2 ^ 64) - Z.of_N (timespec_ns (ts a)))
      with (0 + 1 * 2 ^ 64) by (change (Z.of_N (2 ^ 64)) with (2 ^ 64); ring).
    by rewrite Z_mod_plus_full.
Qed.

(** *** Allocation counters *)

Lemma wrap_size_add_l (a b : N) : wrap_size (wrap_size a + b) = wrap_size (a + b).
Proof. unfold wrap_size. by rewrite N.Div0.add_mod_idemp_l. Qed.

Lemma wrap_size_small (a : N) : (a < 2 ^ 64)%N -> wrap_size a = a.
Proof. intros. by apply N.mod_small. Qed.

Lemma heap_run_cons (c : heap_call) (calls : list heap_call) (s : perf_context_t) :
  heap_run (c :: calls) s = heap_run calls (heap_track c s).
Proof. reflexivity. Qed.

Lemma heap_run_counters (calls : list heap_call) (s : perf_context_t) :
  truthy (enabled (config s)) = true -> truthy (track_memory (config s)) = true ->
  config (heap_run calls s) = config s
  /\ wrap_size (allocation_counter (heap_run calls s))
     = wrap_size (allocation_counter s + N.of_nat (length (allocated_sizes calls)))
  /\ wrap_size (bytes_allocated (heap_run calls s))
     = wrap_size (bytes_allocated s + sum_sizes (allocated_sizes calls))
  /\ ((allocation_counter s < 2 ^ 64)%N ->
      (allocation_counter (heap_run calls s) < 2 ^ 64)%N)
  /\ ((bytes_allocated s < 2 ^ 64)%N -> (bytes_allocated (heap_run calls s) < 2 ^ 64)%N)
  /\ bytes_freed (heap_run calls s) = bytes_freed s
  /\ log_entries (heap_run calls s) = log_entries s
  /\ log_count (heap_run calls s) = log_count s.
Proof.
  revert s. induction calls as [|c calls IH]; intros s He Hm.
  - simpl. by rewrite !N.add_0_r.
  - rewrite heap_run_cons. destruct c as [[] size|p].
    + change (heap_track (TrackAllocation true size) s) with s.
      change (allocated_sizes (TrackAllocation true size :: calls))
        with (allocated_sizes calls).
      by apply IH.
    + assert (Hstep : heap_track (TrackAllocation false size) s
                      = mk_context (config s) (log_entries s) (log_count s)
                          (log_capacity s) (thread_data s) (program_start_time s)
                          (wrap_size (allocation_counter s + 1))
                          (wrap_size (bytes_allocated s + size))
                          (bytes_freed s) (active_threads s) (milestone_starts s)
                          (milestone_active s) (total_runtime_ms s)
                          (peak_memory_kb s) (max_threads_used s)).
      { simpl. unfold perf_track_allocation. by rewrite He, Hm. }
      rewrite Hstep.
      set (s1 := mk_context _ _ _ _ _ _ _ _ _ _ _ _ _ _ _).
      destruct (IH s1) as (H1 & H2 & H3 & H4 & H5 & H6 & H7 & H8); [done|done|].
      change (allocated_sizes (TrackAllocation false size :: calls))
        with (size :: allocated_sizes calls).
      cbn [length sum_sizes fold_right].
      fold (sum_sizes (allocated_sizes calls)).
      split; [done|]. split; [|split; [|split; [|split]]]; try done.
      * rewrite H2. cbn [s1 allocation_counter]. rewrite wrap_size_add_l. f_equal. lia.
      * rewrite H3. cbn [s1 bytes_allocated]. rewrite wrap_size_add_l. f_equal. lia.
      * intros _. apply H4. apply N.mod_lt. lia.
      * intros _. apply H5. apply N.mod_lt. lia.
    + assert (Hstep : heap_track (TrackDeallocation p) s = s).
      { simpl. unfold perf_track_deallocation. by destruct (_ || _). }
      rewrite Hstep.
      change (allocated_sizes (TrackDeallocation p :: calls))
        with (allocated_sizes calls).
      by apply IH.
Qed.

(** X12.  With monitoring and memory tracking enabled, a series of
    [perf_track_allocation] and [perf_track_deallocation] calls counts the
    allocations whose pointer is not null and adds up their sizes (as
    [size_t], modulo [2^64]); a deallocation records nothing, so the freed
    bytes and the free count of every memory snapshot stay as they were.
    With monitoring or memory tracking disabled no call changes the
    context. *)
Theorem allocation_tracking_counts (calls : list heap_call) (s : perf_context_t)
    (status : proc_status_t) (old : perf_memory_t) :
  (allocation_counter s < 2 ^ 64)%N -> (bytes_allocated s < 2 ^ 64)%N ->
  let s' := heap_run calls s in
  let snapshot := snd (memory_usage_probe (Some status) s') in
  (truthy (enabled (config s)) && truthy (track_memory (config s)) = false -> s' = s)
  /\ (truthy (enabled (config s)) && truthy (track_memory (config s)) = true ->
      allocation_counter s'
      = wrap_size (allocation_counter s + N.of_nat (length (allocated_sizes calls)))
      /\ bytes_allocated s'
         = wrap_size (bytes_allocated s + sum_sizes (allocated_sizes calls))
      /\ bytes_freed s' = bytes_freed s
      /\ records s' = records s
      /\ fst (memory_usage_probe (Some status) s') = 0
      /\ perf_get_memory_usage (Some old) (Some status) s' = (0, Some snapshot)
      /\ allocation_count snapshot = allocation_counter s'
      /\ heap_allocated snapshot = bytes_allocated s'
      /\ heap_freed snapshot = bytes_freed s
      /\ free_count snapshot = 0%N).
Proof.
  intros Ha Hb s' snapshot. split.
  - intros Hoff. unfold s'. clear snapshot s'.
    induction calls as [|c calls IH]; [done|]. simpl.
    replace (heap_track c s) with s; [exact IH|].
    destruct c as [p size|p]; simpl.
    + unfold perf_track_allocation.
      destruct (truthy (enabled (config s))), (truthy (track_memory (config s)));
        try done; by destruct p.
    + unfold perf_track_deallocation. by destruct (_ || _).
  - intros [He Hm]%andb_prop.
    destruct (heap_run_counters calls s He Hm)
      as (_ & H2 & H3 & H4 & H5 & H6 & H7 & H8).
    fold s' in H2, H3, H4, H5, H6, H7, H8.
    rewrite (wrap_size_small (allocation_counter s')) in H2 by auto.
    rewrite (wrap_size_small (bytes_allocated s')) in H3 by auto.
    split; [done|]. split; [done|]. split; [done|].
    split; [unfold records; by rewrite H7, H8|].
    split; [reflexivity|]. split; [reflexivity|].
    unfold snapshot. simpl. by rewrite H6.
Qed.

Lemma allocation_tracking_counts_witness :
  allocation_counter (heap_run sample_heap_calls (g_perf_context fresh_world)) = 2%N
  /\ bytes_allocated (heap_run sample_heap_calls (g_perf_context fresh_world)) = 128%N
  /\ bytes_freed (heap_run sample_heap_calls (g_perf_context fresh_world)) = 0%N
  /\ heap_freed
       (snd (memory_usage_probe (Some (mk_proc_status (Some 5%N) None None))
               (heap_run sample_heap_calls (g_perf_context fresh_world))))
     = 0%N.
Proof.
  destruct (allocation_tracking_counts sample_heap_calls (g_perf_context fresh_world)
              (mk_proc_status (Some 5%N) None None) zero_memory)
    as [_ H]; [reflexivity|reflexivity|].
  destruct (H eq_refl) as (H1 & H2 & H3 & _ & _ & _ & _ & _ & H4 & _).
  split; [exact H1|]. split; [exact H2|]. split; [exact H3|exact H4].
Defined.

(** *** The CPU probe *)

(** X13.  [perf_get_cpu_usage] returns -1 for a null pointer, leaving
    its static locals as they are, and 0 for any other pointer, also when
    [getrusage] fails: the structure is then all zero and the static
    locals keep their values.  [perf_get_cpu_percent] returns 0 at the
    first probe of the process (the static locals are still zero) and
    whenever [getrusage] fails.  A successful probe stores the CPU times
    and the wall-clock reading it saw, and a probe that follows at the
    same wall-clock reading returns 0 again: the percentage covers the
    time since the previous successful probe only. *)
Theorem cpu_percent_between_probes (u u' : rusage_t) (usage : option rusage_t)
    (old : perf_cpu_t) (wall : timespec) (st : cpu_static_t) :
  perf_get_cpu_usage None usage wall st = (-1, None, st)
  /\ fst (fst (perf_get_cpu_usage (Some old) usage wall st)) = 0
  /\ perf_get_cpu_usage (Some old) None wall st = (0, Some zero_cpu, st)
  /\ (exists percent,
         perf_get_cpu_usage (Some old) (Some u) wall st
         = (0,
            Some (mk_cpu percent (timeval_seconds (ru_utime u))
                    (timeval_seconds (ru_stime u)) 0 0),
            mk_cpu_static (timeval_seconds (ru_utime u)) (timeval_seconds (ru_stime u))
              wall)
         /\ perf_get_cpu_percent (Some u) wall st
            = (percent,
               mk_cpu_static (timeval_seconds (ru_utime u))
                 (timeval_seconds (ru_stime u)) wall))
  /\ fst (perf_get_cpu_percent (Some u) wall zero_cpu_static) = 0%float
  /\ perf_get_cpu_percent None wall st = (0%float, st)
  /\ fst (perf_get_cpu_percent (Some u') wall
            (snd (perf_get_cpu_percent (Some u) wall st))) = 0%float.
Proof.
  split; [done|]. split; [by destruct usage|]. split; [done|].
  split; [eexists; split; reflexivity|].
  split; [done|]. split; [done|].
  unfold perf_get_cpu_percent, cpu_usage_probe.
  cbn [fst snd last_wall_time last_user_time last_system_time cpu_percent].
  rewrite !Z.sub_diag.
  change (Z.eqb 0 0) with true. cbn iota.
  by destruct (0 <? tv_sec wall).
Qed.

(** *** Thread slots *)

(** X14.  The index that [perf_register_thread] returns names the slot it
    has just written: [perf_get_thread_data] of that index gives a slot
    with that thread id, [omp_thread_num] -1 and the start time of the
    call, and every other slot is as before.  [perf_unregister_thread] by
    the same thread stamps the end time of that slot and brings the
    thread count back.  [perf_get_thread_data] returns null for an index
    below 0 or from [PERF_MAX_THREADS] on. *)
Theorem register_then_get_thread_data (t : os_thread) (now later : timespec)
    (w : perf_world) :
  let s := g_perf_context w in
  context_ok s ->
  truthy (enabled (config s)) = true -> truthy (track_threads (config s)) = true ->
  0 <= active_threads s < PERF_MAX_THREADS ->
  exists w' slot,
    perf_register_thread t now w = Ok (active_threads s, w')
    /\ perf_get_thread_data (active_threads s) (g_perf_context w') = Some slot
    /\ thread_id slot = active_threads s
    /\ omp_thread_num slot = -1
    /\ start_time slot = perf_get_timestamp now
    /\ (forall j, j <> active_threads s ->
                  perf_get_thread_data j (g_perf_context w')
                  = perf_get_thread_data j s)
    /\ (forall j s0, j < 0 \/ PERF_MAX_THREADS <= j -> perf_get_thread_data j s0 = None)
    /\ (let w'' := perf_unregister_thread t later w' in
        perf_get_thread_count (g_perf_context w'') = active_threads s
        /\ exists slot',
            perf_get_thread_data (active_threads s) (g_perf_context w'') = Some slot'
            /\ thread_id slot' = active_threads s
            /\ start_time slot' = perf_get_timestamp now
            /\ end_time slot' = perf_get_timestamp later).
Proof.
  intros s Hok He Ht Hrange.
  assert (Hr : 0 <= active_threads s < 256) by (unfold PERF_MAX_THREADS in Hrange; lia).
  pose proof (ok_threads s Hok) as Hlen.
  destruct (lookup_lt_is_Some_2 (thread_data s) (Z.to_nat (active_threads s)))
    as [old Hold].
  { rewrite Hlen. unfold PERF_MAX_THREADS. lia. }
  set (id := active_threads s) in *.
  set (slot := mk_thread_data id (-1) (perf_get_timestamp now) (end_time old)
                 (thread_memory old) (thread_cpu old) (operations_count old)
                 (thread_label old)).
  set (s2 := set_thread_data (<[Z.to_nat id := slot]> (thread_data s))
               (set_active_threads (wrap_int (id + 1)) s)).
  set (s3 := if max_threads_used s2 <? id + 1
             then set_max_threads_used (id + 1) s2 else s2).
  set (w' := mk_world s3 (set_thread_id t id (tls_thread_key w)) (cpu_static w)
               (streams w)).
  assert (Hreg : perf_register_thread t now w = Ok (id, w')).
  { unfold perf_register_thread. fold s. rewrite He, Ht. cbn [negb orb]. fold id.
    replace ((0 <=? id) && (id <? PERF_MAX_THREADS)) with true
      by (symmetry; apply andb_true_intro; split; [lia|unfold PERF_MAX_THREADS; lia]).
    cbn [set_active_threads thread_data]. by rewrite Hold. }
  assert (Htd : thread_data s3 = <[Z.to_nat id := slot]> (thread_data s)).
  { unfold s3. by destruct (_ <? _). }
  assert (Hat : active_threads s3 = id + 1).
  { unfold s3. destruct (_ <? _); simpl; apply wrap_int_small; lia. }
  assert (Hcfg : config s3 = config s).
  { unfold s3. by destruct (_ <? _). }
  assert (Hin : (id <? 0) || (PERF_MAX_THREADS <=? id) = false).
  { apply orb_false_intro; [lia|unfold PERF_MAX_THREADS; lia]. }
  exists w', slot. split; [exact Hreg|].
  split.
  { unfold perf_get_thread_data. rewrite Hin. cbn [w' g_perf_context].
    rewrite Htd. apply list_lookup_insert_eq. lia. }
  do 3 (split; [done|]). split.
  { intros j Hj. unfold perf_get_thread_data.
    destruct ((j <? 0) || (PERF_MAX_THREADS <=? j)) eqn:Hout; [done|].
    cbn [w' g_perf_context]. rewrite Htd. apply list_lookup_insert_ne.
    apply orb_false_elim in Hout as [H1 H2]. lia. }
  split.
  { intros j s0 Hj. unfold perf_get_thread_data.
    replace ((j <? 0) || (PERF_MAX_THREADS <=? j)) with true; [done|].
    symmetry. apply orb_true_intro. destruct Hj; [left|right]; lia. }
  cbv zeta. unfold perf_unregister_thread. cbn [w' g_perf_context tls_thread_key].
  rewrite Hcfg, He, Ht. cbn [negb orb].
  unfold get_thread_id, set_thread_id. rewrite lookup_insert_eq.
  replace ((0 <=? id) && (id <? PERF_MAX_THREADS)) with true
    by (symmetry; apply andb_true_intro; split; [lia|unfold PERF_MAX_THREADS; lia]).
  rewrite Htd, list_lookup_insert_eq by lia.
  cbn [g_perf_context perf_get_thread_count active_threads set_active_threads
       set_thread_data].
  split.
  { rewrite Hat. replace (id + 1 - 1) with id by lia. apply wrap_int_small. lia. }
  eexists. split.
  { unfold perf_get_thread_data. rewrite Hin. cbn [thread_data].
    apply list_lookup_insert_eq. rewrite length_insert. lia. }
  by repeat split.
Qed.

Lemma register_then_get_thread_data_witness :
  context_ok (g_perf_context fresh_world)
  /\ exists w' slot,
      perf_register_thread 7%N (mk_timespec 100 1) fresh_world = Ok (0, w')
      /\ perf_get_thread_data 0 (g_perf_context w') = Some slot
      /\ thread_id slot = 0
      /\ start_time slot = perf_get_timestamp (mk_timespec 100 1)
      /\ perf_get_thread_data 256 (g_perf_context w') = None
      /\ perf_get_thread_count
           (g_perf_context (perf_unregister_thread 7%N (mk_timespec 100 9) w')) = 0.
Proof.
  split; [apply fresh_world_ok|].
  destruct (register_then_get_thread_data 7%N (mk_timespec 100 1) (mk_timespec 100 9)
              fresh_world fresh_world_ok eq_refl eq_refl)
    as (w' & slot & Hr & Hs & Hid & _ & Hst & _ & Hout & Hun & _).
  { change (active_threads (g_perf_context fresh_world)) with 0.
    unfold PERF_MAX_THREADS. lia. }
  exists w', slot. split; [exact Hr|]. split; [exact Hs|]. split; [exact Hid|].
  split; [exact Hst|]. split; [|exact Hun].
  apply Hout. right. unfold PERF_MAX_THREADS. lia.
Defined.

(** X15.  [perf_unregister_thread] never checks that the calling thread
    is registered: a thread that never registered writes no slot, but the
    thread count is still decremented.  From a count of 0 it becomes -1,
    and the [perf_register_thread] that follows takes -1 as its index,
    which is outside the thread table. *)
Theorem unregister_without_register (t : os_thread) (now : timespec) (w : perf_world) :
  let s := g_perf_context w in
  let w' := perf_unregister_thread t now w in
  truthy (enabled (config s)) = true -> truthy (track_threads (config s)) = true ->
  tls_thread_key w !! t = None ->
  thread_data (g_perf_context w') = thread_data s
  /\ perf_get_thread_count (g_perf_context w') = wrap_int (active_threads s - 1)
  /\ tls_thread_key w' !! t = Some (-1)
  /\ (active_threads s = 0 ->
      perf_get_thread_count (g_perf_context w') = -1
      /\ forall t' now',
           perf_register_thread t' now' w' = Fault (OutOfBounds (-1))).
Proof.
  intros s w' He Ht Htls.
  assert (Hw' : w' = mk_world (set_active_threads (wrap_int (active_threads s - 1)) s)
                       (<[t := -1]> (tls_thread_key w)) (cpu_static w) (streams w)).
  { unfold w', perf_unregister_thread. fold s. rewrite He, Ht. cbn [negb orb].
    unfold get_thread_id. rewrite Htls. reflexivity. }
  rewrite Hw'. cbn [g_perf_context tls_thread_key thread_data set_active_threads
                    perf_get_thread_count active_threads].
  split; [done|]. split; [done|]. split; [apply lookup_insert_eq|].
  intros H0. rewrite H0. split; [reflexivity|].
  intros t' now'. unfold perf_register_thread.
  cbn [g_perf_context config set_active_threads active_threads].
  rewrite He, Ht. reflexivity.
Qed.

Lemma unregister_without_register_witness :
  tls_thread_key fresh_world !! 7%N = None
  /\ perf_get_thread_count
       (g_perf_context (perf_unregister_thread 7%N (mk_timespec 100 1) fresh_world)) = -1
  /\ perf_register_thread 8%N (mk_timespec 100 2)
       (perf_unregister_thread 7%N (mk_timespec 100 1) fresh_world)
     = Fault (OutOfBounds (-1)).
Proof.
  split; [reflexivity|].
  destruct (unregister_without_register 7%N (mk_timespec 100 1) fresh_world
              eq_refl eq_refl eq_refl) as (_ & _ & _ & H).
  destruct (H eq_refl) as [H1 H2]. split; [exact H1|apply H2].
Defined.

(** *** Milestone names *)

Lemma milestone_names_NoDup : NoDup milestone_names.
Proof. apply (bool_decide_unpack _). vm_compute. reflexivity. Qed.

Lemma milestone_name_lookup (m : perf_milestone_t) :
  (m < PERF_MILESTONE_COUNT)%N ->
  milestone_names !! N.to_nat m = Some (perf_milestone_name m).
Proof.
  intros Hm. unfold perf_milestone_name.
  destruct (N.ltb_spec m PERF_MILESTONE_COUNT); [|lia].
  destruct (lookup_lt_is_Some_2 milestone_names (N.to_nat m)) as [x Hx].
  { rewrite milestone_names_length. lia. }
  rewrite Hx. f_equal. symmetry. by apply nth_lookup_Some.
Qed.

(** X16.  [perf_milestone_name] is a faithful key: two milestones of the
    enumeration never share a name, no name of the enumeration is
    ["UNKNOWN"], which is the name of every value outside it, and no name
    contains a comma or a newline, so that the milestone column of a CSV
    row identifies the milestone. *)
Theorem milestone_name_injective (m1 m2 : perf_milestone_t) :
  ((m1 < PERF_MILESTONE_COUNT)%N -> (m2 < PERF_MILESTONE_COUNT)%N ->
   perf_milestone_name m1 = perf_milestone_name m2 -> m1 = m2)
  /\ ((m1 < PERF_MILESTONE_COUNT)%N <-> perf_milestone_name m1 <> "UNKNOWN"%string)
  /\ has_newline (perf_milestone_name m1) = false
  /\ index 0 "," (perf_milestone_name m1) = None.
Proof.
  split; [|split; [|split]].
  - intros H1 H2 Heq.
    pose proof (milestone_name_lookup m1 H1) as L1.
    pose proof (milestone_name_lookup m2 H2) as L2.
    rewrite Heq in L1.
    pose proof (NoDup_lookup _ _ _ _ milestone_names_NoDup L1 L2). lia.
  - split.
    + intros H1 Hu. pose proof (milestone_name_lookup m1 H1) as L1. rewrite Hu in L1.
      apply list_elem_of_lookup_2 in L1.
      assert (Hn : "UNKNOWN"%string ∉ milestone_names)
        by (apply (bool_decide_unpack _); vm_compute; reflexivity).
      by apply Hn.
    + intros Hne. destruct (N.ltb_spec m1 PERF_MILESTONE_COUNT) as [|Hge]; [done|].
      exfalso. apply Hne. unfold perf_milestone_name.
      by destruct (N.ltb_spec m1 PERF_MILESTONE_COUNT); [lia|].
  - apply milestone_name_no_newline.
  - destruct (N.ltb_spec m1 PERF_MILESTONE_COUNT) as [H1|Hge].
    + pose proof (milestone_name_lookup m1 H1) as L1.
      apply list_elem_of_lookup_2 in L1.
      assert (Hall : Forall (fun n => index 0 "," n = None) milestone_names).
      { apply (bool_decide_unpack _). vm_compute. reflexivity. }
      rewrite Forall_forall in Hall. by apply Hall.
    + unfold perf_milestone_name.
      by destruct (N.ltb_spec m1 PERF_MILESTONE_COUNT); [lia|].
Qed.

(* ====================================================================== *)
(** * Statistics and the summary *)

(** *** The order of [double] values *)

Ltac compare_cases :=
  repeat match goal with
         | H : context [(?a ?= ?b)%Z] |- _ =>
             destruct (Z.compare_spec a b); try discriminate H
         | |- context [(?a ?= ?b)%Z] => destruct (Z.compare_spec a b)
         | H : context [(?a ?= ?b)%positive] |- _ =>
             destruct (Pos.compare_spec a b); try discriminate H
         | |- context [(?a ?= ?b)%positive] => destruct (Pos.compare_spec a b)
         end.

Lemma SFleb_trans (x y z : spec_float) :
  SFleb x y = true -> SFleb y z = true -> SFleb x z = true.
Proof.
  unfold SFleb, SFcompare.
  change Pos.compare_cont with (fun c a b => Pos.compare_cont c a b).
  destruct x as [[]|[]| |[] mx ex], y as [[]|[]| |[] my ey], z as [[]|[]| |[] mz ez];
    try done; cbv beta; fold (Pos.compare mx my) (Pos.compare my mz) (Pos.compare mx mz);
    intros H1 H2; compare_cases; simpl in *; try done; try lia.
Qed.

Lemma SFleb_refl (x : spec_float) : SFeqb x x = true -> SFleb x x = true.
Proof.
  unfold SFleb, SFeqb. by destruct (SFcompare x x) as [[]|].
Qed.

Lemma SFeqb_refl (x : spec_float) : x <> S754_nan -> SFeqb x x = true.
Proof.
  unfold SFeqb, SFcompare. destruct x as [[]|[]| |[] m e]; try done; intros _.
  - by rewrite Z.compare_refl, Pos.compare_cont_refl.
  - by rewrite Z.compare_refl, Pos.compare_cont_refl.
Qed.

Lemma SFltb_leb (x y : spec_float) : SFltb x y = true -> SFleb x y = true.
Proof. unfold SFltb, SFleb. by destruct (SFcompare x y) as [[]|]. Qed.

Lemma SFcompare_opp (x y : spec_float) :
  SFcompare y x = option_map CompOpp (SFcompare x y).
Proof.
  unfold SFcompare.
  destruct x as [[]|[]| |[] mx ex], y as [[]|[]| |[] my ey]; try done; simpl;
    fold (Pos.compare mx my) (Pos.compare my mx);
    compare_cases; simpl; try done; try lia.
Qed.

Lemma SFnot_ltb_leb (x y : spec_float) :
  SFeqb x x = true -> SFeqb y y = true -> SFltb x y = false -> SFleb y x = true.
Proof.
  intros Hx Hy. unfold SFltb, SFleb. rewrite (SFcompare_opp x y).
  assert (Hsome : exists c, SFcompare x y = Some c).
  { unfold SFeqb in Hx, Hy. unfold SFcompare in *.
    destruct x as [[]|[]| |[] mx ex], y as [[]|[]| |[] my ey]; try done; eauto. }
  destruct Hsome as [c ->]. by destruct c.
Qed.

Lemma is_number_spec (x : double) : is_number x -> SFeqb (Prim2SF x) (Prim2SF x) = true.
Proof.
  unfold is_number, is_nan. rewrite FloatAxioms.eqb_spec.
  by destruct (SFeqb _ _).
Qed.

Lemma double_leb_refl (x : double) : is_number x -> (x <=? x)%float = true.
Proof. intros Hx. rewrite leb_spec. by apply SFleb_refl, is_number_spec. Qed.

Lemma double_leb_trans (x y z : double) :
  (x <=? y)%float = true -> (y <=? z)%float = true -> (x <=? z)%float = true.
Proof. rewrite !leb_spec. apply SFleb_trans. Qed.

Lemma double_ltb_leb (x y : double) : (x <? y)%float = true -> (x <=? y)%float = true.
Proof. rewrite ltb_spec, leb_spec. apply SFltb_leb. Qed.

Lemma double_not_ltb_leb (x y : double) :
  is_number x -> is_number y -> (x <? y)%float = false -> (y <=? x)%float = true.
Proof.
  intros Hx Hy. rewrite ltb_spec, leb_spec.
  apply SFnot_ltb_leb; by apply is_number_spec.
Qed.

(** *** Minimum and maximum of the samples *)

Lemma stats_scan_step (seen : list double) (mn mx sum x : double) :
  extremes_of seen mn mx ->
  extremes_of (seen ++ [x])
    (if (x <? mn)%float then x else mn) (if (mx <? x)%float then x else mx).
Proof.
  intros (Hmn & Hmx & Hord).
  split; [|split].
  - destruct (x <? mn)%float; apply elem_of_app; [right; by apply list_elem_of_singleton|by left].
  - destruct (mx <? x)%float; apply elem_of_app; [right; by apply list_elem_of_singleton|by left].
  - intros [Hseen Hx]%Forall_app. rewrite Forall_singleton in Hx.
    specialize (Hord Hseen).
    assert (Hnmn : is_number mn) by (rewrite Forall_forall in Hseen; by apply Hseen).
    assert (Hnmx : is_number mx) by (rewrite Forall_forall in Hseen; by apply Hseen).
    apply Forall_app. split.
    + eapply Forall_impl; [exact Hord|]. intros y [H1 H2]. split.
      * destruct (x <? mn)%float eqn:Hlt; [|done].
        eapply double_leb_trans; [|exact H1]. by apply double_ltb_leb.
      * destruct (mx <? x)%float eqn:Hlt; [|done].
        eapply double_leb_trans; [exact H2|]. by apply double_ltb_leb.
    + apply Forall_singleton. split.
      * destruct (x <? mn)%float eqn:Hlt; [by apply double_leb_refl|].
        by apply double_not_ltb_leb.
      * destruct (mx <? x)%float eqn:Hlt; [by apply double_leb_refl|].
        by apply double_not_ltb_leb.
Qed.

Lemma stats_scan_fold (rest seen : list double) (mn mx sum : double) :
  extremes_of seen mn mx ->
  let '(mn', mx', _) :=
    fold_left (fun '(mn, mx, sum) x =>
                 ((if (x <? mn)%float then x else mn),
                  (if (mx <? x)%float then x else mx),
                  (sum + x)%float))
              rest (mn, mx, sum) in
  extremes_of (seen ++ rest) mn' mx'.
Proof.
  revert seen mn mx sum. induction rest as [|x rest IH]; intros seen mn mx sum Hext.
  - simpl. by rewrite app_nil_r.
  - simpl. replace (seen ++ x :: rest) with ((seen ++ [x]) ++ rest)
      by (by rewrite <- app_assoc).
    apply IH. by apply stats_scan_step.
Qed.

Lemma stats_scan_extremes (first : double) (rest : list double) :
  let '(mn, mx, _) := stats_scan first (first :: rest) in
  extremes_of (first :: rest) mn mx.
Proof.
  unfold stats_scan.
  pose proof (stats_scan_fold (first :: rest) [first] first first 0%float) as H.
  destruct (fold_left _ _ _) as [[mn mx] sum].
  assert (H0 : extremes_of [first] first first).
  { split; [by apply list_elem_of_singleton|]. split; [by apply list_elem_of_singleton|].
    intros Hn. rewrite Forall_singleton in Hn. apply Forall_singleton.
    split; by apply double_leb_refl. }
  specialize (H H0). destruct H as (Hmn & Hmx & Hord).
  split; [|split].
  - apply elem_of_cons in Hmn as [->|Hmn]; [apply elem_of_cons; by left|done].
  - apply elem_of_cons in Hmx as [->|Hmx]; [apply elem_of_cons; by left|done].
  - intros Hn. assert (Hn' : Forall is_number ([first] ++ first :: rest)).
    { apply Forall_app. split; [|done]. apply Forall_singleton.
      by apply Forall_cons_1 in Hn as [? _]. }
    specialize (Hord Hn'). by apply Forall_app in Hord as [_ ?].
Qed.

(** X17.  When the buffer holds records of kind [m] (and the allocation
    succeeds) [perf_get_milestone_statistics] returns 0 with the number of
    those records as [sample_count]; [min] and [max] are durations of two
    of those records, and when no duration is a NaN every duration of the
    kind lies between them.  The median and the percentiles are left at
    0. *)
Theorem statistics_extremes (m : perf_milestone_t) (old : perf_statistics_t)
    (s : perf_context_t) :
  context_ok s -> (m < PERF_MILESTONE_COUNT)%N -> samples_of m s <> [] ->
  exists st,
    perf_get_milestone_statistics m (Some old) true s = Ok (0, Some st)
    /\ sample_count st = N.of_nat (length (samples_of m s))
    /\ stat_min st ∈ samples_of m s
    /\ stat_max st ∈ samples_of m s
    /\ (Forall is_number (samples_of m s) ->
        Forall (fun x => (stat_min st <=? x)%float = true
                         /\ (x <=? stat_max st)%float = true) (samples_of m s))
    /\ median st = 0%float /\ percentile_95 st = 0%float /\ percentile_99 st = 0%float.
Proof.
  intros Hok Hm Hne. unfold perf_get_milestone_statistics.
  destruct (N.leb_spec PERF_MILESTONE_COUNT m); [lia|]. cbn [negb].
  rewrite (published_records s Hok). cbn [mbind result_bind].
  fold (samples_of m s).
  destruct (samples_of m s) as [|first rest] eqn:Hs; [done|].
  pose proof (stats_scan_extremes first rest) as Hext.
  destruct (stats_scan first (first :: rest)) as [[mn mx] sum].
  destruct Hext as (Hmn & Hmx & Hord).
  eexists. split; [reflexivity|]. cbn [sample_count stat_min stat_max median
                                        percentile_95 percentile_99].
  by repeat split.
Qed.

Lemma two_events_samples :
  samples_of PERF_MILESTONE_USER_1 (g_perf_context two_events_world)
  = [1.25; 2.5]%float.
Proof. vm_compute. reflexivity. Qed.

Lemma statistics_extremes_witness :
  context_ok (g_perf_context two_events_world)
  /\ (PERF_MILESTONE_USER_1 < PERF_MILESTONE_COUNT)%N
  /\ exists st,
      perf_get_milestone_statistics PERF_MILESTONE_USER_1 (Some used_statistics) true
        (g_perf_context two_events_world) = Ok (0, Some st)
      /\ sample_count st = 2%N
      /\ (stat_min st <=? 1.25)%float = true
      /\ (2.5 <=? stat_max st)%float = true.
Proof.
  pose proof two_events_world_ok as (Hok & _).
  split; [exact Hok|]. split; [reflexivity|].
  destruct (statistics_extremes PERF_MILESTONE_USER_1 used_statistics
              (g_perf_context two_events_world) Hok eq_refl)
    as (st & Hr & Hn & _ & _ & Hord & _).
  { by rewrite two_events_samples. }
  rewrite two_events_samples in Hn, Hord.
  exists st. split; [exact Hr|]. split; [exact Hn|].
  assert (Hnum : Forall is_number [1.25; 2.5]%float) by (by repeat constructor).
  specialize (Hord Hnum).
  apply Forall_cons_1 in Hord as [[H1 _] Hord].
  apply Forall_cons_1 in Hord as [[_ H2] _].
  by split.
Defined.

(** *** The summary *)

Lemma milestone_statistics_slot (m : perf_milestone_t) (old : perf_statistics_t)
    (ok : bool) (s : perf_context_t) :
  context_ok s -> (m < PERF_MILESTONE_COUNT)%N ->
  exists r st,
    perf_get_milestone_statistics m (Some old) ok s = Ok (r, Some st)
    /\ (forall old', perf_get_milestone_statistics m (Some old') ok s = Ok (r, Some st))
    /\ (ok = true -> sample_count st = N.of_nat (length (samples_of m s)))
    /\ (samples_of m s = [] \/ ok = false -> st = zero_statistics).
Proof.
  intros Hok Hm. unfold perf_get_milestone_statistics.
  destruct (N.leb_spec PERF_MILESTONE_COUNT m); [lia|].
  destruct ok; cbn [negb].
  - rewrite (published_records s Hok). cbn [mbind result_bind].
    fold (samples_of m s).
    destruct (samples_of m s) as [|first rest] eqn:Hs.
    + exists (-1), zero_statistics. by repeat split.
    + destruct (stats_scan first (first :: rest)) as [[mn mx] sum].
      eexists _, _. split; [reflexivity|]. split; [done|]. split; [done|].
      by intros [|].
  - exists (-1), zero_statistics. by repeat split.
Qed.

Lemma summary_statistics_slots (malloc_ok : perf_milestone_t -> bool)
    (s : perf_context_t) (n : nat) (i : perf_milestone_t)
    (stats : list perf_statistics_t) :
  context_ok s ->
  length stats = N.to_nat PERF_MILESTONE_COUNT ->
  (N.to_nat i + n <= N.to_nat PERF_MILESTONE_COUNT)%nat ->
  exists stats',
    summary_statistics n i malloc_ok s stats = Ok stats'
    /\ length stats' = N.to_nat PERF_MILESTONE_COUNT
    /\ (forall j, (j < N.to_nat i \/ N.to_nat i + n <= j)%nat -> stats' !! j = stats !! j)
    /\ (forall m, (N.to_nat i <= N.to_nat m < N.to_nat i + n)%nat ->
                  exists st,
                    stats' !! N.to_nat m = Some st
                    /\ (malloc_ok m = true ->
                        sample_count st = N.of_nat (length (samples_of m s)))
                    /\ (samples_of m s = [] \/ malloc_ok m = false ->
                        st = zero_statistics)).
Proof.
  intros Hok. revert i stats. induction n as [|n IH]; intros i stats Hlen Hin.
  - exists stats. split; [done|]. split; [done|]. split; [done|]. intros m ?. lia.
  - destruct (lookup_lt_is_Some_2 stats (N.to_nat i)) as [old Hold]; [lia|].
    cbn [summary_statistics]. rewrite Hold.
    destruct (milestone_statistics_slot i old (malloc_ok i) s Hok)
      as (r & st & Hr & _ & Hcount & Hzero); [lia|].
    rewrite Hr. cbn [mbind result_bind snd].
    destruct (IH (i + 1)%N (<[N.to_nat i := st]> stats))
      as (stats' & Hrun & Hlen' & Hframe & Hslots).
    { by rewrite length_insert. }
    { lia. }
    exists stats'. split; [exact Hrun|]. split; [exact Hlen'|]. split.
    + intros j Hj. rewrite Hframe by lia. apply list_lookup_insert_ne. lia.
    + intros m Hmr. destruct (decide (m = i)) as [->|Hne].
      * exists st. split; [|by split].
        rewrite Hframe by lia. apply list_lookup_insert_eq. lia.
      * apply Hslots. lia.
Qed.

Lemma filter_split_length (l : list perf_metrics_t) (n : nat) :
  length (filter (fun e => (milestone e < N.of_nat (S n))%N) l)
  = (length (filter (fun e => (milestone e < N.of_nat n)%N) l)
     + length (filter (fun e => milestone e = N.of_nat n) l))%nat.
Proof.
  induction l as [|e l IH]; [done|].
  rewrite !filter_cons.
  destruct (decide (milestone e < N.of_nat (S n))%N),
           (decide (milestone e < N.of_nat n)%N),
           (decide (milestone e = N.of_nat n)); simpl; lia.
Qed.

Lemma count_by_milestone (l : list perf_metrics_t) (n : nat) :
  sum_list_with (fun k => length (filter (fun e => milestone e = N.of_nat k) l))
    (seq 0 n)
  = length (filter (fun e => (milestone e < N.of_nat n)%N) l).
Proof.
  induction n as [|n IH].
  - simpl. induction l as [|e l IHl]; [done|].
    rewrite filter_cons. destruct (decide _); [lia|done].
  - rewrite seq_S, sum_list_with_app, IH, filter_split_length. simpl. lia.
Qed.

Lemma sum_list_with_slots {A : Type} (f : A -> nat) (g : nat -> nat) (l : list A) :
  (forall j, (j < length l)%nat -> exists x, l !! j = Some x /\ f x = g j) ->
  sum_list_with f l = sum_list_with g (seq 0 (length l)).
Proof.
  induction l as [|x l IH] using rev_ind; [done|].
  intros Hslots. rewrite length_app. simpl length.
  replace (length l + 1)%nat with (S (length l)) by lia.
  rewrite seq_S, !sum_list_with_app. simpl. f_equal.
  - apply IH. intros j Hj. destruct (Hslots j) as (y & Hy & Hfy).
    { rewrite length_app. simpl. lia. }
    exists y. split; [|done]. by rewrite lookup_app_l in Hy.
  - destruct (Hslots (length l)) as (y & Hy & Hfy).
    { rewrite length_app. simpl. lia. }
    rewrite lookup_app_r, Nat.sub_diag in Hy by lia. injection Hy as <-. lia.
Qed.

Lemma summary_statistics_total (malloc_ok : perf_milestone_t -> bool)
    (s : perf_context_t) :
  context_ok s ->
  exists stats,
    summary_statistics (N.to_nat PERF_MILESTONE_COUNT) 0%N malloc_ok s
      (timing_stats zero_summary) = Ok stats
    /\ length stats = N.to_nat PERF_MILESTONE_COUNT
    /\ (forall m, (m < PERF_MILESTONE_COUNT)%N ->
                  exists st,
                    stats !! N.to_nat m = Some st
                    /\ (malloc_ok m = true ->
                        sample_count st = N.of_nat (length (samples_of m s)))
                    /\ (samples_of m s = [] \/ malloc_ok m = false ->
                        st = zero_statistics))
    /\ ((forall m, malloc_ok m = true) ->
        sum_list_with (fun st => N.to_nat (sample_count st)) stats
        = length (filter (fun e => (milestone e < PERF_MILESTONE_COUNT)%N)
                    (records s))).
Proof.
  intros Hok.
  destruct (summary_statistics_slots malloc_ok s (N.to_nat PERF_MILESTONE_COUNT) 0%N
              (timing_stats zero_summary) Hok)
    as (stats & Hrun & Hlen & _ & Hslots).
  { apply length_replicate. }
  { lia. }
  exists stats. split; [exact Hrun|]. split; [exact Hlen|]. split.
  - intros m Hm. apply Hslots. lia.
  - intros Hall.
    change PERF_MILESTONE_COUNT with (N.of_nat (N.to_nat PERF_MILESTONE_COUNT)) at 1.
    rewrite <- count_by_milestone, <- Hlen.
    apply sum_list_with_slots. intros j Hj.
    destruct (Hslots (N.of_nat j)) as (st & Hst & Hcount & _); [lia|].
    rewrite Nat2N.id in Hst. exists st. split; [exact Hst|].
    rewrite (Hcount (Hall _)). unfold samples_of. rewrite length_fmap. lia.
Qed.

(** X18.  [perf_get_summary] returns -1 for a null pointer and 0
    otherwise, whatever the per-milestone calls return.  The summary
    carries the run time since the program start, the [VmPeak] value, the
    thread and allocation counters of the context, and an average CPU
    percentage that is always 0.  Slot [m] of [timing_stats] counts the
    records of kind [m] and is all zero when there is none; when every
    allocation succeeds the sample counts of the slots add up to the
    number of records whose kind is a milestone of the enumeration. *)
Theorem summary_counts_records (old : perf_summary_t) (now : timespec)
    (status : option proc_status_t) (malloc_ok : perf_milestone_t -> bool)
    (s : perf_context_t) :
  context_ok s ->
  perf_get_summary None now status malloc_ok s = Ok (-1, None)
  /\ exists sm,
      perf_get_summary (Some old) now status malloc_ok s = Ok (0, Some sm)
      /\ summary_total_runtime_ms sm
         = perf_timestamp_diff_ms (Some (program_start_time s))
             (Some (perf_get_timestamp now))
      /\ summary_peak_memory_kb sm
         = match status with
           | Some st => default 0%N (VmPeak st)
           | None => 0%N
           end
      /\ avg_cpu_percent sm = 0%float
      /\ max_threads sm = max_threads_used s
      /\ total_allocations sm = allocation_counter s
      /\ total_bytes_allocated sm = bytes_allocated s
      /\ length (timing_stats sm) = N.to_nat PERF_MILESTONE_COUNT
      /\ (forall m, (m < PERF_MILESTONE_COUNT)%N ->
                    exists st,
                      timing_stats sm !! N.to_nat m = Some st
                      /\ (malloc_ok m = true ->
                          sample_count st = N.of_nat (length (samples_of m s)))
                      /\ (samples_of m s = [] \/ malloc_ok m = false ->
                          st = zero_statistics))
      /\ ((forall m, malloc_ok m = true) ->
          sum_list_with (fun st => N.to_nat (sample_count st)) (timing_stats sm)
          = length (filter (fun e => (milestone e < PERF_MILESTONE_COUNT)%N)
                      (records s))).
Proof.
  intros Hok. split; [done|].
  destruct (summary_statistics_total malloc_ok s Hok)
    as (stats & Hrun & Hlen & Hslots & Hsum).
  unfold perf_get_summary. rewrite Hrun. cbn [mbind result_bind].
  eexists. split; [reflexivity|].
  cbn [summary_total_runtime_ms summary_peak_memory_kb avg_cpu_percent max_threads
       total_allocations total_bytes_allocated timing_stats].
  split; [done|]. split; [by destruct status|]. split; [done|].
  do 3 (split; [done|]). split; [exact Hlen|]. by split.
Qed.

Lemma summary_counts_records_witness :
  context_ok (g_perf_context two_events_world)
  /\ exists sm,
      perf_get_summary (Some zero_summary) (mk_timespec 103 0) None (fun _ => true)
        (g_perf_context two_events_world) = Ok (0, Some sm)
      /\ (exists st, timing_stats sm !! N.to_nat PERF_MILESTONE_USER_1 = Some st
                     /\ sample_count st = 2%N)
      /\ (exists st, timing_stats sm !! N.to_nat PERF_MILESTONE_CLUSTERING_START = Some st
                     /\ st = zero_statistics)
      /\ sum_list_with (fun st => N.to_nat (sample_count st)) (timing_stats sm) = 2%nat.
Proof.
  pose proof two_events_world_ok as (Hok & _).
  split; [exact Hok|].
  destruct (summary_counts_records zero_summary (mk_timespec 103 0) None (fun _ => true)
              (g_perf_context two_events_world) Hok)
    as (_ & sm & Hr & _ & _ & _ & _ & _ & _ & _ & Hslots & Hsum).
  exists sm. split; [exact Hr|]. split; [|split].
  - destruct (Hslots PERF_MILESTONE_USER_1 eq_refl) as (st & Hst & Hcount & _).
    exists st. split; [exact Hst|]. rewrite (Hcount eq_refl), two_events_samples.
    reflexivity.
  - destruct (Hslots PERF_MILESTONE_CLUSTERING_START eq_refl) as (st & Hst & _ & Hz).
    exists st. split; [exact Hst|]. apply Hz. left. vm_compute. reflexivity.
  - rewrite (Hsum (fun _ => eq_refl)). vm_compute. reflexivity.
Defined.

(** *** The kinds of the records *)

Lemma kind_effect_none (s s' : perf_context_t) :
  context_ok s -> log_effect s s' None -> kind_effect s s'.
Proof. intros Hok Heff. left. exact (records_effect s s' None Hok Heff). Qed.

Lemma kind_effect_publish (e' : perf_metrics_t) (l : list perf_metrics_t)
    (s : perf_context_t) :
  context_ok s -> (log_count s < log_capacity s)%N -> log_entries s = Some l ->
  kind_in_range e' -> kind_effect s (publish e' l s).
Proof.
  intros Hok Hlt Hl Hk. right. right. exists e'. split; [|done].
  by apply records_publish.
Qed.

Lemma event_kind (lbl : option string) (value : double) (ctx : option string)
    (now : timespec) (s s' : perf_context_t) :
  context_ok s ->
  perf_log_event_with_context lbl value ctx now s = Ok s' -> kind_effect s s'.
Proof.
  intros Hok Hrun.
  destruct lbl as [l0|], (truthy (enabled (config s))) eqn:He,
           (N.ltb_spec (log_count s) (log_capacity s)) as [Hlt|Hge].
  - destruct (event_publishes s l0 value ctx now Hok He Hlt) as (l & e & Hl & Hle & Hp).
    rewrite Hp in Hrun. injection Hrun as <-.
    by apply kind_effect_publish.
  - apply kind_effect_none; [done|].
    pose proof (event_effect (Some l0) value ctx now s s' Hok Hrun) as Heff.
    rewrite He in Heff. cbn [andb] in Heff.
    destruct (N.ltb_spec (log_count s) (log_capacity s)); [lia|].
    by rewrite andb_false_r in Heff.
  - apply kind_effect_none; [done|].
    pose proof (event_effect (Some l0) value ctx now s s' Hok Hrun) as Heff.
    by rewrite He in Heff.
  - apply kind_effect_none; [done|].
    pose proof (event_effect (Some l0) value ctx now s s' Hok Hrun) as Heff.
    by rewrite He in Heff.
  - injection Hrun as <-. by left.
  - injection Hrun as <-. by left.
  - injection Hrun as <-. by left.
  - injection Hrun as <-. by left.
Qed.

Lemma iteration_kind (i : Z) (metric : double) (now : timespec)
    (s s' : perf_context_t) :
  context_ok s -> perf_log_iteration i metric now s = Ok s' -> kind_effect s s'.
Proof.
  intros Hok Hrun.
  pose proof (iteration_effect i metric now s s' Hok Hrun) as Heff.
  destruct (truthy (enabled (config s))) eqn:He,
           (N.ltb_spec (log_count s) (log_capacity s)) as [Hlt|Hge];
    cbn [andb] in Heff; try (by apply kind_effect_none).
  destruct (iteration_publishes s i metric now Hok He Hlt) as (l & e & Hl & Hle & Hp).
  rewrite Hp in Hrun. injection Hrun as <-.
  by apply kind_effect_publish.
Qed.

Lemma algorithm_step_kind (a st : option string) (metric : double) (now : timespec)
    (s s' : perf_context_t) :
  context_ok s -> perf_log_algorithm_step a st metric now s = Ok s' -> kind_effect s s'.
Proof.
  intros Hok Hrun. unfold perf_log_algorithm_step in Hrun.
  destruct a, st; try (injection Hrun as <-; by left).
  destruct (negb (truthy (enabled (config s)))); [injection Hrun as <-; by left|].
  by eapply event_kind.
Qed.

Lemma end_kind (m : perf_milestone_t) (lbl : option string) (os : os_probe)
    (w w' : perf_world) :
  context_ok (g_perf_context w) ->
  perf_end_milestone_labeled m lbl os w = Ok w' ->
  kind_effect (g_perf_context w) (g_perf_context w').
Proof.
  intros Hok Hrun.
  pose proof (end_effect m lbl os w w' Hok Hrun) as Heff.
  destruct (publishes (CallEndMilestoneLabeled m lbl os) w) eqn:Hpub;
    [|by apply kind_effect_none].
  set (s := g_perf_context w) in *.
  unfold publishes, publish_attempt in Hpub. fold s in Hpub.
  apply andb_prop in Hpub as [Hatt Hlt].
  apply andb_prop in Hatt as [He Hact].
  apply andb_prop in Hact as [Hm Hact].
  apply N.ltb_lt in Hm, Hlt.
  destruct (milestone_slots s m Hok Hm) as (a & start & Ha & Hst).
  rewrite Ha in Hact.
  destruct (write_entry_ok id s Hok Hlt) as (l & e & Hl & Hle & _).
  destruct (end_active_publishes m lbl os w a start l e Hok He Hm Ha Hact Hst Hlt Hl Hle)
    as (w'' & e' & Hend & Hc & Hcap & Hl' & _ & _ & Hk & _).
  rewrite Hend in Hrun. injection Hrun as <-.
  right. right. exists e'. split; [|unfold kind_in_range; by rewrite Hk].
  rewrite <- (records_publish e' l s Hok Hlt Hl).
  unfold records. rewrite Hl', Hc. reflexivity.
Qed.

Lemma perf_call_kind (c : api_call) (w w' : perf_world) :
  context_ok (g_perf_context w) -> perf_call c w = Ok w' ->
  kind_effect (g_perf_context w) (g_perf_context w').
Proof.
  intros Hok Hrun. destruct c; simpl in Hrun.
  - injection Hrun as <-. apply kind_effect_none; [done|]. by apply start_effect.
  - injection Hrun as <-. apply kind_effect_none; [done|]. by apply start_effect.
  - by apply (end_kind m (Some EmptyString) os).
  - by apply (end_kind m lbl os).
  - unfold on_context_r in Hrun.
    destruct (perf_log_event _ _ _ _) as [s'|] eqn:Hs; [|done].
    injection Hrun as <-. by apply (event_kind lbl value (Some EmptyString) now).
  - unfold on_context_r in Hrun.
    destruct (perf_log_event_with_context _ _ _ _ _) as [s'|] eqn:Hs; [|done].
    injection Hrun as <-. by apply (event_kind lbl value ctx now).
  - unfold on_context_r in Hrun.
    destruct (perf_log_iteration _ _ _ _) as [s'|] eqn:Hs; [|done].
    injection Hrun as <-. by apply (iteration_kind iteration metric now).
  - unfold on_context_r in Hrun.
    destruct (perf_log_algorithm_step _ _ _ _ _) as [s'|] eqn:Hs; [|done].
    injection Hrun as <-. by apply (algorithm_step_kind algorithm step metric now).
  - injection Hrun as <-. cbn [g_perf_context set_context]. unfold perf_reset.
    destruct (negb _); [by left|]. right. left. unfold records. simpl.
    by destruct (log_entries _).
  - injection Hrun as <-. by left.
  - destruct (perf_register_thread t now w) as [[id w'']|] eqn:Hreg; [|done].
    injection Hrun as <-. apply kind_effect_none; [done|].
    by apply (register_effect t now w w'' id).
  - injection Hrun as <-. apply kind_effect_none; [done|]. by apply unregister_effect.
  - left. by rewrite (flush_context w w' Hok Hrun).
  - left. by rewrite (export_csv_context _ _ w w' Hok Hrun).
Qed.

Lemma run_kinds (calls : list api_call) (w w' : perf_world) :
  context_ok (g_perf_context w) -> perf_run calls w = Ok w' ->
  Forall kind_in_range (records (g_perf_context w)) ->
  Forall kind_in_range (records (g_perf_context w')).
Proof.
  revert w. induction calls as [|c calls IH]; intros w Hok Hrun Hall.
  - by injection Hrun as <-.
  - simpl in Hrun. destruct (perf_call c w) as [w1|] eqn:Hc; [|done].
    simpl in Hrun.
    apply (IH w1); [by apply (perf_call_context_ok c w w1)|done|].
    destruct (perf_call_kind c w w1 Hok Hc) as [->|[->|(e' & -> & Hk)]]; [done|done|].
    apply Forall_app. split; [done|]. by apply Forall_singleton.
Qed.

Lemma filter_all {A : Type} (P : A -> Prop) `{forall x, Decision (P x)} (l : list A) :
  Forall P l -> filter P l = l.
Proof.
  induction 1 as [|x l Hx _ IH]; [done|].
  rewrite filter_cons. destruct (decide (P x)); [|done]. by rewrite IH.
Qed.

Lemma milestone_name_known (m : perf_milestone_t) :
  (m < PERF_MILESTONE_COUNT)%N -> perf_milestone_name m <> "UNKNOWN"%string.
Proof.
  intros H1 Hu. pose proof (milestone_name_lookup m H1) as L1. rewrite Hu in L1.
  apply list_elem_of_lookup_2 in L1.
  assert (Hn : "UNKNOWN"%string ∉ milestone_names)
    by (apply (bool_decide_unpack _); vm_compute; reflexivity).
  by apply Hn.
Qed.

(** X19.  In every run from a successful initialization, the kind of
    each record of the buffer is a milestone of the enumeration: the run
    never stores a record that [perf_milestone_name] would print as
    ["UNKNOWN"].  Hence, when its allocations succeed, the sample counts
    of [perf_get_summary] add up to the number of records in the
    buffer. *)
Theorem record_kinds_in_enumeration (cfg : perf_config_t) (now : timespec)
    (block : nat -> perf_metrics_t) (calls : list api_call) (w : perf_world) :
  let w0 := snd (perf_init_with_config (Some (caller_config cfg)) now (Some block) initial_world) in
  perf_run calls w0 = Ok w ->
  Forall kind_in_range (records (g_perf_context w))
  /\ Forall (fun e => perf_milestone_name (milestone e) <> "UNKNOWN"%string)
       (records (g_perf_context w))
  /\ forall old now' status,
       exists sm,
         perf_get_summary (Some old) now' status (fun _ => true) (g_perf_context w)
         = Ok (0, Some sm)
         /\ sum_list_with (fun st => N.to_nat (sample_count st)) (timing_stats sm)
            = N.to_nat (log_count (g_perf_context w)).
Proof.
  intros w0 Hrun.
  assert (Hok0 : context_ok (g_perf_context w0)) by apply init_context_ok.
  destruct (run_context_ok calls w0 w Hok0 Hrun) as [Hok _].
  assert (Hkinds : Forall kind_in_range (records (g_perf_context w))).
  { apply (run_kinds calls w0 w Hok0 Hrun).
    destruct (init_context cfg now block initial_world) as (_ & Hn & _ & Hl & _).
    fold w0 in Hn, Hl. unfold records. rewrite Hl, Hn. constructor. }
  split; [exact Hkinds|]. split.
  - eapply Forall_impl; [exact Hkinds|]. intros e Hk.
    by apply milestone_name_known.
  - intros old now' status.
    destruct (summary_statistics_total (fun _ => true) (g_perf_context w) Hok)
      as (stats & Hrun' & _ & _ & Hsum).
    unfold perf_get_summary. rewrite Hrun'. cbn [mbind result_bind].
    eexists. split; [reflexivity|]. cbn [timing_stats].
    rewrite (Hsum (fun _ => eq_refl)), <- (records_length _ Hok).
    f_equal. apply filter_all. exact Hkinds.
Qed.

Lemma record_kinds_in_enumeration_witness :
  perf_run mixed_run fresh_world = Ok mixed_world
  /\ Forall kind_in_range (records (g_perf_context mixed_world))
  /\ exists sm,
      perf_get_summary (Some zero_summary) (mk_timespec 103 0) None (fun _ => true)
        (g_perf_context mixed_world) = Ok (0, Some sm)
      /\ sum_list_with (fun st => N.to_nat (sample_count st)) (timing_stats sm) = 3%nat.
Proof.
  pose proof mixed_run_facts as (_ & Hrun & _).
  split; [exact Hrun|].
  destruct (record_kinds_in_enumeration default_config (mk_timespec 100 0) zero_block
              mixed_run mixed_world Hrun) as (Hk & _ & Hsum).
  split; [exact Hk|].
  destruct (Hsum zero_summary (mk_timespec 103 0) None) as (sm & Hr & Hn).
  exists sm. split; [exact Hr|]. rewrite Hn. reflexivity.
Defined.

(* ====================================================================== *)
(** * Sizes *)

Lemma str_take_idem (n : nat) (s : string) : str_take n (str_take n s) = str_take n s.
Proof. apply str_take_all, str_take_length. Qed.

(** *** Sizes *)

Lemma fmt_zu_length (n : N) (k : nat) :
  (1 <= k)%nat -> (n < 10 ^ N.of_nat k)%N -> (String.length (fmt_zu n) <= k)%nat.
Proof.
  intros Hk Hn. unfold fmt_zu.
  pose proof (fmt_digits_length (S (N.to_nat (N.log2 n))) k n EmptyString Hk Hn) as H.
  cbn [String.length] in H. by rewrite Nat.add_0_r in H.
Qed.

Lemma whole_units_elem (k : N) : (1 <= k < 1024)%N -> k ∈ whole_units.
Proof.
  intros Hk. unfold whole_units. apply list_elem_of_fmap.
  exists (N.to_nat k). split; [lia|]. apply elem_of_seq. lia.
Qed.

Lemma whole_kilobytes_text :
  Forall (fun k => fmt_f 1 (double_of_N (1024 * k) / 1024)%float
                   = String.append (fmt_zu k) ".0") whole_units.
Proof. apply (bool_decide_unpack _). vm_compute. reflexivity. Qed.

Lemma whole_megabytes_text :
  Forall (fun k => fmt_f 1 (double_of_N (1024 * 1024 * k) / (1024 * 1024))%float
                   = String.append (fmt_zu k) ".0") whole_units.
Proof. apply (bool_decide_unpack _). vm_compute. reflexivity. Qed.

(** X21.  [perf_format_memory_size] leaves the buffer alone when it is
    null or of size 0, and otherwise never writes more than
    [buffer_size - 1] characters.  A size below 1024 is printed as the
    exact number of bytes followed by [" B"] (reading the digits back
    gives the size); a whole number [k] of kilobytes or of megabytes,
    below 1024, is printed as ["k.0 KB"] or ["k.0 MB"]. *)
Theorem format_memory_size_text (bytes : N) (old : string) (buffer_size : N) :
  perf_format_memory_size bytes None buffer_size = None
  /\ perf_format_memory_size bytes (Some old) 0 = Some old
  /\ (buffer_size <> 0%N ->
      exists text,
        perf_format_memory_size bytes (Some old) buffer_size = Some text
        /\ (String.length text <= N.to_nat buffer_size - 1)%nat)
  /\ ((bytes < 1024)%N -> (7 <= buffer_size)%N ->
      perf_format_memory_size bytes (Some old) buffer_size
      = Some (String.append (fmt_zu bytes) " B")
      /\ digits_value (fmt_zu bytes) 0 = bytes)
  /\ (forall k, (1 <= k < 1024)%N -> (10 <= buffer_size)%N ->
        perf_format_memory_size (1024 * k) (Some old) buffer_size
        = Some (String.append (fmt_zu k) ".0 KB")
        /\ perf_format_memory_size (1024 * 1024 * k) (Some old) buffer_size
           = Some (String.append (fmt_zu k) ".0 MB")).
Proof.
  split; [done|]. split; [done|]. split; [|split].
  - intros Hne. unfold perf_format_memory_size.
    destruct (N.eqb_spec buffer_size 0); [done|].
    eexists. split; [reflexivity|]. apply str_take_length.
  - intros Hb Hsize. split; [|apply fmt_zu_value].
    unfold perf_format_memory_size.
    destruct (N.eqb_spec buffer_size 0); [lia|].
    destruct (N.ltb_spec bytes 1024); [|lia].
    f_equal. apply str_take_all. rewrite string_length_append.
    pose proof (fmt_zu_length bytes 4) as Hlen.
    change (String.length " B") with 2%nat.
    assert (String.length (fmt_zu bytes) <= 4)%nat by (apply Hlen; lia). lia.
  - intros k Hk Hsize.
    pose proof (fmt_zu_length k 4) as Hlen.
    assert (Hl4 : (String.length (fmt_zu k) <= 4)%nat) by (apply Hlen; lia).
    pose proof (whole_units_elem k Hk) as Hin.
    pose proof whole_kilobytes_text as HKB. pose proof whole_megabytes_text as HMB.
    rewrite Forall_forall in HKB, HMB.
    unfold perf_format_memory_size.
    destruct (N.eqb_spec buffer_size 0); [lia|].
    destruct (N.ltb_spec (1024 * k) 1024); [lia|].
    destruct (N.ltb_spec (1024 * k) (1024 * 1024)); [|lia].
    destruct (N.ltb_spec (1024 * 1024 * k) 1024); [lia|].
    destruct (N.ltb_spec (1024 * 1024 * k) (1024 * 1024)); [lia|].
    destruct (N.ltb_spec (1024 * 1024 * k) (1024 * 1024 * 1024)); [|lia].
    rewrite (HKB k Hin), (HMB k Hin), !string_append_assoc.
    change (String.append ".0" " KB") with ".0 KB"%string.
    change (String.append ".0" " MB") with ".0 MB"%string.
    split; f_equal; apply str_take_all; rewrite string_length_append;
      [change (String.length ".0 KB") with 5%nat
      |change (String.length ".0 MB") with 5%nat]; lia.
Qed.

(** *** The records after a publication *)

Lemma records_after_publish (s s' : perf_context_t) (l : list perf_metrics_t)
    (e' : perf_metrics_t) :
  context_ok s -> (log_count s < log_capacity s)%N -> log_entries s = Some l ->
  log_entries s' = Some (<[N.to_nat (log_count s) := e']> l) ->
  log_count s' = (log_count s + 1)%N ->
  records s' = records s ++ [e'].
Proof.
  intros Hok Hlt Hl Hl' Hc.
  rewrite <- (records_publish e' l s Hok Hlt Hl).
  unfold records. rewrite Hl', Hc. reflexivity.
Qed.

(* ====================================================================== *)
(** * The record of a milestone end; the fields of a CSV row *)

(** X23.  The record that the end of an active milestone stores carries
    the kind, the end time, the duration since the start, the thread
    count, iteration number 0, metric 0 and the label cut to 63
    characters.  The context field is not written: the record keeps the
    context text that the slot held.  The memory and CPU blocks are
    written only when [track_memory] and [track_cpu] are set (all zero
    when [/proc/self/status] cannot be read or [getrusage] fails), and
    otherwise keep what the slot held; the static locals of the CPU probe
    move only when [track_cpu] is set. *)
Theorem end_milestone_record_fields (m : perf_milestone_t) (lbl : option string)
    (os : os_probe) (w : perf_world) (a : Z) (l : list perf_metrics_t)
    (e : perf_metrics_t) :
  let s := g_perf_context w in
  context_ok s -> truthy (enabled (config s)) = true ->
  (m < PERF_MILESTONE_COUNT)%N ->
  milestone_active s !! N.to_nat m = Some a -> truthy a = true ->
  (log_count s < log_capacity s)%N ->
  log_entries s = Some l -> l !! N.to_nat (log_count s) = Some e ->
  exists w' e',
    perf_end_milestone_labeled m lbl os w = Ok w'
    /\ records (g_perf_context w') = records s ++ [e']
    /\ milestone e' = m
    /\ timestamp e' = perf_get_timestamp (clock_now os)
    /\ duration_ms e'
       = perf_timestamp_diff_ms (milestone_starts s !! N.to_nat m)
           (Some (perf_get_timestamp (clock_now os)))
    /\ thread_count e' = perf_get_thread_count s
    /\ iteration_number e' = 0
    /\ convergence_metric e' = 0%float
    /\ label e' = match lbl with Some x => bounded_label x | None => EmptyString end
    /\ context e' = context e
    /\ memory e'
       = (if truthy (track_memory (config s))
          then match proc_status os with
               | Some st =>
                   mk_memory (default 0%N (VmRSS st)) (default 0%N (VmSize st))
                     (default 0%N (VmPeak st)) (bytes_allocated s) (bytes_freed s)
                     (allocation_counter s) 0
               | None => zero_memory
               end
          else memory e)
    /\ cpu e'
       = (if truthy (track_cpu (config s))
          then snd (fst (cpu_usage_probe (rusage os) (wall_now os) (cpu_static w)))
          else cpu e)
    /\ cpu_static w'
       = (if truthy (track_cpu (config s))
          then snd (cpu_usage_probe (rusage os) (wall_now os) (cpu_static w))
          else cpu_static w).
Proof.
  intros s Hok He Hm Ha Hat Hlt Hl Hle.
  destruct (milestone_slots s m Hok Hm) as (a0 & start & Ha0 & Hst).
  unfold perf_end_milestone_labeled. fold s. rewrite He. simpl.
  destruct (N.leb_spec PERF_MILESTONE_COUNT m); [lia|].
  rewrite Ha, Hst, Hat. simpl.
  destruct (N.ltb_spec (log_count s) (log_capacity s)); [|lia].
  destruct (cpu_usage_probe _ _ _) as [[r cpu_now] cpu_st].
  unfold write_entry. rewrite Hl, Hle. simpl.
  match goal with
  | |- context [<[_ := ?x]> l] => set (e' := x)
  end.
  change (set_log_count (log_count s + 1)
            (set_log_entries (Some (<[N.to_nat (log_count s) := e']> l)) s))
    with (publish e' l s).
  set (s2 := publish e' l s).
  assert (Hok2 : context_ok s2) by (by apply publish_context_ok).
  assert (Hrec : records s2 = records s ++ [e']) by (by apply records_publish).
  set (w2 := mk_world s2 _ _ _).
  assert (Hfl : exists fs, (if truthy (flush_immediately (config s))
                            then perf_flush_logs w2 else Ok w2)
                           = Ok (set_streams fs w2)).
  { destruct (truthy (flush_immediately _)).
    - by apply flush_ok.
    - exists (streams w2). by destruct w2. }
  destruct Hfl as [fs ->]. simpl.
  eexists _, e'. split; [reflexivity|]. simpl.
  split; [exact Hrec|]. do 8 (split; [done|]).
  split; [|by split].
  destruct (truthy (track_memory (config s))); [|done].
  by destruct (proc_status os).
Qed.

Lemma stale_pending_world_ok :
  context_ok (g_perf_context stale_pending_world)
  /\ truthy (enabled (config (g_perf_context stale_pending_world))) = true
  /\ milestone_active (g_perf_context stale_pending_world)
       !! N.to_nat PERF_MILESTONE_CLUSTERING_START = Some 1
  /\ log_count (g_perf_context stale_pending_world) = 0%N
  /\ log_capacity (g_perf_context stale_pending_world) = PERF_MAX_LOG_ENTRIES.
Proof.
  split; [apply start_context_ok, stale_context_ok|]. by repeat split.
Qed.

Lemma stale_pending_slot :
  exists l e,
    log_entries (g_perf_context stale_pending_world) = Some l
    /\ l !! 0%nat = Some e
    /\ context e = "convergence=0.420000"%string.
Proof.
  unfold stale_pending_world. cbn [g_perf_context set_context].
  unfold perf_start_milestone.
  rewrite start_enabled by reflexivity.
  cbn [log_entries set_milestone_active set_milestone_starts].
  unfold stale_context.
  destruct (iteration_publishes (g_perf_context fresh_world) 3 metric_042
              (mk_timespec 101 0) fresh_world_ok eq_refl eq_refl)
    as (l & e & Hl & Hle & ->).
  eexists _, _. split; [reflexivity|]. split.
  - change (N.to_nat (log_count (g_perf_context fresh_world))) with 0%nat in *.
    apply list_lookup_insert_eq. by apply lookup_lt_Some in Hle.
  - cbn [context iteration_entry]. vm_compute. reflexivity.
Qed.

Lemma end_milestone_record_fields_witness :
  context_ok (g_perf_context stale_pending_world)
  /\ records (g_perf_context stale_pending_world) = []
  /\ exists w' e',
      perf_end_milestone_labeled PERF_MILESTONE_CLUSTERING_START (Some "pass"%string)
        (probe_at (mk_timespec 103 3000000)) stale_pending_world = Ok w'
      /\ records (g_perf_context w') = [e']
      /\ milestone e' = PERF_MILESTONE_CLUSTERING_START
      /\ iteration_number e' = 0
      /\ label e' = "pass"%string
      /\ context e' = "convergence=0.420000"%string.
Proof.
  pose proof stale_pending_world_ok as (Hok & He & Ha & Hn & Hcap).
  destruct stale_pending_slot as (l & e & Hl & Hle & Hctx).
  assert (Hrec0 : records (g_perf_context stale_pending_world) = []).
  { unfold records. by rewrite Hl, Hn. }
  assert (Hlt : (log_count (g_perf_context stale_pending_world)
                 < log_capacity (g_perf_context stale_pending_world))%N).
  { rewrite Hn, Hcap. reflexivity. }
  assert (Hle' : l !! N.to_nat (log_count (g_perf_context stale_pending_world)) = Some e).
  { rewrite Hn. exact Hle. }
  split; [exact Hok|]. split; [exact Hrec0|].
  destruct (end_milestone_record_fields PERF_MILESTONE_CLUSTERING_START
              (Some "pass"%string) (probe_at (mk_timespec 103 3000000))
              stale_pending_world 1 l e Hok He eq_refl Ha eq_refl Hlt Hl Hle')
    as (w' & e' & Hr & Hrec & Hk & _ & _ & _ & Hi & _ & Hlbl & Hc & _).
  exists w', e'. split; [exact Hr|]. split; [by rewrite Hrec, Hrec0|].
  split; [exact Hk|]. split; [exact Hi|]. split; [exact Hlbl|]. by rewrite Hc.
Defined.

(** *** Commas *)

Lemma count_char_append (c : ascii) (a b : string) :
  count_char c (String.append a b) = (count_char c a + count_char c b)%nat.
Proof. induction a as [|x a IH]; simpl; [done|]. rewrite IH. lia. Qed.

Lemma digit_char_not_comma (n : N) :
  Ascii.eqb (digit_char (n mod 10)) comma = false.
Proof.
  assert (Hd : (n mod 10 < 10)%N) by (apply N.mod_lt; lia).
  set (d := (n mod 10)%N) in *. clearbody d.
  assert (Hc : (d = 0 \/ d = 1 \/ d = 2 \/ d = 3 \/ d = 4 \/ d = 5 \/ d = 6
                \/ d = 7 \/ d = 8 \/ d = 9)%N) by lia.
  repeat (destruct Hc as [-> | Hc]; [reflexivity|]). by rewrite Hc.
Qed.

Lemma fmt_digits_commas (fuel : nat) (n : N) (acc : string) :
  count_char comma (fmt_digits fuel n acc) = count_char comma acc.
Proof.
  revert n acc. induction fuel as [|fuel IH]; intros n acc; simpl; [done|].
  assert (Hstep : count_char comma (String (digit_char (n mod 10)) acc)
                  = count_char comma acc).
  { simpl. by rewrite digit_char_not_comma. }
  destruct (n / 10 =? 0)%N; [done|]. by rewrite IH.
Qed.

Lemma fmt_zu_commas (n : N) : count_char comma (fmt_zu n) = 0%nat.
Proof. apply fmt_digits_commas. Qed.

Lemma fmt_d_commas (z : Z) : count_char comma (fmt_d z) = 0%nat.
Proof. unfold fmt_d. destruct (z <? 0); simpl; by rewrite ?fmt_zu_commas. Qed.

Lemma zero_pad_commas (width : nat) (s : string) :
  count_char comma (zero_pad width s) = count_char comma s.
Proof.
  unfold zero_pad. induction (width - String.length s)%nat as [|k IH]; simpl; done.
Qed.

Lemma fmt_09ld_commas (z : Z) : count_char comma (fmt_09ld z) = 0%nat.
Proof.
  unfold fmt_09ld.
  destruct (z <? 0); simpl; by rewrite zero_pad_commas, fmt_zu_commas.
Qed.

Lemma fmt_f_commas (prec : nat) (x : double) : count_char comma (fmt_f prec x) = 0%nat.
Proof.
  assert (Hfixed : forall (neg : bool) (n : N),
             count_char comma
               (let p10 := (10 ^ N.of_nat prec)%N in
                let body :=
                  match prec with
                  | O => fmt_zu n
                  | S _ => String.append (fmt_zu (n / p10))
                             (String "." (zero_pad prec (fmt_zu (n mod p10))))
                  end in
                if neg then String "-" body else body) = 0%nat).
  { intros neg n. cbv zeta.
    assert (Hbody : count_char comma
                      match prec with
                      | O => fmt_zu n
                      | S _ => String.append (fmt_zu (n / 10 ^ N.of_nat prec))
                                 (String "." (zero_pad prec
                                                (fmt_zu (n mod 10 ^ N.of_nat prec))))
                      end = 0%nat).
    { destruct prec; [apply fmt_zu_commas|].
      rewrite count_char_append, fmt_zu_commas. simpl.
      by rewrite zero_pad_commas, fmt_zu_commas. }
    destruct neg; simpl; by rewrite Hbody. }
  unfold fmt_f. destruct (Prim2SF x) as [neg|neg| |neg m e].
  - apply Hfixed.
  - by destruct neg.
  - done.
  - apply Hfixed.
Qed.

Lemma milestone_name_commas (m : perf_milestone_t) :
  count_char comma (perf_milestone_name m) = 0%nat.
Proof.
  assert (Hall : Forall (fun p => count_char comma p = 0%nat) milestone_names)
    by (repeat constructor).
  unfold perf_milestone_name. destruct (m <? PERF_MILESTONE_COUNT)%N; [|done].
  destruct (nth_in_or_default (N.to_nat m) milestone_names "UNKNOWN"%string)
    as [Hin| ->]; [|done].
  rewrite Forall_forall in Hall. apply Hall. by apply list_elem_of_In.
Qed.

(** X24.  A CSV row has ten commas besides those of its label and of
    its context, which are written unquoted: when neither contains a
    comma the row has the eleven fields of the header, and every comma in
    a label or a context adds a field to the row.  A row whose label and
    context have no newline is one line. *)
Theorem csv_row_fields (e : perf_metrics_t) :
  count_char comma (csv_row e)
  = (10 + count_char comma (label e) + count_char comma (context e))%nat
  /\ count_char comma csv_header = 10%nat
  /\ (count_char comma (label e) = 0%nat -> count_char comma (context e) = 0%nat ->
      count_char comma (csv_row e) = count_char comma csv_header)
  /\ (has_newline (label e) = false -> has_newline (context e) = false ->
      count_lines (csv_row e) = 1%nat).
Proof.
  assert (Hrow : count_char comma (csv_row e)
                 = (10 + count_char comma (label e) + count_char comma (context e))%nat).
  { unfold csv_row. cbn [str_concat fold_right].
    rewrite !count_char_append.
    rewrite !fmt_d_commas, fmt_09ld_commas, milestone_name_commas, !fmt_f_commas,
      !fmt_zu_commas.
    change (count_char comma ",") with 1%nat.
    change (count_char comma ".") with 0%nat.
    change (count_char comma "") with 0%nat.
    change (count_char comma end_of_line) with 0%nat. lia. }
  split; [exact Hrow|]. split; [reflexivity|]. split.
  - intros Hl Hc. rewrite Hrow, Hl, Hc. reflexivity.
  - apply csv_row_one_line.
Qed.

(* ====================================================================== *)
(** * What the calls do not read and do not touch *)

Section Retag.
Variables (g : perf_granularity_t) (lvl : perf_log_level_t) (name : string)
          (interval : N).














End Retag.


(** X26.  What the calls of a run leave alone.  The calls are
    [perf_start_milestone] and [perf_end_milestone] (labeled or not),
    [perf_log_event], [perf_log_event_with_context], [perf_log_iteration],
    [perf_log_algorithm_step], [perf_reset], [perf_set_enabled],
    [perf_register_thread], [perf_unregister_thread], [perf_flush_logs]
    and [perf_export_csv]; the other functions of the API
    ([perf_track_allocation], [perf_init], [perf_cleanup],
    [perf_print_summary], ...) are not among them.  None of these calls
    changes the allocation counters or the capacity of the buffer.  Among
    them the thread count, the thread slots and the thread-local ids
    change only in [perf_register_thread] and [perf_unregister_thread];
    [max_threads_used] only in [perf_register_thread] and [perf_reset];
    the start times of the milestones only in a start; the program start
    time only in [perf_reset]; the static locals of the CPU probe only at
    the end of a milestone; and only the end of a milestone,
    [perf_flush_logs] and [perf_export_csv] print. *)
Theorem calls_frame (c : api_call) (w w' : perf_world) :
  perf_call c w = Ok w' ->
  let s := g_perf_context w in
  let s' := g_perf_context w' in
  (allocation_counter s' = allocation_counter s
   /\ bytes_allocated s' = bytes_allocated s
   /\ bytes_freed s' = bytes_freed s
   /\ log_capacity s' = log_capacity s)
  /\ match c with
     | CallRegisterThread _ _ | CallUnregisterThread _ _ => True
     | _ => active_threads s' = active_threads s
            /\ thread_data s' = thread_data s
            /\ tls_thread_key w' = tls_thread_key w
     end
  /\ match c with
     | CallRegisterThread _ _ | CallReset _ => True
     | _ => max_threads_used s' = max_threads_used s
     end
  /\ match c with
     | CallStartMilestone _ _ | CallStartMilestoneLabeled _ _ _ => True
     | _ => milestone_starts s' = milestone_starts s
     end
  /\ match c with
     | CallReset _ => True
     | _ => program_start_time s' = program_start_time s
     end
  /\ match c with
     | CallEndMilestone _ _ | CallEndMilestoneLabeled _ _ _ => True
     | _ => cpu_static w' = cpu_static w
     end
  /\ match c with
     | CallEndMilestone _ _ | CallEndMilestoneLabeled _ _ _
     | CallFlushLogs | CallExportCsv _ _ => True
     | _ => streams w' = streams w
     end.
Proof.
  assert (Hflush : forall w0 w1, perf_flush_logs w0 = Ok w1 ->
                     g_perf_context w1 = g_perf_context w0
                     /\ tls_thread_key w1 = tls_thread_key w0
                     /\ cpu_static w1 = cpu_static w0).
  { intros w0 w1. unfold perf_flush_logs.
    destruct (negb _); [by intros [= <-]|].
    destruct (output_file _); [|by intros [= <-]].
    destruct (published _); [|done]. by intros [= <-]. }
  assert (Hevent : forall lbl value ctx now s0 s1,
             perf_log_event_with_context lbl value ctx now s0 = Ok s1 ->
             context_frame s0 s1).
  { intros lbl value ctx now s0 s1. unfold perf_log_event_with_context, write_entry.
    destruct lbl; [|intros [= <-]; by repeat split].
    destruct (negb _); [intros [= <-]; by repeat split|].
    destruct (_ <? _)%N; [|intros [= <-]; by repeat split].
    destruct (log_entries s0) as [l|]; [|done].
    destruct (l !! _); [|done]. intros [= <-]. by repeat split. }
  assert (Hend : forall m lbl os w0 w1,
             perf_end_milestone_labeled m lbl os w0 = Ok w1 ->
             context_frame (g_perf_context w0) (g_perf_context w1)
             /\ tls_thread_key w1 = tls_thread_key w0).
  { intros m lbl os w0 w1. unfold perf_end_milestone_labeled.
    destruct (_ || _); [intros [= <-]; by repeat split|].
    destruct (milestone_active _ !! _) as [a|]; [|done].
    destruct (milestone_starts _ !! _) as [start|]; [|done].
    destruct (negb (truthy a)); [intros [= <-]; by repeat split|].
    destruct (_ <? _)%N; [|intros [= <-]; by repeat split].
    destruct (cpu_usage_probe _ _ _) as [[r cpu_now] cpu_st].
    unfold write_entry.
    destruct (log_entries (g_perf_context w0)) as [l|]; [|done].
    destruct (l !! _); [|done]. cbn [mbind result_bind].
    destruct (truthy (flush_immediately _)).
    - destruct (perf_flush_logs _) as [wf|] eqn:Hf; [|done].
      apply Hflush in Hf as (Hc & Ht & _). cbn [mbind result_bind].
      intros [= <-]. cbn [g_perf_context set_context tls_thread_key]. rewrite Hc, Ht.
      by repeat split.
    - cbn [mbind result_bind]. intros [= <-]. by repeat split. }
  intros Hrun s s'. unfold s, s'. clear s s'.
  destruct c; cbn [perf_call] in Hrun.
  - injection Hrun as <-. cbn [g_perf_context set_context tls_thread_key cpu_static
                               streams].
    unfold perf_start_milestone, perf_start_milestone_labeled.
    by destruct (_ || _).
  - injection Hrun as <-. cbn [g_perf_context set_context tls_thread_key cpu_static
                               streams].
    unfold perf_start_milestone_labeled. by destruct (_ || _).
  - apply Hend in Hrun as [(? & ? & ? & ? & ? & ? & ? & ? & ?) Ht]. by repeat split.
  - apply Hend in Hrun as [(? & ? & ? & ? & ? & ? & ? & ? & ?) Ht]. by repeat split.
  - unfold on_context_r, perf_log_event in Hrun.
    destruct (perf_log_event_with_context _ _ _ _ _) as [s1|] eqn:Hs; [|done].
    injection Hrun as <-. apply Hevent in Hs as (? & ? & ? & ? & ? & ? & ? & ? & ?).
    by repeat split.
  - unfold on_context_r in Hrun.
    destruct (perf_log_event_with_context _ _ _ _ _) as [s1|] eqn:Hs; [|done].
    injection Hrun as <-. apply Hevent in Hs as (? & ? & ? & ? & ? & ? & ? & ? & ?).
    by repeat split.
  - unfold on_context_r, perf_log_iteration, write_entry in Hrun.
    destruct (negb _); [by injection Hrun as <-|].
    destruct (_ <? _)%N; [|by injection Hrun as <-].
    destruct (log_entries _) as [l|]; [|done].
    destruct (l !! _); [|done]. by injection Hrun as <-.
  - unfold on_context_r, perf_log_algorithm_step in Hrun.
    destruct algorithm, step; try (by injection Hrun as <-).
    destruct (negb _); [by injection Hrun as <-|].
    destruct (perf_log_event_with_context _ _ _ _ _) as [s1|] eqn:Hs; [|done].
    injection Hrun as <-. apply Hevent in Hs as (? & ? & ? & ? & ? & ? & ? & ? & ?).
    by repeat split.
  - injection Hrun as <-. cbn [g_perf_context set_context tls_thread_key cpu_static
                               streams].
    unfold perf_reset. by destruct (negb _).
  - by injection Hrun as <-.
  - destruct (perf_register_thread t now w) as [[id w1]|] eqn:Hr; [|done].
    injection Hrun as <-. unfold perf_register_thread in Hr.
    destruct (_ || _); [by injection Hr as <- <-|].
    destruct (_ && _); [|done].
    destruct (_ !! _); [|done]. injection Hr as <- <-.
    cbn [g_perf_context cpu_static streams]. by destruct (_ <? _).
  - injection Hrun as <-. unfold perf_unregister_thread.
    destruct (_ || _); [done|].
    destruct (get_thread_id _ _) as [id tls].
    cbn [g_perf_context cpu_static streams].
    destruct (_ && _); [|done]. by destruct (_ !! _).
  - apply Hflush in Hrun as (-> & -> & ->). done.
  - unfold perf_export_csv in Hrun. destruct filename; [|by injection Hrun as <-].
    destruct fopen_result as [f|]; [|by injection Hrun as <-].
    destruct (perf_flush_logs _) as [wf|] eqn:Hf; [|done].
    apply Hflush in Hf as (Hc & Ht & Hcpu). injection Hrun as <-.
    cbn [g_perf_context set_context tls_thread_key cpu_static].
    rewrite Hc, Ht, Hcpu. done.
Qed.

Lemma calls_frame_witness :
  exists w',
    perf_call (CallReset (mk_timespec 104 0)) pending_world = Ok w'
    /\ active_threads (g_perf_context w') = active_threads (g_perf_context pending_world)
    /\ milestone_starts (g_perf_context w')
       = milestone_starts (g_perf_context pending_world)
    /\ allocation_counter (g_perf_context w')
       = allocation_counter (g_perf_context pending_world).
Proof.
  destruct (perf_call_defined (CallReset (mk_timespec 104 0)) pending_world)
    as [w' Hrun]; [apply pending_world_ok|done|].
  exists w'. split; [exact Hrun|].
  destruct (calls_frame _ _ _ Hrun) as ((Ha & _) & (Ht & _) & _ & Hs & _).
  split; [exact Ht|]. split; [exact Hs|exact Ha].
Defined.

(* ====================================================================== *)
(** * The time stamp of a row *)

Lemma zeros_length (k : nat) (s : string) :
  String.length (zeros k s) = (k + String.length s)%nat.
Proof. induction k as [|k IH]; simpl; [done|]. by rewrite IH. Qed.

Lemma zeros_value (k : nat) (s : string) :
  digits_value (zeros k s) 0 = digits_value s 0.
Proof. induction k as [|k IH]; simpl; [done|]. exact IH. Qed.

Lemma fmt_d_nonneg (z : Z) : 0 <= z -> fmt_d z = fmt_zu (Z.to_N z).
Proof.
  intros Hz. unfold fmt_d. destruct (Z.ltb_spec z 0); [lia|].
  f_equal. lia.
Qed.

(** X27.  Every row that [perf_flush_logs] prints in the CSV format
    begins with the time stamp of its record, written as
    [<seconds>.<nanoseconds>] and followed by a comma.  For a reading of
    the clock (seconds not negative, nanoseconds below [10^9]) the
    nanoseconds take exactly nine digits, and reading the two groups of
    digits back gives the seconds and the nanoseconds of the record. *)
Theorem csv_row_timestamp (e : perf_metrics_t) :
  0 <= tv_sec (ts (timestamp e)) ->
  0 <= tv_nsec (ts (timestamp e)) < 1000000000 ->
  let sec := fmt_d (tv_sec (ts (timestamp e))) in
  let nsec := fmt_09ld (tv_nsec (ts (timestamp e))) in
  (exists rest,
      csv_row e
      = String.append sec (String.append "." (String.append nsec (String.append "," rest))))
  /\ String.length nsec = 9%nat
  /\ Z.of_N (digits_value sec 0) = tv_sec (ts (timestamp e))
  /\ Z.of_N (digits_value nsec 0) = tv_nsec (ts (timestamp e)).
Proof.
  intros Hs Hn sec nsec. split.
  { unfold csv_row. cbn [str_concat fold_right]. fold sec nsec.
    eexists. rewrite !string_append_assoc. reflexivity. }
  assert (Hlen : (String.length (fmt_zu (Z.abs_N (tv_nsec (ts (timestamp e))))) <= 9)%nat).
  { apply fmt_zu_length; [lia|]. change (10 ^ N.of_nat 9)%N with 1000000000%N. lia. }
  subst sec nsec. rewrite (fmt_d_nonneg _ Hs), fmt_zu_value.
  unfold fmt_09ld. destruct (Z.ltb_spec (tv_nsec (ts (timestamp e))) 0); [lia|].
  unfold zero_pad. rewrite zeros_length, zeros_value, fmt_zu_value.
  repeat split; lia.
Qed.

Lemma csv_row_timestamp_witness :
  (exists rest,
      csv_row stamped_record
      = String.append "12" (String.append "." (String.append "000034000" (String.append "," rest))))
  /\ String.length (fmt_09ld 34000) = 9%nat
  /\ Z.of_N (digits_value (fmt_d 12) 0) = 12
  /\ Z.of_N (digits_value (fmt_09ld 34000) 0) = 34000.
Proof.
  apply (csv_row_timestamp stamped_record); simpl; lia.
Defined.

(* ====================================================================== *)
(** * Producers that overlap *)

Lemma write_entry_at_count (f : perf_metrics_t -> perf_metrics_t) (s : perf_context_t) :
  write_entry_at (log_count s) f s = write_entry f s.
Proof. reflexivity. Qed.

(** Run alone, the steps of a call are the call. *)
Lemma event_alone_call (lbl : option string) (value : double) (ctx : option string)
    (now : timespec) (s : perf_context_t) :
  event_alone (mk_event_call lbl value ctx now) s
  = perf_log_event_with_context lbl value ctx now s.
Proof.
  unfold event_alone, event_call_step, perf_log_event_with_context.
  cbn [event_label event_value event_context event_clock event_step].
  destruct lbl as [l|]; [|done].
  destruct (negb (truthy (enabled (config s)))); [done|].
  destruct (log_count s <? log_capacity s)%N; [|done].
  cbn [mbind result_bind fst snd event_step].
  rewrite write_entry_at_count. cbn [default].
  destruct (write_entry _ s) as [s1|why]; [|done].
  reflexivity.
Qed.

Lemma write_entry_at_ok (i : N) (f : perf_metrics_t -> perf_metrics_t)
    (s : perf_context_t) (l : list perf_metrics_t) :
  log_entries s = Some l ->
  (N.to_nat i < length l)%nat ->
  exists e, l !! N.to_nat i = Some e
            /\ write_entry_at i f s
               = Ok (set_log_entries (Some (<[N.to_nat i := f e]> l)) s).
Proof.
  intros Hl Hi. destruct (lookup_lt_is_Some_2 l (N.to_nat i) Hi) as [e He].
  exists e. split; [done|]. unfold write_entry_at. by rewrite Hl, He.
Qed.

Lemma write_entry_at_end (i : N) (f : perf_metrics_t -> perf_metrics_t)
    (s : perf_context_t) (l : list perf_metrics_t) :
  log_entries s = Some l ->
  (length l <= N.to_nat i)%nat ->
  write_entry_at i f s = Fault (OutOfBounds (Z.of_N i)).
Proof.
  intros Hl Hi. unfold write_entry_at. rewrite Hl.
  by rewrite (lookup_ge_None_2 l (N.to_nat i) Hi).
Qed.

(** The steps of a call whose label is not null, with monitoring
    enabled. *)
Lemma event_step_test (c : event_call) (s : perf_context_t) :
  is_Some (event_label c) ->
  truthy (enabled (config s)) = true ->
  event_call_step c at_test s
  = Ok (if (log_count s <? log_capacity s)%N then at_slot else returned, s).
Proof.
  intros [l Hl] He. unfold event_call_step, event_step. rewrite Hl, He.
  cbn [negb]. by destruct (_ <? _)%N.
Qed.

Lemma event_step_write (c : event_call) (i : N) (s : perf_context_t)
    (l : list perf_metrics_t) :
  log_entries s = Some l ->
  (N.to_nat i < length l)%nat ->
  exists e,
    l !! N.to_nat i = Some e
    /\ event_call_step c (at_write i) s
       = Ok (at_increment,
             set_log_entries
               (Some (<[N.to_nat i :=
                         event_entry s (default EmptyString (event_label c))
                           (event_value c) (event_context c) (event_clock c) e]> l)) s).
Proof.
  intros Hl Hi.
  destruct (write_entry_at_ok i
              (event_entry s (default EmptyString (event_label c))
                 (event_value c) (event_context c) (event_clock c)) s l Hl Hi)
    as (e & He & Hw).
  exists e. split; [done|]. unfold event_call_step, event_step. by rewrite Hw.
Qed.

Lemma event_step_write_end (c : event_call) (i : N) (s : perf_context_t)
    (l : list perf_metrics_t) :
  log_entries s = Some l ->
  (length l <= N.to_nat i)%nat ->
  event_call_step c (at_write i) s = Fault (OutOfBounds (Z.of_N i)).
Proof.
  intros Hl Hi. unfold event_call_step, event_step.
  by rewrite (write_entry_at_end i _ s l Hl Hi).
Qed.

Lemma event_step_slot (c : event_call) (s : perf_context_t) :
  event_call_step c at_slot s = Ok (at_write (log_count s), s).
Proof. reflexivity. Qed.

Lemma event_step_increment (c : event_call) (s : perf_context_t) :
  event_call_step c at_increment s = Ok (returned, set_log_count (log_count s + 1)%N s).
Proof. reflexivity. Qed.

Lemma event_step_returned (c : event_call) (s : perf_context_t) :
  event_call_step c returned s = Ok (returned, s).
Proof. reflexivity. Qed.

Ltac overlap_cbn :=
  cbn [overlap_run overlap_step mbind result_bind fst snd
       first_point second_point shared_context].

(** C1.  Two calls of [perf_log_event_with_context] that overlap on a
    buffer with one free slot.  When the second thread passes the test
    [log_count < log_capacity] before the first has incremented
    [log_count] and takes its slot after, it writes
    [log_entries[log_capacity]], one slot past the end of the buffer.
    When both take their slot before either increments, both write the
    last slot, the record of the first is lost, and [log_count] becomes
    [log_capacity + 1]: the count is above the capacity, and a reader of
    the buffer goes past its end.  Only when the calls do not overlap is
    the second one dropped and the count left at the capacity. *)
Theorem overlapping_events_pass_capacity (c1 c2 : event_call) (s : perf_context_t) :
  context_ok s ->
  truthy (enabled (config s)) = true ->
  is_Some (event_label c1) -> is_Some (event_label c2) ->
  (log_count s + 1 = log_capacity s)%N ->
  overlap_run c1 c2 late_slot_schedule (both_enter s)
  = Fault (OutOfBounds (Z.of_N (log_capacity s)))
  /\ (exists s',
         overlap_run c1 c2 same_slot_schedule (both_enter s)
         = Ok (mk_two_producers returned returned s')
         /\ log_capacity s' = log_capacity s
         /\ log_count s' = (log_capacity s + 1)%N
         /\ (log_capacity s' < log_count s')%N
         /\ published s' = Fault (OutOfBounds (Z.of_N (log_capacity s)))
         /\ exists s2, event_alone c2 s = Ok s2 /\ log_entries s' = log_entries s2)
  /\ (exists s',
         event_alone c1 s = Ok s'
         /\ event_alone c2 s' = Ok s'
         /\ overlap_run c1 c2 serial_schedule (both_enter s)
            = Ok (mk_two_producers returned returned s')
         /\ log_count s' = log_capacity s).
Proof.
  intros Hok He Hl1 Hl2 Hfree.
  destruct (ok_entries s Hok) as (l & Hl & Hlen).
  assert (Hroom : (log_count s <? log_capacity s)%N = true) by (apply N.ltb_lt; lia).
  assert (Hin : (N.to_nat (log_count s) < length l)%nat) by lia.
  pose proof (event_step_test c1 s Hl1 He) as Ht1.
  pose proof (event_step_test c2 s Hl2 He) as Ht2.
  rewrite Hroom in Ht1, Ht2.
  destruct (event_step_write c1 (log_count s) s l Hl Hin) as (e & Hle & Hw1).
  set (l1 := <[N.to_nat (log_count s) :=
                event_entry s (default EmptyString (event_label c1))
                  (event_value c1) (event_context c1) (event_clock c1) e]> l) in *.
  set (s1 := set_log_entries (Some l1) s) in *.
  assert (Hlen1 : length l1 = length l) by apply length_insert.
  set (s2 := set_log_count (log_count s1 + 1)%N s1).
  assert (Hc2 : log_count s2 = log_capacity s) by (rewrite <- Hfree; reflexivity).
  assert (Hl2' : log_entries s2 = Some l1) by reflexivity.
  assert (Hcap2 : log_capacity s2 = log_capacity s) by reflexivity.
  assert (He2 : truthy (enabled (config s2)) = true) by exact He.
  assert (Hl1' : log_entries s1 = Some l1) by reflexivity.
  assert (Hc1 : log_count s1 = log_count s) by reflexivity.
  split; [|split].
  - unfold late_slot_schedule, both_enter. overlap_cbn.
    rewrite Ht1. overlap_cbn. rewrite Ht2. overlap_cbn.
    rewrite event_step_slot. overlap_cbn.
    rewrite Hw1. overlap_cbn.
    rewrite event_step_increment. overlap_cbn. fold s2.
    rewrite event_step_slot. overlap_cbn.
    rewrite (event_step_write_end c2 _ _ l1 Hl2'); [|lia].
    overlap_cbn. by rewrite Hc2.
  - destruct (event_step_write c2 (log_count s) s l Hl Hin) as (e2 & Hle2 & Hw2).
    destruct (event_step_write c2 (log_count s) s1 l1 Hl1' ltac:(lia))
      as (e1 & Hle1 & Hw21).
    eexists. split.
    { unfold same_slot_schedule, both_enter. overlap_cbn.
      rewrite Ht1. overlap_cbn. rewrite Ht2. overlap_cbn.
      rewrite event_step_slot. overlap_cbn. rewrite event_step_slot. overlap_cbn.
      rewrite Hw1. overlap_cbn. fold s1. rewrite Hw21. overlap_cbn.
      rewrite event_step_increment. overlap_cbn.
      rewrite event_step_increment. overlap_cbn. reflexivity. }
    split; [reflexivity|].
    split; [simpl; lia|].
    split; [simpl; lia|].
    split.
    { unfold published. simpl. rewrite length_insert, Hlen1.
      destruct (Nat.leb_spec (N.to_nat (log_count s + 1 + 1)) (length l)); [lia|].
      do 2 f_equal. lia. }
    exists (set_log_count (log_count s + 1)%N
              (set_log_entries
                 (Some (<[N.to_nat (log_count s) :=
                           event_entry s (default EmptyString (event_label c2))
                             (event_value c2) (event_context c2) (event_clock c2) e]> l))
                 s)).
    split.
    { unfold event_alone. rewrite Ht2. overlap_cbn.
      rewrite event_step_slot. overlap_cbn. rewrite Hw2. overlap_cbn.
      rewrite event_step_increment. overlap_cbn.
      rewrite Hle in Hle2. by injection Hle2 as <-. }
    simpl. f_equal. subst l1. rewrite list_insert_insert_eq. 
    rewrite list_lookup_insert_eq in Hle1 by lia. injection Hle1 as <-.
    reflexivity.
  - exists s2.
    assert (Halone1 : event_alone c1 s = Ok s2).
    { unfold event_alone. rewrite Ht1. overlap_cbn.
      rewrite event_step_slot. overlap_cbn. rewrite Hw1. overlap_cbn.
      by rewrite event_step_increment. }
    pose proof (event_step_test c2 s2 Hl2 He2) as Ht22.
    rewrite Hc2, Hcap2, N.ltb_irrefl in Ht22.
    assert (Halone2 : event_alone c2 s2 = Ok s2).
    { unfold event_alone. rewrite Ht22. overlap_cbn.
      by rewrite !event_step_returned. }
    split; [done|]. split; [done|]. split; [|done].
    unfold serial_schedule, both_enter. overlap_cbn.
    rewrite Ht1. overlap_cbn.
    rewrite event_step_slot. overlap_cbn. rewrite Hw1. overlap_cbn.
    rewrite event_step_increment. overlap_cbn. fold s2.
    rewrite Ht22. overlap_cbn.
    by rewrite !event_step_returned.
Qed.

Lemma run_iterations_config (n : nat) (w w' : perf_world) :
  context_ok (g_perf_context w) ->
  perf_run (iterations n) w = Ok w' ->
  config (g_perf_context w') = config (g_perf_context w).
Proof.
  revert w. induction n as [|n IH]; intros w Hok Hrun.
  - by injection Hrun as <-.
  - unfold iterations in Hrun. rewrite replicate_S in Hrun. fold (iterations n) in Hrun.
    cbn [perf_run] in Hrun.
    destruct (perf_call _ w) as [w1|] eqn:Hc; [|done].
    cbn [mbind result_bind] in Hrun.
    pose proof (perf_call_effect _ w w1 Hok Hc) as (Hok1 & _ & Hcfg & _).
    rewrite (IH w1 Hok1 Hrun). exact Hcfg.
Qed.

Lemma overlapping_events_pass_capacity_witness :
  exists w,
    perf_run (iterations (N.to_nat 9999)) fresh_world = Ok w
    /\ log_count (g_perf_context w) = 9999%N
    /\ log_capacity (g_perf_context w) = 10000%N
    /\ overlap_run event_a event_b late_slot_schedule (both_enter (g_perf_context w))
       = Fault (OutOfBounds 10000)
    /\ exists s',
        overlap_run event_a event_b same_slot_schedule (both_enter (g_perf_context w))
        = Ok (mk_two_producers returned returned s')
        /\ log_count s' = 10001%N.
Proof.
  assert (He : truthy (enabled (config (g_perf_context fresh_world))) = true)
    by reflexivity.
  assert (Hzero : log_count (g_perf_context fresh_world) = 0%N) by reflexivity.
  assert (Hcap : log_capacity (g_perf_context fresh_world) = 10000%N) by reflexivity.
  destruct (iterations_run (N.to_nat 9999) fresh_world fresh_world_ok He Hzero)
    as (w & Hrun & Hcount & _).
  rewrite N2Nat.id, Hcap in Hcount. change (N.min 9999 10000) with 9999%N in Hcount.
  destruct (run_context_ok _ fresh_world w fresh_world_ok Hrun) as [Hok Hcapw].
  rewrite Hcap in Hcapw.
  pose proof (run_iterations_config _ fresh_world w fresh_world_ok Hrun) as Hcfg.
  assert (Hew : truthy (enabled (config (g_perf_context w))) = true)
    by (rewrite Hcfg; exact He).
  assert (Hfree : (log_count (g_perf_context w) + 1 = log_capacity (g_perf_context w))%N)
    by (rewrite Hcount, Hcapw; reflexivity).
  destruct (overlapping_events_pass_capacity event_a event_b (g_perf_context w)
              Hok Hew ltac:(by eexists) ltac:(by eexists) Hfree)
    as (Hlate & (s' & Hsame & _ & Hc' & _) & _).
  exists w. split; [exact Hrun|]. split; [exact Hcount|]. split; [exact Hcapw|].
  rewrite Hcapw in Hlate, Hc'.
  split; [exact Hlate|]. exists s'. split; [exact Hsame|exact Hc'].
Defined.

(* ====================================================================== *)
(** * The index of a thread that is still registered *)

(** What a registration inside the thread table does to the world. *)
Lemma register_world (t : os_thread) (now : timespec) (w : perf_world) :
  let s := g_perf_context w in
  context_ok s ->
  truthy (enabled (config s)) = true -> truthy (track_threads (config s)) = true ->
  0 <= active_threads s < PERF_MAX_THREADS ->
  exists w' old,
    perf_register_thread t now w = Ok (active_threads s, w')
    /\ context_ok (g_perf_context w')
    /\ config (g_perf_context w') = config s
    /\ active_threads (g_perf_context w') = active_threads s + 1
    /\ tls_thread_key w' = <[t := active_threads s]> (tls_thread_key w)
    /\ thread_data s !! Z.to_nat (active_threads s) = Some old
    /\ thread_data (g_perf_context w')
       = <[Z.to_nat (active_threads s) :=
             mk_thread_data (active_threads s) (-1) (perf_get_timestamp now)
               (end_time old) (thread_memory old) (thread_cpu old)
               (operations_count old) (thread_label old)]> (thread_data s).
Proof.
  intros s Hok He Ht Hrange.
  assert (Hr : 0 <= active_threads s < 256) by (unfold PERF_MAX_THREADS in Hrange; lia).
  pose proof (ok_threads s Hok) as Hlen.
  destruct (lookup_lt_is_Some_2 (thread_data s) (Z.to_nat (active_threads s)))
    as [old Hold].
  { rewrite Hlen. unfold PERF_MAX_THREADS. lia. }
  destruct (register_ok t now w Hok He Ht Hrange)
    as (w' & Hreg & Hok' & Hcfg & Hact & _).
  exists w', old. split; [exact Hreg|]. split; [exact Hok'|]. split; [exact Hcfg|].
  split; [exact Hact|].
  revert Hreg. unfold perf_register_thread. fold s. rewrite He, Ht. cbn [negb orb].
  replace ((0 <=? active_threads s) && (active_threads s <? PERF_MAX_THREADS)) with true
    by (symmetry; apply andb_true_intro; split; [lia|unfold PERF_MAX_THREADS; lia]).
  cbn [set_active_threads thread_data]. rewrite Hold.
  intros [= <-]. split; [reflexivity|]. split; [reflexivity|].
  cbn [g_perf_context]. by destruct (_ <? _).
Qed.

(** What [perf_unregister_thread] by a thread holding index [id] does. *)
Lemma unregister_world (t : os_thread) (now : timespec) (w : perf_world) (id : Z) :
  let s := g_perf_context w in
  context_ok s ->
  truthy (enabled (config s)) = true -> truthy (track_threads (config s)) = true ->
  tls_thread_key w !! t = Some id ->
  0 <= id < PERF_MAX_THREADS ->
  let w' := perf_unregister_thread t now w in
  exists old,
    thread_data s !! Z.to_nat id = Some old
    /\ context_ok (g_perf_context w')
    /\ config (g_perf_context w') = config s
    /\ active_threads (g_perf_context w') = wrap_int (active_threads s - 1)
    /\ tls_thread_key w' = tls_thread_key w
    /\ thread_data (g_perf_context w')
       = <[Z.to_nat id :=
             mk_thread_data (thread_id old) (omp_thread_num old) (start_time old)
               (perf_get_timestamp now) (thread_memory old) (thread_cpu old)
               (operations_count old) (thread_label old)]> (thread_data s).
Proof.
  intros s Hok He Ht Htls Hrange w'.
  pose proof (ok_threads s Hok) as Hlen.
  destruct (lookup_lt_is_Some_2 (thread_data s) (Z.to_nat id)) as [old Hold].
  { rewrite Hlen. unfold PERF_MAX_THREADS in *. lia. }
  exists old. split; [exact Hold|].
  destruct (unregister_spec t now w Hok) as (Hok' & Hcfg & Hact & _).
  fold s w' in Hok', Hcfg, Hact. rewrite He, Ht in Hact. cbn [andb] in Hact.
  split; [exact Hok'|]. split; [exact Hcfg|]. split; [exact Hact|].
  unfold w', perf_unregister_thread. fold s. rewrite He, Ht. cbn [negb orb].
  unfold get_thread_id. rewrite Htls.
  replace ((0 <=? id) && (id <? PERF_MAX_THREADS)) with true
    by (symmetry; apply andb_true_intro; split; lia).
  rewrite Hold. split; reflexivity.
Qed.

(** C8.  Thread [a] registers, thread [b] registers, [a] unregisters,
    thread [c] registers.  [c] is given the index of [b], which is
    still registered: the two threads key by the same index, the slot of
    [b] is overwritten by the registration of [c] (its start time is
    that of [c]), and the index that [a] gave up stays unused. *)
Theorem live_index_assigned_again (a b c : os_thread) (t_a t_b t_u t_c : timespec)
    (w : perf_world) :
  let s := g_perf_context w in
  let k := active_threads s in
  context_ok s ->
  truthy (enabled (config s)) = true -> truthy (track_threads (config s)) = true ->
  0 <= k -> k + 2 <= PERF_MAX_THREADS ->
  a <> b -> b <> c ->
  exists w1 w2 w4 slot_b slot,
    perf_register_thread a t_a w = Ok (k, w1)
    /\ perf_register_thread b t_b w1 = Ok (k + 1, w2)
    /\ perf_register_thread c t_c (perf_unregister_thread a t_u w2) = Ok (k + 1, w4)
    /\ tls_thread_key w4 !! b = Some (k + 1)
    /\ tls_thread_key w4 !! c = Some (k + 1)
    /\ perf_get_thread_data (k + 1) (g_perf_context w2) = Some slot_b
    /\ start_time slot_b = perf_get_timestamp t_b
    /\ perf_get_thread_data (k + 1) (g_perf_context w4) = Some slot
    /\ start_time slot = perf_get_timestamp t_c
    /\ active_threads (g_perf_context w4) = k + 2.
Proof.
  intros s k Hok He Ht Hk0 Hk2 Hab Hbc.
  assert (Hk : 0 <= k /\ k + 2 <= 256) by (unfold PERF_MAX_THREADS in Hk2; lia).
  destruct (register_world a t_a w Hok He Ht ltac:(unfold PERF_MAX_THREADS; fold s k; lia))
    as (w1 & old_a & Hreg1 & Hok1 & Hcfg1 & Hact1 & Htls1 & _ & Htd1).
  fold s k in Hreg1, Hcfg1, Hact1, Htls1, Htd1.
  destruct (register_world b t_b w1 Hok1) as
    (w2 & old_b & Hreg2 & Hok2 & Hcfg2 & Hact2 & Htls2 & _ & Htd2);
    [by rewrite Hcfg1|by rewrite Hcfg1|rewrite Hact1; unfold PERF_MAX_THREADS; lia|].
  rewrite Hact1 in Hreg2, Hact2, Htls2, Htd2. rewrite Hcfg1 in Hcfg2.
  assert (Htls_a : tls_thread_key w2 !! a = Some k).
  { rewrite Htls2, lookup_insert_ne by done. rewrite Htls1. apply lookup_insert_eq. }
  destruct (unregister_world a t_u w2 k Hok2) as
    (old_u & _ & Hok3 & Hcfg3 & Hact3 & Htls3 & Htd3);
    [by rewrite Hcfg2|by rewrite Hcfg2|exact Htls_a|unfold PERF_MAX_THREADS; lia|].
  rewrite Hact2 in Hact3. replace (k + 1 + 1 - 1) with (k + 1) in Hact3 by lia.
  rewrite wrap_int_small in Hact3 by lia. rewrite Hcfg2 in Hcfg3.
  set (w3 := perf_unregister_thread a t_u w2) in *.
  destruct (register_world c t_c w3 Hok3) as
    (w4 & old_c & Hreg4 & Hok4 & Hcfg4 & Hact4 & Htls4 & _ & Htd4);
    [by rewrite Hcfg3|by rewrite Hcfg3|rewrite Hact3; unfold PERF_MAX_THREADS; lia|].
  rewrite Hact3 in Hreg4, Hact4, Htls4, Htd4.
  assert (Hin : (k + 1 <? 0) || (PERF_MAX_THREADS <=? k + 1) = false).
  { apply orb_false_intro; [lia|unfold PERF_MAX_THREADS; lia]. }
  assert (Hlen2 : length (thread_data (g_perf_context w1)) = 256%nat)
    by apply (ok_threads _ Hok1).
  assert (Hlen3 : length (thread_data (g_perf_context w3)) = 256%nat)
    by apply (ok_threads _ Hok3).
  eexists w1, w2, w4, _, _.
  split; [exact Hreg1|]. split; [exact Hreg2|]. split; [exact Hreg4|].
  split.
  { rewrite Htls4, lookup_insert_ne by done. rewrite Htls3, Htls2.
    apply lookup_insert_eq. }
  split; [rewrite Htls4; apply lookup_insert_eq|].
  split.
  { unfold perf_get_thread_data. rewrite Hin, Htd2.
    apply list_lookup_insert_eq. lia. }
  split; [reflexivity|].
  split.
  { unfold perf_get_thread_data. rewrite Hin, Htd4.
    apply list_lookup_insert_eq. lia. }
  split; [reflexivity|]. rewrite Hact4. lia.
Qed.

Lemma live_index_assigned_again_witness :
  exists w1 w2 w4 slot_b slot,
    perf_register_thread 1%N (mk_timespec 100 1) fresh_world = Ok (0, w1)
    /\ perf_register_thread 2%N (mk_timespec 100 2) w1 = Ok (1, w2)
    /\ perf_register_thread 3%N (mk_timespec 100 4)
         (perf_unregister_thread 1%N (mk_timespec 100 3) w2) = Ok (1, w4)
    /\ tls_thread_key w4 !! 2%N = Some 1
    /\ tls_thread_key w4 !! 3%N = Some 1
    /\ perf_get_thread_data 1 (g_perf_context w2) = Some slot_b
    /\ start_time slot_b = perf_get_timestamp (mk_timespec 100 2)
    /\ perf_get_thread_data 1 (g_perf_context w4) = Some slot
    /\ start_time slot = perf_get_timestamp (mk_timespec 100 4)
    /\ active_threads (g_perf_context w4) = 2.
Proof.
  destruct (live_index_assigned_again 1%N 2%N 3%N (mk_timespec 100 1) (mk_timespec 100 2)
              (mk_timespec 100 3) (mk_timespec 100 4) fresh_world fresh_world_ok
              eq_refl eq_refl ltac:(done) ltac:(done) ltac:(done) ltac:(done))
    as (w1 & w2 & w4 & slot_b & slot & H1 & H2 & H4 & Hb & Hc & Hsb & Hstb & Hslot
        & Hstart & Hact).
  exists w1, w2, w4, slot_b, slot. repeat split; assumption.
Defined.

(* ====================================================================== *)
(** * What the conversions print, read back *)

Lemma digit_char_code (d : N) : (d < 10)%N -> N_of_ascii (digit_char d) = (48 + d)%N.
Proof. intros Hd. unfold digit_char. rewrite N_ascii_embedding; lia. Qed.

Lemma fmt_digits_all_digits (fuel : nat) (n : N) (acc : string) :
  all_digits acc = true -> all_digits (fmt_digits fuel n acc) = true.
Proof.
  revert n acc. induction fuel as [|fuel IH]; intros n acc Hacc; simpl; [done|].
  assert (Hd : (n mod 10 < 10)%N) by (apply N.mod_lt; lia).
  assert (Hstep : all_digits (String (digit_char (n mod 10)) acc) = true).
  { cbn [all_digits]. rewrite digit_char_code, Hacc by done.
    set (d := (n mod 10)%N) in *. clearbody d.
    rewrite andb_true_r. apply andb_true_intro. split; apply N.leb_le; lia. }
  destruct (n / 10 =? 0)%N; [done|]. by apply IH.
Qed.

Lemma fmt_zu_all_digits (n : N) : all_digits (fmt_zu n) = true.
Proof. by apply fmt_digits_all_digits. Qed.

Lemma zeros_all_digits (k : nat) (s : string) :
  all_digits s = true -> all_digits (zeros k s) = true.
Proof. intros Hs. induction k as [|k IH]; simpl; [done|]. exact IH. Qed.

Lemma fmt_zu_nonempty (n : N) : (1 <= String.length (fmt_zu n))%nat.
Proof.
  unfold fmt_zu. cbn [fmt_digits]. destruct (n / 10 =? 0)%N; [simpl; lia|].
  etrans; [|apply fmt_digits_grows]. simpl. lia.
Qed.

Lemma all_digits_head (c : ascii) (s : string) :
  all_digits (String c s) = true ->
  Ascii.eqb c "-" = false /\ Ascii.eqb c "." = false /\ all_digits s = true.
Proof.
  cbn [all_digits]. intros H. apply andb_prop in H as [H Hs].
  apply andb_prop in H as [Hlo Hhi].
  split; [|split; [|done]]; apply Ascii.eqb_neq; intros ->; by vm_compute in Hlo.
Qed.

Lemma all_digits_unpointed (s : string) : all_digits s = true -> unpointed s = s.
Proof.
  induction s as [|c s IH]; intros Hs; [done|].
  apply all_digits_head in Hs as (_ & Hp & Hs). cbn [unpointed]. rewrite Hp.
  by rewrite IH.
Qed.

Lemma all_digits_app (a b : string) :
  all_digits (String.append a b) = all_digits a && all_digits b.
Proof. induction a as [|c a IH]; [done|]. simpl. rewrite IH. by rewrite andb_assoc. Qed.

Lemma unpointed_app (a b : string) :
  unpointed (String.append a b) = String.append (unpointed a) (unpointed b).
Proof.
  induction a as [|c a IH]; [done|]. simpl. destruct (Ascii.eqb c "."); [done|].
  simpl. by rewrite IH.
Qed.

Lemma decimals_app (a b : string) :
  all_digits a = true -> decimals (String.append a (String "." b)) = b.
Proof.
  induction a as [|c a IH]; intros Ha; [done|].
  apply all_digits_head in Ha as (_ & Hp & Ha). simpl. rewrite Hp. by apply IH.
Qed.

Lemma digits_value_acc (s : string) (acc : N) :
  digits_value s acc = (acc * 10 ^ N.of_nat (String.length s) + digits_value s 0)%N.
Proof.
  revert acc. induction s as [|c s IH]; intros acc.
  - simpl. lia.
  - cbn [digits_value String.length]. rewrite (IH (10 * acc + _)%N), (IH (10 * 0 + _)%N).
    replace (N.of_nat (S (String.length s))) with (N.succ (N.of_nat (String.length s)))
      by lia.
    rewrite N.pow_succ_r'. lia.
Qed.

Lemma digits_value_app (a b : string) (acc : N) :
  digits_value (String.append a b) acc = digits_value b (digits_value a acc).
Proof. revert acc. induction a as [|c a IH]; intros acc; [done|]. simpl. apply IH. Qed.

Lemma signed_value_digits (s : string) :
  all_digits s = true -> signed_value s = Z.of_N (digits_value s 0).
Proof.
  destruct s as [|c s]; [done|]. intros Hs.
  apply all_digits_head in Hs as (Hm & _). unfold signed_value. by rewrite Hm.
Qed.

Lemma str_prefix_minus_digits (s : string) :
  all_digits s = true -> str_prefix "-" s = false.
Proof.
  destruct s as [|c s]; [done|]. intros Hs.
  apply all_digits_head in Hs as (Hm & _). cbn [str_prefix].
  rewrite Ascii.eqb_sym. by rewrite Hm.
Qed.


Lemma even_of_N (q : N) : Z.even (Z.of_N q) = N.even q.
Proof. by destruct q as [|[p|p|]]. Qed.

(** Division to the nearest, ties to even. *)
Lemma div_nearest_even_spec (num den : N) :
  (0 < den)%N ->
  let n := Z.of_N (div_nearest_even num den) in
  2 * Z.abs (n * Z.of_N den - Z.of_N num) <= Z.of_N den
  /\ (2 * Z.abs (n * Z.of_N den - Z.of_N num) = Z.of_N den -> Z.even n = true).
Proof.
  intros Hden. unfold div_nearest_even.
  pose proof (N.div_mod num den ltac:(lia)) as Hdm.
  pose proof (N.mod_lt num den ltac:(lia)) as Hr.
  set (q := (num / den)%N) in *. set (r := (num mod den)%N) in *.
  destruct (N.compare_spec (2 * r) den) as [Heq|Hlt|Hgt].
  - destruct (N.even q) eqn:Hev; cbv zeta.
    + split; [nia|]. intros _. by rewrite even_of_N.
    + split; [nia|]. intros _.
      rewrite N2Z.inj_add, Z.even_add, even_of_N, Hev. reflexivity.
  - cbv zeta. split; [nia|]. intros Htie. nia.
  - cbv zeta. split; [nia|]. intros Htie. nia.
Qed.

Lemma zero_pad_length (width : nat) (s : string) :
  (String.length s <= width)%nat -> String.length (zero_pad width s) = width.
Proof. intros Hs. unfold zero_pad. rewrite zeros_length. lia. Qed.

(** The digits that [%.<prec>f] prints for the magnitude [n] (in units
    of the last decimal), with or without a minus sign in front. *)
Lemma fixed_text_reads_back (p : nat) (n : N) (neg : bool) :
  let p10 := (10 ^ N.of_nat (S p))%N in
  let body := String.append (fmt_zu (n / p10))
                (String "." (zero_pad (S p) (fmt_zu (n mod p10)))) in
  let text := if neg then String "-" body else body in
  String.length (decimals text) = S p
  /\ fixed_value text = (if neg then - Z.of_N n else Z.of_N n)
  /\ str_prefix "-" text = neg.
Proof.
  intros p10 body text.
  assert (Hp10 : (0 < p10)%N) by (unfold p10; lia).
  pose proof (N.mod_lt n p10 ltac:(lia)) as Hr.
  pose proof (N.div_mod n p10 ltac:(lia)) as Hdm.
  set (a := (n / p10)%N) in *. set (r := (n mod p10)%N) in *.
  set (b := zero_pad (S p) (fmt_zu r)) in *.
  assert (Hblen : String.length b = S p).
  { apply zero_pad_length. apply fmt_zu_length; [lia|exact Hr]. }
  assert (Hbdig : all_digits b = true).
  { apply zeros_all_digits, fmt_zu_all_digits. }
  assert (Hbval : digits_value b 0 = r).
  { unfold b, zero_pad. by rewrite zeros_value, fmt_zu_value. }
  assert (Hdec : decimals body = b) by (apply decimals_app, fmt_zu_all_digits).
  assert (Hunp : unpointed body = String.append (fmt_zu a) b).
  { unfold body. rewrite unpointed_app. cbn [unpointed].
    change (Ascii.eqb "." ".") with true. cbn iota.
    by rewrite !all_digits_unpointed by (done || apply fmt_zu_all_digits). }
  assert (Hdig : all_digits (String.append (fmt_zu a) b) = true).
  { by rewrite all_digits_app, fmt_zu_all_digits, Hbdig. }
  assert (Hval : digits_value (String.append (fmt_zu a) b) 0 = n).
  { rewrite digits_value_app, fmt_zu_value, digits_value_acc, Hblen, Hbval.
    fold p10. lia. }
  assert (Hhead : exists c rest, body = String c rest /\ Ascii.eqb c "-" = false
                                 /\ Ascii.eqb c "." = false).
  { pose proof (fmt_zu_nonempty a) as Hne. pose proof (fmt_zu_all_digits a) as Ha.
    unfold body. destruct (fmt_zu a) as [|c rest]; [simpl in Hne; lia|].
    apply all_digits_head in Ha as (Hm & Hpt & _).
    by exists c, (String.append rest (String "." b)). }
  destruct Hhead as (c & rest & Hbody & Hm & Hpt).
  destruct neg; unfold text.
  - split; [|split].
    + cbn [decimals]. change (Ascii.eqb "-" ".") with false. cbn iota.
      by rewrite Hdec.
    + unfold fixed_value. cbn [unpointed]. change (Ascii.eqb "-" ".") with false.
      cbn iota. rewrite Hunp. cbn [signed_value].
      change (Ascii.eqb "-" "-") with true. cbn iota. by rewrite Hval.
    + reflexivity.
  - split; [by rewrite Hdec|]. split.
    + unfold fixed_value. rewrite Hunp, signed_value_digits by done. by rewrite Hval.
    + rewrite Hbody. cbn [str_prefix]. rewrite Ascii.eqb_sym. by rewrite Hm.
Qed.

(** [fmt_f] prints what the C library prints. *)
Lemma fmt_f_prints (p : nat) (x : double) : prints_as (S p) x (fmt_f (S p) x).
Proof.
  unfold prints_as, fmt_f. destruct (Prim2SF x) as [neg|neg| |neg m e].
  - pose proof (fixed_text_reads_back p 0 neg) as H. cbv zeta in H.
    destruct neg; exact H.
  - reflexivity.
  - by left.
  - exists (Z.of_N (scaled_magnitude (S p) m e)).
    pose proof (fixed_text_reads_back p (scaled_magnitude (S p) m e) neg) as H.
    cbv zeta in H. destruct H as (Hdec & Hval & Hsign).
    split; [exact Hdec|]. split; [exact Hval|]. split; [exact Hsign|].
    split; [lia|].
    unfold scaled_magnitude. destruct (Z.leb_spec 0 e) as [He|He].
    + rewrite !N2Z.inj_mul, !N2Z.inj_pow, Z2N.id, nat_N_Z by lia. reflexivity.
    + pose proof (div_nearest_even_spec (Npos m * 10 ^ N.of_nat (S p))
                    (2 ^ Z.to_N (- e)) ltac:(lia)) as Hdiv.
      cbv zeta in Hdiv.
      rewrite !N2Z.inj_mul, !N2Z.inj_pow, Z2N.id, nat_N_Z in Hdiv by lia.
      exact Hdiv.
Qed.

Lemma str_take_length_cut (n : nat) (s : string) :
  (n <= String.length s)%nat -> String.length (str_take n s) = n.
Proof.
  revert s. induction n as [|n IH]; intros s Hs; [done|].
  destruct s as [|c s]; [simpl in Hs; lia|]. simpl in *. rewrite IH; lia.
Qed.

(** The text that [snprintf] leaves in a 64-byte field: the whole text
    when it has at most 63 characters, and its first 63 otherwise. *)
Lemma bounded_label_text (head text : string) :
  let whole := String.append head text in
  str_prefix (bounded_label whole) whole = true
  /\ ((String.length head + String.length text <= 63)%nat -> bounded_label whole = whole)
  /\ ((63 < String.length head + String.length text)%nat ->
      String.length (bounded_label whole) = 63%nat
      /\ bounded_label whole <> whole).
Proof.
  intros whole. unfold bounded_label.
  change (PERF_MAX_LABEL_LEN - 1)%nat with 63%nat.
  assert (Hlen : String.length whole = (String.length head + String.length text)%nat)
    by apply string_length_append.
  split; [apply str_prefix_take|]. split.
  - intros Hfit. apply str_take_all. lia.
  - intros Hlong.
    assert (Hcut : String.length (str_take 63 whole) = 63%nat)
      by (apply str_take_length_cut; lia).
    split; [exact Hcut|]. intros Heq. rewrite Heq in Hcut. lia.
Qed.




(* ====================================================================== *)
(** * Algorithm steps *)

(** X20.  With monitoring enabled and room in the buffer,
    [perf_log_algorithm_step(algorithm, step, metric)] stores one record
    of the generic kind USER_1 whose value is [metric] and whose label is
    ["<algorithm>_<step>"], cut to 63 characters.  Its context is what
    the two [snprintf] into 64-byte fields leave of ["metric=<metric>"],
    where [<metric>] is the metric as [%.6f] prints it (six decimals,
    rounded to the nearest millionth; [inf] or [-inf]; [nan] or [-nan]
    for a NaN): the whole text when the metric prints in at most 56
    characters.  The iteration, memory and CPU fields of the slot are
    not written.  With a null algorithm or step the call does nothing. *)
Theorem algorithm_step_record (a st : string) (metric : double) (now : timespec)
    (s : perf_context_t) :
  context_ok s -> truthy (enabled (config s)) = true ->
  (log_count s < log_capacity s)%N ->
  (forall st', perf_log_algorithm_step None st' metric now s = Ok s)
  /\ (forall a', perf_log_algorithm_step a' None metric now s = Ok s)
  /\ exists l e e' text,
      log_entries s = Some l
      /\ l !! N.to_nat (log_count s) = Some e
      /\ perf_log_algorithm_step (Some a) (Some st) metric now s = Ok (publish e' l s)
      /\ records (publish e' l s) = records s ++ [e']
      /\ milestone e' = PERF_MILESTONE_USER_1
      /\ duration_ms e' = metric
      /\ label e' = bounded_label (String.append a (String.append "_" st))
      /\ ((String.length a + 1 + String.length st <= 63)%nat ->
          label e' = String.append a (String.append "_" st))
      /\ prints_as 6 metric text
      /\ (Prim2SF metric <> S754_nan -> text = fmt_f 6 metric)
      /\ context e' = bounded_label (String.append "metric=" text)
      /\ str_prefix "metric=" (context e') = true
      /\ ((String.length text <= 56)%nat -> context e' = String.append "metric=" text)
      /\ ((56 < String.length text)%nat ->
          String.length (context e') = 63%nat
          /\ context e' <> String.append "metric=" text)
      /\ iteration_number e' = iteration_number e
      /\ convergence_metric e' = convergence_metric e
      /\ timestamp e' = perf_get_timestamp now
      /\ thread_count e' = perf_get_thread_count s
      /\ memory e' = memory e
      /\ cpu e' = cpu e.
Proof.
  intros Hok He Hlt.
  split; [done|]. split; [by intros [a'|]|].
  set (lbl := bounded_label (String.append a (String.append "_" st))).
  set (ctx := bounded_label (String.append "metric=" (fmt_f 6 metric))).
  destruct (event_publishes s lbl metric (Some ctx) now Hok He Hlt)
    as (l & e & Hl & Hle & Hp).
  destruct (bounded_label_text "metric=" (fmt_f 6 metric)) as (_ & Hfit & Hcut).
  change (String.length "metric=") with 7%nat in Hfit, Hcut.
  exists l, e, (event_entry s lbl metric (Some ctx) now e), (fmt_f 6 metric).
  split; [done|]. split; [done|]. split.
  { unfold perf_log_algorithm_step. rewrite He. exact Hp. }
  split; [by apply records_publish|].
  cbn [event_entry milestone duration_ms label context iteration_number
       convergence_metric].
  assert (Hlbl : bounded_label lbl = lbl) by apply str_take_idem.
  assert (Hctx : bounded_label ctx = ctx) by apply str_take_idem.
  rewrite Hlbl, Hctx.
  do 3 (split; [done|]). split.
  { intros Hshort. unfold lbl, bounded_label. apply str_take_all.
    rewrite !string_length_append.
    change (String.length "_") with 1%nat.
    change (PERF_MAX_LABEL_LEN - 1)%nat with 63%nat. lia. }
  split; [apply (fmt_f_prints 5)|].
  split; [reflexivity|]. split; [reflexivity|].
  split; [reflexivity|].
  split; [intros Hshort; apply Hfit; lia|].
  split; [intros Hlong; apply Hcut; lia|].
  by repeat split.
Qed.

Lemma algorithm_step_record_witness :
  context_ok (g_perf_context fresh_world)
  /\ exists l e',
      perf_log_algorithm_step (Some "kmeans"%string) (Some "assign"%string) metric_042
        (mk_timespec 101 0) (g_perf_context fresh_world)
      = Ok (publish e' l (g_perf_context fresh_world))
      /\ milestone e' = PERF_MILESTONE_USER_1
      /\ duration_ms e' = metric_042
      /\ label e' = "kmeans_assign"%string
      /\ context e' = "metric=0.420000"%string.
Proof.
  split; [apply fresh_world_ok|].
  destruct (algorithm_step_record "kmeans" "assign" metric_042 (mk_timespec 101 0)
              (g_perf_context fresh_world) fresh_world_ok eq_refl eq_refl)
    as (_ & _ & l & e & e' & text & _ & _ & Hr & _ & Hm & Hd & _ & Hl & _ & Htext & _ & _
        & Hc & _).
  exists l, e'. split; [exact Hr|]. split; [exact Hm|]. split; [exact Hd|].
  split; [apply Hl; simpl; lia|].
  rewrite (Htext ltac:(discriminate)) in Hc.
  apply Hc. change (String.length (fmt_f 6 metric_042)) with 8%nat. lia.
Defined.

(* ====================================================================== *)
(** * Scoped milestones *)

(** The end of an active milestone on a full buffer stores nothing and
    marks the milestone inactive. *)
Lemma end_active_full (m : perf_milestone_t) (lbl : option string) (os : os_probe)
    (w : perf_world) (a : Z) :
  let s := g_perf_context w in
  context_ok s ->
  truthy (enabled (config s)) = true ->
  (m < PERF_MILESTONE_COUNT)%N ->
  milestone_active s !! N.to_nat m = Some a -> truthy a = true ->
  (log_capacity s <= log_count s)%N ->
  perf_end_milestone_labeled m lbl os w
  = Ok (set_context (set_milestone_active (<[N.to_nat m := 0]> (milestone_active s)) s) w).
Proof.
  intros s Hok He Hm Ha Hat Hfull.
  destruct (milestone_slots s m Hok Hm) as (a' & start & Ha' & Hst).
  unfold perf_end_milestone_labeled. fold s. rewrite He. cbn [negb orb].
  destruct (N.leb_spec PERF_MILESTONE_COUNT m); [lia|].
  rewrite Ha, Hst, Hat. cbn [negb].
  destruct (N.ltb_spec (log_count s) (log_capacity s)); [lia|].
  reflexivity.
Qed.

(** X22.  [PERF_SCOPED_MILESTONE] (GNU C) opens a block by starting the
    milestone [m]; when the block is left, whatever its body has done,
    [perf_scoped_milestone_cleanup] runs on the scope object.  A block
    entered while monitoring is enabled then stores exactly one record if
    monitoring is still enabled, [m] is still active and the buffer has
    room: its kind is [m], its label the first 63 characters of the
    label, and its duration the time from the last start of [m] to the
    exit, which is the time from the entry when the body is empty.  It
    stores no record if the body has disabled monitoring or has ended
    [m] (or reset the monitor), leaving the state as it is, and none if
    the buffer is full, when it only marks [m] inactive.  A block entered
    while monitoring is disabled stores nothing at its exit, even if
    monitoring has been enabled in between. *)
Theorem scoped_milestone_records_once (m : perf_milestone_t) (lbl : string)
    (entry : timespec) (os : os_probe) (w : perf_world) :
  let s := g_perf_context w in
  let scope := fst (PERF_SCOPED_MILESTONE m lbl entry s) in
  let w1 := set_context (snd (PERF_SCOPED_MILESTONE m lbl entry s)) w in
  context_ok s -> (m < PERF_MILESTONE_COUNT)%N ->
  (truthy (enabled (config s)) = false ->
   w1 = w
   /\ forall w2, perf_scoped_milestone_cleanup (Some scope) os w2 = Ok w2)
  /\ (truthy (enabled (config s)) = true ->
      milestone_active (g_perf_context w1) !! N.to_nat m = Some 1
      /\ milestone_starts (g_perf_context w1) !! N.to_nat m
         = Some (perf_get_timestamp entry)
      /\ forall (body : list api_call) (w2 : perf_world),
          perf_run body w1 = Ok w2 ->
          let s2 := g_perf_context w2 in
          exists a start,
            milestone_active s2 !! N.to_nat m = Some a
            /\ milestone_starts s2 !! N.to_nat m = Some start
            /\ (body = [] -> truthy a = true /\ start = perf_get_timestamp entry
                             /\ truthy (enabled (config s2)) = true
                             /\ log_count s2 = log_count s)
            /\ (truthy (enabled (config s2)) = false \/ truthy a = false ->
                perf_scoped_milestone_cleanup (Some scope) os w2 = Ok w2)
            /\ (truthy (enabled (config s2)) = true -> truthy a = true ->
                (log_capacity s2 <= log_count s2)%N ->
                exists w',
                  perf_scoped_milestone_cleanup (Some scope) os w2 = Ok w'
                  /\ records (g_perf_context w') = records s2
                  /\ log_count (g_perf_context w') = log_count s2
                  /\ milestone_active (g_perf_context w') !! N.to_nat m = Some 0)
            /\ (truthy (enabled (config s2)) = true -> truthy a = true ->
                (log_count s2 < log_capacity s2)%N ->
                exists w' e',
                  perf_scoped_milestone_cleanup (Some scope) os w2 = Ok w'
                  /\ records (g_perf_context w') = records s2 ++ [e']
                  /\ milestone e' = m
                  /\ label e' = bounded_label lbl
                  /\ duration_ms e'
                     = perf_timestamp_diff_ms (Some start)
                         (Some (perf_get_timestamp (clock_now os)))
                  /\ milestone_active (g_perf_context w') !! N.to_nat m = Some 0)).
Proof.
  intros s scope w1 Hok Hm. split.
  - intros He. unfold w1, scope, PERF_SCOPED_MILESTONE. rewrite He.
    cbn [fst snd]. split; [by destruct w|]. intros w2. reflexivity.
  - intros He.
    assert (Hscope : scope = mk_scoped_milestone m (bounded_label lbl) 1)
      by (unfold scope, PERF_SCOPED_MILESTONE; by rewrite He).
    assert (Hs1 : g_perf_context w1 = perf_start_milestone_labeled m (Some lbl) entry s)
      by (unfold w1, PERF_SCOPED_MILESTONE; by rewrite He).
    assert (Hok1 : context_ok (g_perf_context w1))
      by (rewrite Hs1; by apply start_context_ok).
    assert (Hcfg1 : config (g_perf_context w1) = config s).
    { rewrite Hs1, (start_enabled m (Some lbl) entry s He Hm). reflexivity. }
    assert (Hcount1 : log_count (g_perf_context w1) = log_count s).
    { rewrite Hs1, (start_enabled m (Some lbl) entry s He Hm). reflexivity. }
    assert (Hact1 : milestone_active (g_perf_context w1) !! N.to_nat m = Some 1).
    { rewrite Hs1, (start_enabled m (Some lbl) entry s He Hm).
      apply list_lookup_insert_eq. rewrite (ok_active s Hok). lia. }
    assert (Hst1 : milestone_starts (g_perf_context w1) !! N.to_nat m
                   = Some (perf_get_timestamp entry)).
    { rewrite Hs1, (start_enabled m (Some lbl) entry s He Hm).
      apply list_lookup_insert_eq. rewrite (ok_starts s Hok). lia. }
    clearbody scope w1. subst scope.
    split; [exact Hact1|]. split; [exact Hst1|].
    intros body w2 Hbody s2.
    destruct (run_context_ok body w1 w2 Hok1 Hbody) as [Hok2 _].
    destruct (milestone_slots s2 m Hok2 Hm) as (a & start & Ha & Hst).
    exists a, start. split; [exact Ha|]. split; [exact Hst|].
    assert (Hcleanup : perf_scoped_milestone_cleanup
                         (Some (mk_scoped_milestone m (bounded_label lbl) 1)) os w2
                       = if truthy (enabled (config s2))
                         then perf_end_milestone_labeled m (Some (bounded_label lbl)) os w2
                         else Ok w2) by reflexivity.
    split; [|split; [|split]].
    + intros ->. injection Hbody as <-. subst s2.
      rewrite Hact1 in Ha. injection Ha as <-. rewrite Hst1 in Hst. injection Hst as <-.
      rewrite Hcfg1. by repeat split.
    + intros Hoff. rewrite Hcleanup.
      destruct (truthy (enabled (config s2))) eqn:He2; [|done].
      destruct Hoff as [?|Hina]; [done|]. by apply (end_inactive m _ os w2 a).
    + intros He2 Hat Hfull. rewrite Hcleanup, He2.
      rewrite (end_active_full m _ os w2 a Hok2 He2 Hm Ha Hat Hfull). fold s2.
      eexists. split; [reflexivity|].
      cbn [g_perf_context set_context]. split; [reflexivity|]. split; [reflexivity|].
      apply list_lookup_insert_eq. rewrite (ok_active s2 Hok2). lia.
    + intros He2 Hat Hlt. rewrite Hcleanup, He2.
      destruct (write_entry_ok id s2 Hok2 Hlt) as (l & e & Hl & Hle & _).
      destruct (end_active_publishes m (Some (bounded_label lbl)) os w2 a start l e)
        as (w' & e' & Hend & Hc & _ & Hl' & Hact & _ & Hk & _ & Hd & _ & _ & _ & Hlbl & _);
        try done.
      exists w', e'. split; [exact Hend|].
      split; [by apply (records_after_publish s2 _ l e')|].
      split; [exact Hk|]. split; [rewrite Hlbl; apply str_take_idem|].
      split; [exact Hd|].
      rewrite Hact. apply list_lookup_insert_eq. rewrite (ok_active _ Hok2). lia.
Qed.

(** A block whose body is empty, entered with [milestone] holding
    [PERF_MILESTONE_CLUSTERING_START] and [label] pointing to ["pass"]. *)
Lemma scoped_milestone_records_once_witness :
  context_ok (g_perf_context fresh_world)
  /\ exists w' e',
      perf_scoped_milestone_cleanup
        (Some (fst (PERF_SCOPED_MILESTONE PERF_MILESTONE_CLUSTERING_START "pass"
                      (mk_timespec 100 2000000) (g_perf_context fresh_world))))
        (probe_at (mk_timespec 100 5000000))
        (set_context
           (snd (PERF_SCOPED_MILESTONE PERF_MILESTONE_CLUSTERING_START "pass"
                   (mk_timespec 100 2000000) (g_perf_context fresh_world)))
           fresh_world) = Ok w'
      /\ records (g_perf_context w') = [e']
      /\ milestone e' = PERF_MILESTONE_CLUSTERING_START
      /\ label e' = "pass"%string
      /\ duration_ms e' = 3%float.
Proof.
  split; [apply fresh_world_ok|].
  destruct (scoped_milestone_records_once PERF_MILESTONE_CLUSTERING_START "pass"
              (mk_timespec 100 2000000) (probe_at (mk_timespec 100 5000000))
              fresh_world fresh_world_ok eq_refl) as [_ H].
  destruct (H eq_refl) as (_ & _ & Hexit).
  destruct (Hexit [] _ eq_refl) as (a & start & _ & _ & Hempty & _ & _ & Hroom).
  destruct (Hempty eq_refl) as (Ha & -> & He & Hc).
  destruct (Hroom He Ha) as (w' & e' & Hr & Hrec & Hk & Hl & Hd & _).
  { rewrite Hc. reflexivity. }
  exists w', e'. split; [exact Hr|]. split; [exact Hrec|]. split; [exact Hk|].
  split; [exact Hl|]. rewrite Hd. vm_compute. reflexivity.
Defined.
